(** * Validator telemetry report: ABI decoding and reconciliation

    A shallow embedding of [validator_telemetry_report.py].

    Conventions of the model.

    - A Python [str] holding RPC hex payloads, call data and addresses is a
      list of 8-bit characters ([str := list ascii], the code points 0..255).
      Literals are written [lit "0x..."].
    - A Python [str] holding a display name (a moniker decoded from UTF-8, a
      telemetry label) is a list of Unicode code points ([text := list Z]).
      Literals are written [txt "alice"].
    - Python integers are [Z]; [len] is [length] (a [nat]); a byte of a
      [bytes] object is a [Z] in 0..255.
    - A Python exception is a value [Raise e] of the result type [exc];
      [try: ... except Exception: ...] is [try_except].
    - The network is an oracle [rpc_post] on an explicit world state.
    - The order in which Python iterates over a set is a parameter
      [set_iter], any enumeration of the elements; the clock reading of
      [generate_report] is its parameter [now].
    - A double is its exact value [m * 2^e]; the operations round to the
      nearest double, ties to even.
    - [print] calls are not modelled. *)

From Stdlib Require Import ZArith NArith Ascii String List Lia Bool ZifyBool.
From stdpp Require Import base tactics option list list_numbers gmap sorting pretty.

Local Open Scope Z_scope.

(** ** Exceptions *)

Inductive exn : Type :=
| ValueError
| UnicodeDecodeError
| ConnectionError
| HTTPError
| JSONDecodeError
| RpcError
| ZeroDivisionError
| OverflowError.

Inductive exc (A : Type) : Type :=
| Ok (a : A)
| Raise (e : exn).
Arguments Ok {A} a.
Arguments Raise {A} e.

Global Instance exc_ret : MRet exc := fun A a => Ok a.
Global Instance exc_bind : MBind exc := fun A B k m =>
  match m with
  | Ok a => k a
  | Raise e => Raise e
  end.
Global Instance exc_fmap : FMap exc := fun A B f m =>
  match m with
  | Ok a => Ok (f a)
  | Raise e => Raise e
  end.

(** [try: body  except Exception: handler] for a body that is a value. *)
Definition try_except {A} (body : exc A) (handler : A) : A :=
  match body with
  | Ok a => a
  | Raise _ => handler
  end.

Definition raises {A} (m : exc A) : Prop := exists e, m = Raise e.

(** ** Python strings over 8-bit characters *)

Abbreviation str := (list ascii).
Definition lit (s : string) : str := list_ascii_of_string s.

Definition ord (c : ascii) : Z := Z.of_N (N_of_ascii c).
Definition chr (n : Z) : ascii := ascii_of_N (Z.to_N n).

(** Index normalisation of a slice bound: negative bounds count from the
    end, and every bound is clamped to [0, len]. *)
Definition slice_index (len i : Z) : Z :=
  if i <? 0 then Z.max (i + len) 0 else Z.min i len.

(** [s[lo:hi]] *)
Definition py_slice {A} (s : list A) (lo hi : Z) : list A :=
  let n := Z.of_nat (length s) in
  let a := slice_index n lo in
  let b := slice_index n hi in
  take (Z.to_nat (b - a)) (drop (Z.to_nat a) s).

(** [s[lo:]] *)
Definition py_slice_from {A} (s : list A) (lo : Z) : list A :=
  drop (Z.to_nat (slice_index (Z.of_nat (length s)) lo)) s.

(** [str.lower] on the code points 0..255: A-Z and the Latin-1 capitals
    U+00C0..U+00DE other than the multiplication sign U+00D7. *)
Definition lower_char (c : ascii) : ascii :=
  let n := ord c in
  if ((65 <=? n) && (n <=? 90)) || ((192 <=? n) && (n <=? 222) && negb (n =? 215))
  then chr (n + 32) else c.

Definition py_lower (s : str) : str := map lower_char s.

Definition str_eqb (a b : str) : bool := bool_decide (a = b).

(** ** [int(s, 16)] *)

(** [_PyLong_DigitValue] restricted to base 16. *)
Definition hex_digit (c : ascii) : option Z :=
  let n := ord c in
  if (48 <=? n) && (n <=? 57) then Some (n - 48)
  else if (97 <=? n) && (n <=? 102) then Some (n - 87)
  else if (65 <=? n) && (n <=? 70) then Some (n - 55)
  else None.

(** [Py_ISSPACE]: the ASCII white space. *)
Definition ascii_space (c : ascii) : bool :=
  let n := ord c in
  ((9 <=? n) && (n <=? 13)) || (n =? 32).

(** White space as [int] sees it: the ASCII white space, and the two
    code points above 127 that [Py_UNICODE_ISSPACE] maps to a blank before
    parsing (U+0085 and U+00A0). *)
Definition int_space (c : ascii) : bool :=
  let n := ord c in
  ascii_space c || (n =? 133) || (n =? 160).

Definition is_underscore (c : ascii) : bool := ord c =? 95.

(** The digit loop of [long_from_binary_base]: digits with single
    underscores between them.  [prev] tells that the previous character was
    an underscore, [started] that a digit has been read. *)
Fixpoint scan_digits (prev started : bool) (acc : Z) (s : str) : exc (Z * str) :=
  let finish :=
    if prev then Raise ValueError
    else if started then Ok (acc, s) else Raise ValueError in
  match s with
  | [] => finish
  | c :: s' =>
      match hex_digit c with
      | Some d => scan_digits false true (16 * acc + d) s'
      | None =>
          if is_underscore c
          then (if prev then Raise ValueError else scan_digits true started acc s')
          else finish
      end
  end.

Fixpoint skip_spaces (s : str) : str :=
  match s with
  | c :: s' => if int_space c then skip_spaces s' else s
  | [] => []
  end.

Definition strip_sign (s : str) : bool * str :=
  match s with
  | c :: s' =>
      if ord c =? 43 then (false, s')
      else if ord c =? 45 then (true, s')
      else (false, s)
  | [] => (false, s)
  end.

(** The optional [0x]/[0X] prefix, after which one underscore is allowed. *)
Definition strip_prefix16 (s : str) : str :=
  match s with
  | z :: x :: s' =>
      if (ord z =? 48) && ((ord x =? 120) || (ord x =? 88))
      then match s' with
           | u :: s'' => if is_underscore u then s'' else s'
           | [] => s'
           end
      else s
  | _ => s
  end.

Definition starts_with_underscore (s : str) : bool :=
  match s with
  | c :: _ => is_underscore c
  | [] => false
  end.

Definition py_int16 (s : str) : exc Z :=
  let '(neg, s1) := strip_sign (skip_spaces s) in
  let s2 := strip_prefix16 s1 in
  if starts_with_underscore s2 then Raise ValueError
  else
    r ← scan_digits false false 0 s2;
    match skip_spaces (snd r) with
    | [] => Ok (if neg then - fst r else fst r)
    | _ :: _ => Raise ValueError
    end.

(** ** [decode_address_array] *)

Definition zero_address : str := lit "0x0000000000000000000000000000000000000000".

Definition decode_address_array (hex_result : str) : exc (list str) :=
  let hex_data := py_slice_from hex_result 2 in
  if Z.of_nat (length hex_data) <? 128 then Ok []
  else
    word0 ← py_int16 (py_slice hex_data 0 64);
    let offset := word0 * 2 in
    length ← py_int16 (py_slice hex_data offset (offset + 64));
    Ok (foldl
          (fun addresses i =>
             let start := offset + 64 + i * 64 in
             let addr := lit "0x" ++ py_slice hex_data (start + 24) (start + 64) in
             if negb (str_eqb (py_lower addr) zero_address)
             then addresses ++ [addr]
             else addresses)
          [] (seqZ 0 length)).

(** ** [bytes.fromhex] and [bytes.decode("utf-8")] *)

Abbreviation text := (list Z).
Definition txt (s : string) : text := ord <$> list_ascii_of_string s.

(** Two hexadecimal digits per byte; ASCII white space is skipped between
    bytes, never inside one. *)
Fixpoint bytes_fromhex (s : str) : exc (list Z) :=
  match s with
  | [] => Ok []
  | c :: s' =>
      if ascii_space c then bytes_fromhex s'
      else
        match hex_digit c, s' with
        | Some top, d :: s'' =>
            match hex_digit d with
            | Some bot => bs ← bytes_fromhex s''; Ok (top * 16 + bot :: bs)
            | None => Raise ValueError
            end
        | _, _ => Raise ValueError
        end
  end.

Definition in_range (lo hi b : Z) : bool := (lo <=? b) && (b <=? hi).

(** Range of the byte that follows the lead byte [b0] of a three- or
    four-byte sequence: over-long forms, surrogates and code points above
    U+10FFFF are refused. *)
Definition second_byte_ok (b0 b1 : Z) : bool :=
  if b0 =? 224 then in_range 160 191 b1
  else if b0 =? 237 then in_range 128 159 b1
  else if b0 =? 240 then in_range 144 191 b1
  else if b0 =? 244 then in_range 128 143 b1
  else in_range 128 191 b1.

(** The strict UTF-8 decoder. *)
Fixpoint utf8_decode (bs : list Z) : exc text :=
  match bs with
  | [] => Ok []
  | b0 :: r0 =>
      if in_range 0 127 b0 then
        cs ← utf8_decode r0; Ok (b0 :: cs)
      else if in_range 194 223 b0 then
        match r0 with
        | b1 :: r1 =>
            if in_range 128 191 b1
            then cs ← utf8_decode r1; Ok ((b0 - 192) * 64 + (b1 - 128) :: cs)
            else Raise UnicodeDecodeError
        | _ => Raise UnicodeDecodeError
        end
      else if in_range 224 239 b0 then
        match r0 with
        | b1 :: b2 :: r2 =>
            if second_byte_ok b0 b1 && in_range 128 191 b2
            then cs ← utf8_decode r2;
                 Ok ((b0 - 224) * 4096 + (b1 - 128) * 64 + (b2 - 128) :: cs)
            else Raise UnicodeDecodeError
        | _ => Raise UnicodeDecodeError
        end
      else if in_range 240 244 b0 then
        match r0 with
        | b1 :: b2 :: b3 :: r3 =>
            if second_byte_ok b0 b1 && in_range 128 191 b2 && in_range 128 191 b3
            then cs ← utf8_decode r3;
                 Ok ((b0 - 240) * 262144 + (b1 - 128) * 4096
                     + (b2 - 128) * 64 + (b3 - 128) :: cs)
            else Raise UnicodeDecodeError
        | _ => Raise UnicodeDecodeError
        end
      else Raise UnicodeDecodeError
  end.

(** ** The identity struct: the part of [get_validator_moniker] that
    follows the call, inside its [try] block *)

(** Lines 112-127: the offsets are followed down to the length word.
    [None] is the early [return None] of a short payload; otherwise the
    struct's characters, the position of the length word in them, and the
    declared length. *)
Definition moniker_header (result : str) : exc (option (str * Z * Z)) :=
  let hex_data := py_slice_from result 2 in
  if Z.of_nat (length hex_data) <? 128 then Ok None
  else
    outer_offset ← py_int16 (py_slice hex_data 0 64);
    let struct_start := outer_offset * 2 in
    let struct_hex := py_slice_from hex_data struct_start in
    moniker_offset ← py_int16 (py_slice struct_hex 0 64);
    let moniker_pos := moniker_offset * 2 in
    moniker_len ← py_int16 (py_slice struct_hex moniker_pos (moniker_pos + 64));
    Ok (Some (struct_hex, moniker_pos, moniker_len)).

(** Lines 129-135. *)
Definition decode_identity_moniker (result : str) : exc (option text) :=
  header ← moniker_header result;
  match header with
  | None => Ok None
  | Some (struct_hex, moniker_pos, moniker_len) =>
      if (moniker_len =? 0) || (moniker_len >? 1000) then Ok None
      else
        moniker_bytes ← bytes_fromhex
          (py_slice struct_hex (moniker_pos + 64) (moniker_pos + 64 + moniker_len * 2));
        moniker ← utf8_decode moniker_bytes;
        Ok (Some moniker)
  end.

(** The declared string length, when decoding gets as far as reading it. *)
Definition declared_moniker_len (result : str) : option Z :=
  match moniker_header result with
  | Ok (Some (_, _, moniker_len)) => Some moniker_len
  | _ => None
  end.

(** ** Configuration *)

Definition STAKING_CONTRACT : str := lit "0x10eCB157734c8152f1d84D00040c8AA46052CB27".
Definition VALIDATOR_WALLET_FACTORY : str := lit "0x2e198119E639D1063180f281617f64Dd788D78d2".
Definition CHAIN_ID : Z := 4221.
Definition PUBLIC_DASHBOARD_TOKEN : str := lit "66a372d856ea44e78cf9ac21a344f792".
Definition GET_VALIDATORS_SELECTOR : str := lit "0x16e7d513".
Definition GET_BANNED_SELECTOR : str := lit "0x1972f9ce".
Definition GET_WALLETS_FOR_OPERATOR_SELECTOR : str := lit "0xf31fa988".
Definition GET_IDENTITY_SELECTOR : str := lit "0x36afc6fa".

(** ** String helpers of [get_wallet_for_operator] *)

(** [s.replace("0x", "")] *)
Fixpoint remove_0x (s : str) : str :=
  match s with
  | [] => []
  | c :: s' =>
      match s' with
      | x :: s'' =>
          if (ord c =? 48) && (ord x =? 120) then remove_0x s''
          else c :: remove_0x s'
      | [] => [c]
      end
  end.

(** [s.zfill(width)]: zeros go after a leading sign. *)
Definition py_zfill (width : nat) (s : str) : str :=
  let fill := replicate (width - length s)%nat (chr 48) in
  match s with
  | c :: s' =>
      if (ord c =? 43) || (ord c =? 45) then c :: fill ++ s' else fill ++ s
  | [] => fill
  end.

(** ** Sorting

    [sorted(xs, key=k)] is stable and compares keys with [<] only; strings
    compare lexicographically by code point. *)

Fixpoint list_ltb (a b : list Z) : bool :=
  match a, b with
  | _, [] => false
  | [], _ :: _ => true
  | x :: a', y :: b' =>
      if x <? y then true
      else if y <? x then false
      else list_ltb a' b'
  end.

Definition str_ltb (a b : str) : bool := list_ltb (ord <$> a) (ord <$> b).

Section py_sorted.
Context {A K : Type} (ltb : K -> K -> bool) (key : A -> K).

(** [x] goes behind every element whose key is not greater than its own. *)
Fixpoint sorted_insert (x : A) (l : list A) : list A :=
  match l with
  | [] => [x]
  | y :: l' =>
      if ltb (key x) (key y) then x :: y :: l'
      else y :: sorted_insert x l'
  end.

Definition py_sorted_by (l : list A) : list A :=
  foldl (fun acc x => sorted_insert x acc) [] l.

End py_sorted.

(** [sorted(names)] *)
Definition py_sorted (l : list text) : list text := py_sorted_by list_ltb id l.

(** Python truthiness of a string, and of an optional string. *)
Definition truthy {A} (s : list A) : bool :=
  match s with
  | [] => false
  | _ :: _ => true
  end.

Definition truthy_opt {A} (o : option (list A)) : bool :=
  match o with
  | Some s => truthy s
  | None => false
  end.

(** ** On-chain data *)

Inductive Status : Type := Active | Banned | ActiveAndBanned | Unknown.

(** The strings the source stores under ["status"]. *)
Definition status_str (s : Status) : str :=
  match s with
  | Active => lit "active"
  | Banned => lit "banned"
  | ActiveAndBanned => lit "active_and_banned"
  | Unknown => lit "unknown"
  end.

Global Instance Status_eq_dec : EqDecision Status.
Proof. solve_decision. Defined.

(** Lines 178-185. *)
Definition derive_status (is_active is_banned : bool) : Status :=
  if is_active && negb is_banned then Active
  else if is_banned && negb is_active then Banned
  else if is_active && is_banned then ActiveAndBanned
  else Unknown.

Record validator : Type := {
  address : str;
  moniker : option text;
  status : Status;
  is_active : bool;
  is_banned : bool;
}.

Record onchain_summary : Type := {
  total_unique : nat;
  active_count : nat;
  banned_count : nat;
  active_only : nat;
  banned_only : nat;
  active_and_banned : nat;
  with_moniker : nat;
}.

Record onchain_data : Type := {
  validators : list validator;
  address_to_moniker : gmap str text;
  moniker_to_address : gmap text str;
  summary : onchain_summary;
}.

Definition count_where (P : validator -> bool) (l : list validator) : nat :=
  length (List.filter P l).

(** Lines 174-195: the record of one address. *)
Definition validator_record (active_set banned_set : gset str)
    (address_to_moniker : gmap str text) (addr : str) : validator :=
  let addr_lower := py_lower addr in
  let is_active := bool_decide (addr_lower ∈ active_set) in
  let is_banned := bool_decide (addr_lower ∈ banned_set) in
  {| address := addr;
     moniker := address_to_moniker !! addr_lower;
     status := derive_status is_active is_banned;
     is_active := is_active;
     is_banned := is_banned |}.

(** Lines 152-157 and 172-212: everything [get_onchain_validators] does
    with the two decoded lists and the monikers it has fetched.  [set_iter]
    is the order in which Python iterates over the set [all_addresses]. *)
Definition build_onchain_data
    (set_iter : gset str -> list str)
    (active_validators banned_validators : list str)
    (address_to_moniker : gmap str text)
    (moniker_to_address : gmap text str) : onchain_data :=
  let active_set : gset str := list_to_set (py_lower <$> active_validators) in
  let banned_set : gset str := list_to_set (py_lower <$> banned_validators) in
  let all_addresses : gset str := list_to_set (active_validators ++ banned_validators) in
  let validators :=
    validator_record active_set banned_set address_to_moniker
      <$> py_sorted_by str_ltb py_lower (set_iter all_addresses) in
  {| validators := validators;
     address_to_moniker := address_to_moniker;
     moniker_to_address := moniker_to_address;
     summary :=
       {| total_unique := length validators;
          active_count := count_where is_active validators;
          banned_count := count_where is_banned validators;
          active_only := count_where (fun v => bool_decide (status v = Active)) validators;
          banned_only := count_where (fun v => bool_decide (status v = Banned)) validators;
          active_and_banned :=
            count_where (fun v => bool_decide (status v = ActiveAndBanned)) validators;
          with_moniker := size address_to_moniker |} |}.

(** ** The chain client *)

(** What one HTTP POST to the RPC endpoint comes to. *)
Inductive rpc_reply : Type :=
| TransportFailure
| HttpErrorStatus
| BodyNotJson
| JsonBody (has_error : bool) (result : option str).

Section chain_client.
Context {World : Type}.
Variable rpc_post : str -> str -> str -> World -> rpc_reply * World.
Variable set_iter : gset str -> list str.

(** A computation that talks to the network and may raise. *)
Definition io (A : Type) : Type := World -> exc A * World.

Definition io_ret {A} (a : A) : io A := fun w => (Ok a, w).

Definition io_bind {A B} (m : io A) (k : A -> io B) : io B :=
  fun w =>
    match m w with
    | (Ok a, w') => k a w'
    | (Raise e, w') => (Raise e, w')
    end.

Definition io_lift {A} (m : exc A) : io A := fun w => (m, w).

(** [try: body  except Exception: return handler] *)
Definition io_try {A} (body : io A) (handler : A) : io A :=
  fun w =>
    match body w with
    | (r, w') => (Ok (try_except r handler), w')
    end.

Local Notation "x <~ m ;; k" := (io_bind m (fun x => k))
  (at level 100, m at next level, k at level 200, right associativity).

(** Lines 53-71.  The body, when it parses, is taken to be a JSON object
    whose ["result"], if present, is a string. *)
Definition eth_call (rpc_url contract data : str) : io str :=
  fun w =>
    match rpc_post rpc_url contract data w with
    | (TransportFailure, w') => (Raise ConnectionError, w')
    | (HttpErrorStatus, w') => (Raise HTTPError, w')
    | (BodyNotJson, w') => (Raise JSONDecodeError, w')
    | (JsonBody true _, w') => (Raise RpcError, w')
    | (JsonBody false result, w') => (Ok (default (lit "0x") result), w')
    end.

(** Lines 94-105. *)
Definition get_wallet_for_operator (rpc_url operator : str) : io (option str) :=
  let operator_padded := py_zfill 64 (remove_0x (py_lower operator)) in
  let data := GET_WALLETS_FOR_OPERATOR_SELECTOR ++ operator_padded in
  io_try
    (result <~ eth_call rpc_url VALIDATOR_WALLET_FACTORY data ;;
     wallets <~ io_lift (decode_address_array result) ;;
     io_ret (head wallets))
    None.

(** Lines 108-137. *)
Definition get_validator_moniker (rpc_url wallet_address : str) : io (option text) :=
  io_try
    (result <~ eth_call rpc_url wallet_address GET_IDENTITY_SELECTOR ;;
     io_lift (decode_identity_moniker result))
    None.

(** Lines 161-169: the loop over the active validators. *)
Fixpoint fetch_monikers (rpc_url : str) (active_validators : list str)
    (dicts : gmap str text * gmap text str) : io (gmap str text * gmap text str) :=
  match active_validators with
  | [] => io_ret dicts
  | addr :: rest =>
      wallet <~ get_wallet_for_operator rpc_url addr ;;
      dicts' <~
        (if truthy_opt wallet then
           moniker <~ get_validator_moniker rpc_url (default [] wallet) ;;
           io_ret
             (match moniker with
              | Some m =>
                  if truthy m
                  then (<[py_lower addr := m]> dicts.1, <[m := addr]> dicts.2)
                  else dicts
              | None => dicts
              end)
         else io_ret dicts) ;;
      fetch_monikers rpc_url rest dicts'
  end.

(** Lines 140-212. *)
Definition get_onchain_validators (rpc_url : str) : io onchain_data :=
  active_result <~ eth_call rpc_url STAKING_CONTRACT GET_VALIDATORS_SELECTOR ;;
  active_validators <~ io_lift (decode_address_array active_result) ;;
  banned_result <~ eth_call rpc_url STAKING_CONTRACT GET_BANNED_SELECTOR ;;
  banned_validators <~ io_lift (decode_address_array banned_result) ;;
  dicts <~ fetch_monikers rpc_url active_validators (∅, ∅) ;;
  io_ret (build_onchain_data set_iter active_validators banned_validators
            dicts.1 dicts.2).

End chain_client.

(** ** Floating point: the two rates

    [len(s) / max(n, 1) * 100] divides two non-negative integers (the
    correctly rounded quotient, as Python's [int.__truediv__] gives it),
    multiplies the double by [100.0], and formats it with [.1f].  A finite
    non-negative double is [Finite m e], of value [m * 2^e]; rounding is to
    53 significant bits, ties to even, with the exponent range of binary64. *)

Inductive pyfloat : Type :=
| Finite (m e : Z)
| Infinity.

(** [a / b] rounded to the nearest integer, ties to even ([0 <= a], [0 < b]). *)
Definition rne_div (a b : Z) : Z :=
  let q := a / b in
  let r := a mod b in
  if 2 * r <? b then q
  else if b <? 2 * r then q + 1
  else if Z.even q then q else q + 1.

(** The integer [k] with [2^k <= p / q < 2^(k+1)] ([0 < p], [0 < q]). *)
Definition floor_log2_ratio (p q : Z) : Z :=
  let d := Z.log2 p - Z.log2 q in
  if q * 2 ^ Z.max 0 d <=? p * 2 ^ Z.max 0 (- d) then d else d - 1.

(** The double nearest to [p / q] ([0 <= p], [0 < q]). *)
Definition round_binary64 (p q : Z) : pyfloat :=
  if p =? 0 then Finite 0 0
  else
    let e := Z.max (floor_log2_ratio p q - 52) (-1074) in
    let m := rne_div (p * 2 ^ Z.max 0 (- e)) (q * 2 ^ Z.max 0 e) in
    if 2 ^ 1024 <=? m * 2 ^ Z.max 0 e then Infinity else Finite m e.

(** [a / b] on integers. *)
Definition py_truediv (a b : Z) : exc pyfloat :=
  if b =? 0 then Raise ZeroDivisionError
  else
    match round_binary64 a b with
    | Infinity => Raise OverflowError
    | Finite m e => Ok (Finite m e)
    end.

(** [x * k] for a double [x] and a small integer [k] (exact as a double). *)
Definition float_mul_int (x : pyfloat) (k : Z) : pyfloat :=
  match x with
  | Infinity => Infinity
  | Finite m e => round_binary64 (m * k * 2 ^ Z.max 0 e) (2 ^ Z.max 0 (- e))
  end.

(** [f"{x:.1f}"]: the exact value rounded to one decimal, ties to even. *)
Definition format_1f (x : pyfloat) : str :=
  match x with
  | Infinity => lit "inf"
  | Finite m e =>
      let t := rne_div (10 * m * 2 ^ Z.max 0 e) (2 ^ Z.max 0 (- e)) in
      lit (pretty (t / 10)) ++ lit "." ++ lit (pretty (t mod 10))
  end.

(** [f"{count / max(onchain_count, 1) * 100:.1f}%"] *)
Definition format_rate (count onchain_count : nat) : exc str :=
  ratio ← py_truediv (Z.of_nat count) (Z.of_nat (Nat.max onchain_count 1));
  Ok (format_1f (float_mul_int ratio 100) ++ lit "%").

(** ** Telemetry data and the report *)

Record panel_names : Type := {
  tm_validators : list text;
  tm_count : nat;
}.

Record telemetry_data : Type := {
  metrics : panel_names;
  logs : panel_names;
}.

Record report_sources : Type := {
  src_contract : str;
  src_factory : str;
  src_rpc : str;
  src_chain_id : Z;
  src_grafana_url : str;
  src_dashboard : str;
  src_public_dashboard : str;
}.

Record report_metadata : Type := {
  generated_at : str;
  description : str;
  sources : report_sources;
}.

Record telemetry_status : Type := {
  ts_fully_configured : nat;
  ts_metrics_only : nat;
  ts_logs_only : nat;
  ts_no_telemetry : nat;
  ts_total_with_any_telemetry : nat;
}.

Record report_summary : Type := {
  sum_on_chain_validators : onchain_summary;
  sum_telemetry_status : telemetry_status;
}.

Record name_group : Type := {
  g_description : str;
  g_count : nat;
  g_names : list text;
  g_recommendation : option str;
}.

Record no_telemetry_entry : Type := {
  nt_moniker : option text;
  nt_address : str;
}.

Record no_telemetry_group : Type := {
  ntg_description : str;
  ntg_count : nat;
  ntg_validators : list no_telemetry_entry;
  ntg_recommendation : str;
}.

Record report_validators : Type := {
  fully_configured : name_group;
  metrics_only : name_group;
  logs_only : name_group;
  no_telemetry : no_telemetry_group;
}.

Record validator_ref : Type := {
  ref_address : str;
  ref_moniker : option text;
}.

Record report_onchain : Type := {
  active_and_healthy : list validator_ref;
  active_but_banned : list validator_ref;
  banned_only_refs : list validator_ref;
}.

Record report_analysis : Type := {
  telemetry_adoption_rate : str;
  full_observability_rate : str;
}.

Record report : Type := {
  metadata : report_metadata;
  rep_summary : report_summary;
  rep_validators : report_validators;
  on_chain_validators : report_onchain;
  analysis : report_analysis;
}.

(** ** The reconciler *)

Section reconciler.
(** The order in which Python iterates over a set of names. *)
Variable set_iter : gset text -> list text.

(** Lines 286-289. *)
Definition telemetry_categories (metrics_set logs_set : gset text)
    : gset text * gset text * gset text * gset text :=
  let fully_configured := metrics_set ∩ logs_set in
  let metrics_only := metrics_set ∖ logs_set in
  let logs_only := logs_set ∖ metrics_set in
  let all_with_telemetry := metrics_set ∪ logs_set in
  (fully_configured, metrics_only, logs_only, all_with_telemetry).

(** Lines 296-316. *)
Definition no_telemetry_list_of (onchain : onchain_data)
    (all_with_telemetry : gset text) : list no_telemetry_entry :=
  let active_monikers : gset text :=
    list_to_set
      (omap (fun v => if is_active v && truthy_opt (moniker v) then moniker v else None)
            (validators onchain)) in
  let no_telemetry_monikers := active_monikers ∖ all_with_telemetry in
  let validators_without_monikers :=
    List.filter (fun v => is_active v && negb (truthy_opt (moniker v)))
                (validators onchain) in
  ((fun moniker =>
      {| nt_moniker := Some moniker;
         nt_address := default (lit "unknown") (moniker_to_address onchain !! moniker) |})
     <$> py_sorted (set_iter no_telemetry_monikers))
  ++ ((fun v => {| nt_moniker := None; nt_address := address v |})
        <$> validators_without_monikers).

Definition refs_with_status (s : Status) (l : list validator) : list validator_ref :=
  (fun v => {| ref_address := address v; ref_moniker := moniker v |})
    <$> List.filter (fun v => bool_decide (status v = s)) l.

(** Lines 278-396.  [now] is [datetime.now(timezone.utc).isoformat()]. *)
Definition generate_report (now : str) (onchain : onchain_data)
    (telemetry : telemetry_data) (rpc_url grafana_url : str) : exc report :=
  let metrics_set : gset text := list_to_set (tm_validators (metrics telemetry)) in
  let logs_set : gset text := list_to_set (tm_validators (logs telemetry)) in
  let '(fully_configured, metrics_only, logs_only, all_with_telemetry) :=
    telemetry_categories metrics_set logs_set in
  let no_telemetry_list := no_telemetry_list_of onchain all_with_telemetry in
  let onchain_count := active_count (summary onchain) in
  adoption ← format_rate (size all_with_telemetry) onchain_count;
  observability ← format_rate (size fully_configured) onchain_count;
  Ok {|
    metadata :=
      {| generated_at := now;
         description := lit "Validator telemetry status report";
         sources :=
           {| src_contract := STAKING_CONTRACT;
              src_factory := VALIDATOR_WALLET_FACTORY;
              src_rpc := rpc_url;
              src_chain_id := CHAIN_ID;
              src_grafana_url := grafana_url;
              src_dashboard := grafana_url ++ lit "/d/agfnnmw/who-is-pushing";
              src_public_dashboard :=
                grafana_url ++ lit "/public-dashboards/" ++ PUBLIC_DASHBOARD_TOKEN |} |};
    rep_summary :=
      {| sum_on_chain_validators := summary onchain;
         sum_telemetry_status :=
           {| ts_fully_configured := size fully_configured;
              ts_metrics_only := size metrics_only;
              ts_logs_only := size logs_only;
              ts_no_telemetry := length no_telemetry_list;
              ts_total_with_any_telemetry := size all_with_telemetry |} |};
    rep_validators :=
      {| fully_configured :=
           {| g_description := lit "Validators pushing both metrics AND logs";
              g_count := size fully_configured;
              g_names := py_sorted (set_iter fully_configured);
              g_recommendation := None |};
         metrics_only :=
           {| g_description := lit "Validators pushing metrics but NOT logs";
              g_count := size metrics_only;
              g_names := py_sorted (set_iter metrics_only);
              g_recommendation := Some (lit "Configure Grafana Alloy to push logs") |};
         logs_only :=
           {| g_description := lit "Validators pushing logs but NOT metrics";
              g_count := size logs_only;
              g_names := py_sorted (set_iter logs_only);
              g_recommendation := Some (lit "Configure Prometheus metrics forwarding") |};
         no_telemetry :=
           {| ntg_description := lit "On-chain validators with no telemetry data";
              ntg_count := length no_telemetry_list;
              ntg_validators := no_telemetry_list;
              ntg_recommendation := lit "Configure Grafana Alloy for metrics and logs" |} |};
    on_chain_validators :=
      {| active_and_healthy := refs_with_status Active (validators onchain);
         active_but_banned := refs_with_status ActiveAndBanned (validators onchain);
         banned_only_refs := refs_with_status Banned (validators onchain) |};
    analysis :=
      {| telemetry_adoption_rate := adoption;
         full_observability_rate := observability |}
  |}.

End reconciler.

(** The report with its generation timestamp blanked. *)
Definition without_timestamp (r : report) : report :=
  {| metadata :=
       {| generated_at := [];
          description := description (metadata r);
          sources := sources (metadata r) |};
     rep_summary := rep_summary r;
     rep_validators := rep_validators r;
     on_chain_validators := on_chain_validators r;
     analysis := analysis r |}.

(** ** The telemetry client *)

Definition METRICS_PANEL_ID : Z := 2.
Definition LOGS_PANEL_ID : Z := 1.

(** The body of a panel query, shaped as the dashboard API shapes it:
    objects where the code calls [.get], arrays where it iterates, strings
    as label values.  Every key the code reads with [.get] may be missing. *)
Record panel_field : Type := {
  labels : option (gmap text text);
}.

Record panel_schema : Type := {
  fields : option (list panel_field);
}.

Record panel_frame : Type := {
  schema : option panel_schema;
}.

Record panel_query : Type := {
  frames : option (list panel_frame);
}.

Record panel_results : Type := {
  query_A : option panel_query;
}.

Record panel_body : Type := {
  results : option panel_results;
}.

(** What one HTTP POST to the dashboard comes to. *)
Inductive panel_reply : Type :=
| PanelTransportFailure
| PanelHttpErrorStatus
| PanelBodyNotJson
| PanelJson (body : panel_body).

(** Lines 228-235: the set of [validator_name] label values. *)
Definition collect_validator_names (result : panel_body) : gset text :=
  let frames :=
    default []
      (frames (default {| frames := None |}
                 (query_A (default {| query_A := None |} (results result))))) in
  foldl
    (fun validators frame =>
       let fields :=
         default [] (fields (default {| fields := None |} (schema frame))) in
       foldl
         (fun validators field =>
            let labels := default ∅ (labels field) in
            match labels !! txt "validator_name" with
            | Some name => {[ name ]} ∪ validators
            | None => validators
            end)
         validators fields)
    ∅ frames.

Section telemetry_client.
Context {World : Type}.
Variable dashboard_post : str -> str -> World -> panel_reply * World.
Variable set_iter : gset text -> list text.

(** Lines 215-237. *)
Definition query_public_dashboard_panel
    (grafana_url dashboard_token : str) (panel_id : Z) (time_from : str)
    : io (list text) :=
  let url :=
    grafana_url ++ lit "/api/public/dashboards/" ++ dashboard_token
    ++ lit "/panels/" ++ lit (pretty panel_id) ++ lit "/query" in
  fun w =>
    match dashboard_post url time_from w with
    | (PanelTransportFailure, w') => (Raise ConnectionError, w')
    | (PanelHttpErrorStatus, w') => (Raise HTTPError, w')
    | (PanelBodyNotJson, w') => (Raise JSONDecodeError, w')
    | (PanelJson result, w') =>
        (Ok (py_sorted (set_iter (collect_validator_names result))), w')
    end.

(** Lines 240-275. *)
Definition get_telemetry_data (grafana_url : str) : io telemetry_data :=
  io_bind
    (io_try
       (query_public_dashboard_panel grafana_url PUBLIC_DASHBOARD_TOKEN
          METRICS_PANEL_ID (lit "now-15m"))
       [])
    (fun metrics_names =>
       io_bind
         (io_try
            (query_public_dashboard_panel grafana_url PUBLIC_DASHBOARD_TOKEN
               LOGS_PANEL_ID (lit "now-1h"))
            [])
         (fun logs_names =>
            io_ret
              {| metrics := {| tm_validators := metrics_names;
                               tm_count := length metrics_names |};
                 logs := {| tm_validators := logs_names;
                            tm_count := length logs_names |} |})).

End telemetry_client.

(** ** The entry point *)

(** [--format] *)
Inductive output_format : Type := FormatJson | FormatMarkdown | FormatBoth.

(** What is written to a file. *)
Inductive document : Type := JsonDocument | MarkdownDocument.

(** [s.replace(".json", ".md")] *)
Fixpoint replace_json_by_md (s : str) : str :=
  match s with
  | [] => []
  | c0 :: s0 =>
      match s0 with
      | c1 :: c2 :: c3 :: c4 :: rest =>
          if str_eqb [c0; c1; c2; c3; c4] (lit ".json")
          then lit ".md" ++ replace_json_by_md rest
          else c0 :: replace_json_by_md s0
      | _ => c0 :: replace_json_by_md s0
      end
  end.

(** Lines 527-540: the files [main] opens for writing, in order, and what
    goes into each. *)
Definition report_writes (format : output_format) (output : str)
    : list (str * document) :=
  (match format with
   | FormatJson | FormatBoth => [(output, JsonDocument)]
   | FormatMarkdown => []
   end)
  ++ (match format with
      | FormatMarkdown | FormatBoth =>
          let md_output := replace_json_by_md output in
          let md_output :=
            match format with
            | FormatMarkdown => output
            | _ => md_output
            end in
          [(md_output, MarkdownDocument)]
      | FormatJson => []
      end).

(** The telemetry [main] uses with [--skip-telemetry]. *)
Definition skipped_telemetry : telemetry_data :=
  {| metrics := {| tm_validators := []; tm_count := 0 |};
     logs := {| tm_validators := []; tm_count := 0 |} |}.

Section entry_point.
Context {World : Type}.
Variable rpc_post : str -> str -> str -> World -> rpc_reply * World.
Variable dashboard_post : str -> str -> World -> panel_reply * World.
Variable address_iter : gset str -> list str.
Variable name_iter : gset text -> list text.

(** Lines 509-524: the report [main] builds.  [now] is the clock reading
    taken by [generate_report]. *)
Definition run_report (skip_telemetry : bool) (rpc_url grafana_url now : str)
    : io report :=
  io_bind (get_onchain_validators rpc_post address_iter rpc_url)
    (fun onchain_data =>
       io_bind
         (if skip_telemetry then io_ret skipped_telemetry
          else get_telemetry_data dashboard_post name_iter grafana_url)
         (fun telemetry_data =>
            io_lift (generate_report name_iter now onchain_data telemetry_data
                       rpc_url grafana_url))).

End entry_point.

(** * Specification-side definitions

    The ABI layouts as the contract's encoder produces them, used to state
    what the decoders return on well-formed payloads. *)

Definition is_hex (c : ascii) : bool :=
  match hex_digit c with
  | Some _ => true
  | None => false
  end.

(** The number a string of hexadecimal digits denotes. *)
Definition hex_value (w : str) : Z :=
  foldl (fun acc c => 16 * acc + default 0 (hex_digit c)) 0 w.

(** A 32-byte word: 64 hexadecimal digits, of either case. *)
Definition hex_word (w : str) (v : Z) : Prop :=
  length w = 64%nat /\ forallb is_hex w = true /\ hex_value w = v.

(** A 20-byte address: 40 hexadecimal digits. *)
Definition is_address (a : str) : Prop :=
  length a = 40%nat /\ forallb is_hex a = true.

Definition zero40 : str := replicate 40 (chr 48).

(** An address right-aligned in a word. *)
Definition abi_address_word (a : str) : str := replicate 24 (chr 48) ++ a.

(** The return data of a function returning [address[]]: the offset word
    [woff], whatever lies between it and the array ([gap], empty in the
    canonical encoding), the length word [wlen], the elements, and whatever
    follows. *)
Definition abi_address_array (woff gap wlen : str) (addrs : list str)
    (trailing : str) : str :=
  woff ++ gap ++ wlen ++ concat (abi_address_word <$> addrs) ++ trailing.

Definition valid_address_array (woff gap wlen : str) (addrs : list str) : Prop :=
  hex_word woff (32 + Z.of_nat (length gap) / 2)
  /\ Nat.Even (length gap)
  /\ hex_word wlen (Z.of_nat (length addrs))
  /\ Forall is_address addrs.

(** The hexadecimal spelling of a byte string, two digits a byte. *)
Inductive hex_of_bytes : str -> list Z -> Prop :=
| hex_of_nil : hex_of_bytes [] []
| hex_of_cons c d top bot h bs :
    hex_digit c = Some top -> hex_digit d = Some bot ->
    hex_of_bytes h bs ->
    hex_of_bytes (c :: d :: h) (top * 16 + bot :: bs).

(** The UTF-8 encoding of a code point. *)
Definition utf8_encode_char (c : Z) : list Z :=
  if c <? 128 then [c]
  else if c <? 2048 then [192 + c / 64; 128 + c mod 64]
  else if c <? 65536 then [224 + c / 4096; 128 + c / 64 mod 64; 128 + c mod 64]
  else [240 + c / 262144; 128 + c / 4096 mod 64; 128 + c / 64 mod 64; 128 + c mod 64].

Definition utf8_encode (t : text) : list Z := t ≫= utf8_encode_char.

(** A Unicode scalar value: a code point that is not a surrogate. *)
Definition is_scalar (c : Z) : Prop :=
  (0 <= c < 55296) \/ (57344 <= c <= 1114111).

(** The return data of [getIdentity()]: the offset word of the struct, the
    struct's first word (the offset of the moniker inside the struct), the
    moniker's length word and its bytes; [gap1], [gap2] and [trailing] are
    whatever else the encoding holds in between and after. *)
Definition abi_identity (wouter gap1 wmoniker gap2 wlen hex_bytes trailing : str) : str :=
  wouter ++ gap1 ++ (wmoniker ++ gap2 ++ wlen ++ hex_bytes ++ trailing).

Definition valid_identity (wouter gap1 wmoniker gap2 wlen hex_bytes : str)
    (moniker_bytes : list Z) : Prop :=
  hex_word wouter (32 + Z.of_nat (length gap1) / 2)
  /\ Nat.Even (length gap1)
  /\ hex_word wmoniker (32 + Z.of_nat (length gap2) / 2)
  /\ Nat.Even (length gap2)
  /\ hex_word wlen (Z.of_nat (length moniker_bytes))
  /\ hex_of_bytes hex_bytes moniker_bytes.

(** What the wallet lookup makes of the outcome of its call: the first
    element of the decoded array, absent when the array is empty and when
    the call or the decoding raised. *)
Definition first_wallet_or_absent (r : exc str) : option str :=
  match r with
  | Ok result =>
      match decode_address_array result with
      | Ok (wallet :: _) => Some wallet
      | Ok [] => None
      | Raise _ => None
      end
  | Raise _ => None
  end.

(** What the moniker lookup makes of the outcome of its call. *)
Definition moniker_or_absent (r : exc str) : option text :=
  match r with
  | Ok result =>
      match decode_identity_moniker result with
      | Ok m => m
      | Raise _ => None
      end
  | Raise _ => None
  end.

(** The order [sorted] puts names in: [a] may come before [b]. *)
Definition text_le (a b : text) : Prop := list_ltb b a = false.

(** An iteration order of sets: some enumeration of the elements. *)
Definition iteration_order {A} `{Countable A} (set_iter : gset A -> list A) : Prop :=
  forall X, set_iter X ≡ₚ elements X.

(** The order [sorted(xs, key=k)] puts elements in. *)
Definition key_le {A K} (ltb : K -> K -> bool) (key : A -> K) (x y : A) : Prop :=
  ltb (key y) (key x) = false.

(** The address and the status of every record, as pairs. *)
Definition statuses (data : onchain_data) : list (str * Status) :=
  (fun v => (address v, status v)) <$> validators data.

(** One enumeration of [get_onchain_validators]: the call with a selector
    of the staking contract, and the decoding of its result. *)
Definition enumerate_validators {World : Type}
    (rpc_post : str -> str -> str -> World -> rpc_reply * World)
    (rpc_url selector : str) (w : World) : exc (list str) * World :=
  let '(r, w') := eth_call rpc_post rpc_url STAKING_CONTRACT selector w in
  (r ≫= decode_address_array, w').

(** The string [pat] occurs in [s]. *)
Definition occurs_in (pat s : str) : Prop :=
  exists pre post, s = pre ++ pat ++ post.

(** The names a panel contributes: those of its body when it answers,
    none when its query fails. *)
Definition reply_name_set (reply : panel_reply) : gset text :=
  match reply with
  | PanelJson result => collect_validator_names result
  | _ => ∅
  end.

(** * Sample data *)

(** The word holding [n], in lower-case digits (for [0 <= n < 16]). *)
Definition small_word (c : ascii) : str := replicate 63 (chr 48) ++ [c].

Definition word_0x20 : str := replicate 62 (chr 48) ++ lit "20".
Definition word_1 : str := small_word (chr 49).
Definition word_2 : str := small_word (chr 50).
Definition word_3 : str := small_word (chr 51).
Definition word_5 : str := small_word (chr 53).

Definition addr_A : str := lit "10ecb157734c8152f1d84d00040c8aa46052cb27".
Definition addr_B : str := lit "2e198119e639d1063180f281617f64dd788d78d2".
Definition addr_C : str := lit "66a372d856ea44e78cf9ac21a344f792deadbeef".

(** A payload of 128 characters whose offset word points far behind it. *)
Definition bad_offset_payload : str :=
  lit "0x" ++ replicate 64 (chr 102) ++ replicate 64 (chr 48).

(** The canonical encoding of a list of fewer than ten addresses. *)
Definition address_array_payload (addrs : list str) : str :=
  lit "0x"
  ++ abi_address_array word_0x20 [] (small_word (chr (48 + Z.of_nat (length addrs))))
                       addrs [].

(** The canonical encoding of an identity whose moniker is ["alice"]. *)
Definition alice_identity_payload : str :=
  lit "0x"
  ++ abi_identity word_0x20 [] word_0x20 [] word_5 (lit "616c696365")
                  (replicate 54 (chr 48)).

Definition addr_W : str := lit "00000000000000000000000000000000000000aa".

(** A network on which the two enumerations answer and every other call
    fails in transport.  The world counts the calls. *)
Definition rpc_enumerations_only (active banned : list str)
    (rpc_url contract data : str) (calls : nat) : rpc_reply * nat :=
  if bool_decide (contract = STAKING_CONTRACT) then
    if bool_decide (data = GET_VALIDATORS_SELECTOR)
    then (JsonBody false (Some (address_array_payload active)), S calls)
    else (JsonBody false (Some (address_array_payload banned)), S calls)
  else (TransportFailure, S calls).

(** A network on which, besides, every operator has the wallet [addr_W]
    and every wallet carries the moniker ["alice"]. *)
Definition rpc_all_alice (active banned : list str)
    (rpc_url contract data : str) (calls : nat) : rpc_reply * nat :=
  if bool_decide (contract = STAKING_CONTRACT) then
    if bool_decide (data = GET_VALIDATORS_SELECTOR)
    then (JsonBody false (Some (address_array_payload active)), S calls)
    else (JsonBody false (Some (address_array_payload banned)), S calls)
  else if bool_decide (contract = VALIDATOR_WALLET_FACTORY)
  then (JsonBody false (Some (address_array_payload [addr_W])), S calls)
  else (JsonBody false (Some alice_identity_payload), S calls).

Definition sample_rpc_url : str := lit "https://rpc.example".

(** A network that answers every call with the same payload. *)
Definition rpc_constant (payload rpc_url contract data : str) (calls : nat)
    : rpc_reply * nat :=
  (JsonBody false (Some payload), S calls).

Definition rpc_bad_offset : str -> str -> str -> nat -> rpc_reply * nat :=
  rpc_constant bad_offset_payload.

(** An identity whose moniker has the declared length 0. *)
Definition empty_identity_payload : str :=
  lit "0x" ++ abi_identity word_0x20 [] word_0x20 [] (small_word (chr 48)) [] [].

Definition sample_grafana_url : str := lit "https://grafana.example".
Definition sample_now : str := lit "2025-01-01T00:00:00+00:00".
Definition sample_later : str := lit "2025-01-02T00:00:00+00:00".

(** The telemetry of the scenario: metrics from alice and bob, logs from
    bob and carol. *)
Definition sample_telemetry : telemetry_data :=
  {| metrics := {| tm_validators := [txt "alice"; txt "bob"]; tm_count := 2 |};
     logs := {| tm_validators := [txt "bob"; txt "carol"]; tm_count := 2 |} |}.

Definition no_telemetry_data : telemetry_data :=
  {| metrics := {| tm_validators := []; tm_count := 0 |};
     logs := {| tm_validators := []; tm_count := 0 |} |}.

(** Active A and B, banned B and C; A is known as dave. *)
Definition sample_onchain : onchain_data :=
  build_onchain_data elements
    [lit "0x" ++ addr_A; lit "0x" ++ addr_B] [lit "0x" ++ addr_B; lit "0x" ++ addr_C]
    {[ lit "0x" ++ addr_A := txt "dave" ]} {[ txt "dave" := lit "0x" ++ addr_A ]}.

(** Another iteration order of sets. *)
Definition reverse_elements {A} `{Countable A} (X : gset A) : list A :=
  reverse (elements X).

(** The address A in capital digits. *)
Definition addr_A_upper : str := lit "10ECB157734C8152F1D84D00040C8AA46052CB27".

(** No validator at all on chain. *)
Definition empty_onchain : onchain_data := build_onchain_data elements [] [] ∅ ∅.

(** A length word spelling the negative number -65: [int] accepts a sign. *)
Definition word_minus_65 : str := lit "-" ++ replicate 61 (chr 48) ++ lit "41".

(** A panel body with one frame: a field without labels, then one field
    labelled with each of the names. *)
Definition field_named (name : text) : panel_field :=
  {| labels := Some {[ txt "validator_name" := name ]} |}.

Definition body_of_names (names : list text) : panel_body :=
  {| results :=
       Some {| query_A :=
                 Some {| frames :=
                           Some [{| schema :=
                                      Some {| fields :=
                                                Some ({| labels := None |}
                                                      :: (field_named <$> names)) |} |}] |} |} |}.

Definition sample_metrics_url : str :=
  sample_grafana_url ++ lit "/api/public/dashboards/" ++ PUBLIC_DASHBOARD_TOKEN
  ++ lit "/panels/2/query".

(** A dashboard whose metrics panel lists bob, alice and bob again, and
    whose logs panel lists carol and bob.  The world counts the calls. *)
Definition dashboard_sample (url time_from : str) (calls : nat)
    : panel_reply * nat :=
  if bool_decide (url = sample_metrics_url)
  then (PanelJson (body_of_names [txt "bob"; txt "alice"; txt "bob"]), S calls)
  else (PanelJson (body_of_names [txt "carol"; txt "bob"]), S calls).

(** The same dashboard with its metrics panel out of reach. *)
Definition dashboard_metrics_down (url time_from : str) (calls : nat)
    : panel_reply * nat :=
  if bool_decide (url = sample_metrics_url)
  then (PanelTransportFailure, S calls)
  else (PanelJson (body_of_names [txt "carol"; txt "bob"]), S calls).

(** * Properties *)

(** ** Sanity checks of the model on concrete inputs *)

Example int16_plain : py_int16 (lit "ff") = Ok 255.
Proof. reflexivity. Qed.
Example int16_prefix : py_int16 (lit " -0x_1_0 ") = Ok (-16).
Proof. reflexivity. Qed.
Example int16_empty : py_int16 (lit "") = Raise ValueError.
Proof. reflexivity. Qed.
Example int16_double_underscore : py_int16 (lit "1__0") = Raise ValueError.
Proof. reflexivity. Qed.
Example int16_trailing_underscore : py_int16 (lit "10_") = Raise ValueError.
Proof. reflexivity. Qed.
Example slice_negative : py_slice (lit "abcdef") (-4) (-1) = lit "cde".
Proof. reflexivity. Qed.
Example slice_clamped : py_slice (lit "abcdef") 4 100 = lit "ef".
Proof. reflexivity. Qed.
Example slice_past_end : py_slice (lit "abcdef") 10 74 = lit "".
Proof. reflexivity. Qed.
Example fromhex_spaces : bytes_fromhex (lit "61 62") = Ok [97; 98].
Proof. reflexivity. Qed.
Example fromhex_odd : bytes_fromhex (lit "616") = Raise ValueError.
Proof. reflexivity. Qed.
Example utf8_two_bytes : utf8_decode [195; 169] = Ok [233].
Proof. reflexivity. Qed.
Example utf8_overlong : utf8_decode [192; 128] = Raise UnicodeDecodeError.
Proof. reflexivity. Qed.
Example utf8_surrogate : utf8_decode [237; 160; 128] = Raise UnicodeDecodeError.
Proof. reflexivity. Qed.
Example zfill_pads : py_zfill 6 (lit "abc") = lit "000abc".
Proof. reflexivity. Qed.
Example remove_0x_all : remove_0x (lit "0xab0xcd") = lit "abcd".
Proof. reflexivity. Qed.
Example rate_third : format_rate 1 3 = Ok (lit "33.3%").
Proof. vm_compute. reflexivity. Qed.
Example rate_two_thirds : format_rate 2 3 = Ok (lit "66.7%").
Proof. vm_compute. reflexivity. Qed.
Example rate_tie_even : format_rate 1 8 = Ok (lit "12.5%").
Proof. vm_compute. reflexivity. Qed.
Example sorted_names :
  py_sorted [txt "carol"; txt "alice"; txt "bob"; txt "Zed"]
  = [txt "Zed"; txt "alice"; txt "bob"; txt "carol"].
Proof. reflexivity. Qed.

Example enumeration_run :
  (fun '(r, w) => (statuses <$> r, w))
    (get_onchain_validators (rpc_all_alice [addr_A; addr_B] [addr_B; addr_C])
       elements sample_rpc_url 0%nat)
  = (Ok [(lit "0x" ++ addr_A, Active);
         (lit "0x" ++ addr_B, ActiveAndBanned);
         (lit "0x" ++ addr_C, Banned)], 6%nat).
Proof. vm_compute. reflexivity. Qed.

(** ** Slices of concatenations *)

Lemma py_slice_from_app {A} (pre s : list A) (n : Z) :
  n = Z.of_nat (length pre) -> py_slice_from (pre ++ s) n = s.
Proof.
  intros ->. unfold py_slice_from, slice_index.
  rewrite length_app.
  destruct (Z.ltb_spec (Z.of_nat (length pre)) 0) as [Hneg|_]; [lia|].
  rewrite Z.min_l by lia. rewrite Nat2Z.id.
  by rewrite drop_app_length.
Qed.

Lemma py_slice_mid {A} (pre mid post : list A) (lo hi : Z) :
  lo = Z.of_nat (length pre) ->
  hi = lo + Z.of_nat (length mid) ->
  py_slice (pre ++ mid ++ post) lo hi = mid.
Proof.
  intros -> ->. unfold py_slice, slice_index.
  rewrite !length_app.
  destruct (Z.ltb_spec (Z.of_nat (length pre)) 0) as [Hneg|_]; [lia|].
  destruct (Z.ltb_spec (Z.of_nat (length pre) + Z.of_nat (length mid)) 0)
    as [Hneg|_]; [lia|].
  rewrite !Z.min_l by lia.
  replace (Z.to_nat (_ + _ - _)) with (length mid) by lia.
  rewrite Nat2Z.id, drop_app_length.
  by rewrite take_app_length.
Qed.

Lemma py_slice_head {A} (w rest : list A) (hi : Z) :
  hi = Z.of_nat (length w) -> py_slice (w ++ rest) 0 hi = w.
Proof.
  intros ->. by apply (py_slice_mid [] w rest).
Qed.
(** ** [int(w, 16)] on a string of hexadecimal digits *)

Lemma is_hex_range c :
  is_hex c = true ->
  48 <= ord c <= 57 \/ 97 <= ord c <= 102 \/ 65 <= ord c <= 70.
Proof.
  unfold is_hex, hex_digit.
  destruct ((48 <=? ord c) && (ord c <=? 57)) eqn:H1; [lia|].
  destruct ((97 <=? ord c) && (ord c <=? 102)) eqn:H2; [lia|].
  destruct ((65 <=? ord c) && (ord c <=? 70)) eqn:H3; [lia|].
  discriminate.
Qed.

Lemma is_hex_digit c : is_hex c = true -> exists d, hex_digit c = Some d.
Proof. unfold is_hex. destruct (hex_digit c); [eauto|discriminate]. Qed.

Lemma is_hex_not_space c : is_hex c = true -> int_space c = false.
Proof.
  intros H%is_hex_range. unfold int_space, ascii_space. lia.
Qed.

Lemma is_hex_not_ascii_space c : is_hex c = true -> ascii_space c = false.
Proof.
  intros H%is_hex_range. unfold ascii_space. lia.
Qed.

Lemma scan_digits_hex w :
  forall acc started,
    forallb is_hex w = true ->
    started = true \/ w <> [] ->
    scan_digits false started acc w
    = Ok (foldl (fun acc c => 16 * acc + default 0 (hex_digit c)) acc w, []).
Proof.
  induction w as [|c w IH]; intros acc started Hhex Hne.
  - destruct Hne as [->|?]; [reflexivity|congruence].
  - simpl in Hhex. apply andb_true_iff in Hhex as [Hc Hw].
    destruct (is_hex_digit c Hc) as [d Hd].
    simpl. rewrite Hd. simpl. apply IH; auto.
Qed.

Lemma py_int16_hex w :
  w <> [] -> forallb is_hex w = true -> py_int16 w = Ok (hex_value w).
Proof.
  intros Hne Hhex. destruct w as [|c w]; [congruence|].
  pose proof Hhex as Hall.
  simpl in Hhex. apply andb_true_iff in Hhex as [Hc Hw].
  pose proof (is_hex_range c Hc) as Hrc.
  unfold py_int16.
  assert (skip_spaces (c :: w) = c :: w) as ->.
  { simpl. by rewrite (is_hex_not_space c Hc). }
  assert (strip_sign (c :: w) = (false, c :: w)) as ->.
  { unfold strip_sign.
    destruct (Z.eqb_spec (ord c) 43); [lia|].
    destruct (Z.eqb_spec (ord c) 45); [lia|]. reflexivity. }
  assert (strip_prefix16 (c :: w) = c :: w) as ->.
  { unfold strip_prefix16. destruct w as [|x w]; [reflexivity|].
    simpl in Hw. apply andb_true_iff in Hw as [Hx _].
    pose proof (is_hex_range x Hx).
    destruct (Z.eqb_spec (ord x) 120); [lia|].
    destruct (Z.eqb_spec (ord x) 88); [lia|].
    by rewrite andb_false_r. }
  assert (starts_with_underscore (c :: w) = false) as ->.
  { unfold starts_with_underscore, is_underscore. lia. }
  rewrite (scan_digits_hex (c :: w) 0 false Hall) by (right; congruence).
  reflexivity.
Qed.

Lemma hex_word_int16 w v : hex_word w v -> py_int16 w = Ok v.
Proof.
  intros (Hlen & Hhex & <-). apply py_int16_hex; [|done].
  intros ->. discriminate.
Qed.

(** ** [decode_address_array] on short and on well-formed payloads *)

Lemma bind_Ok {A B} (a : A) (k : A -> exc B) : (Ok a ≫= k) = k a.
Proof. reflexivity. Qed.

Lemma bind_Raise {A B} (e : exn) (k : A -> exc B) : (Raise e ≫= k) = Raise e.
Proof. reflexivity. Qed.

Lemma lower_char_zero c : lower_char c = chr 48 -> c = chr 48.
Proof.
  destruct c as [[] [] [] [] [] [] [] []]; vm_compute; congruence.
Qed.

Lemma py_lower_replicate_zero a n :
  py_lower a = replicate n (chr 48) -> a = replicate n (chr 48).
Proof.
  revert n. induction a as [|c a IH]; intros [|n] H; simpl in *; try congruence.
  injection H as Hc Ha. f_equal; [by apply lower_char_zero|by apply IH].
Qed.

Lemma zero_address_test a :
  str_eqb (py_lower (lit "0x" ++ a)) zero_address = bool_decide (a = zero40).
Proof.
  unfold str_eqb. apply bool_decide_ext.
  change zero_address with (lit "0x" ++ zero40).
  unfold py_lower. rewrite map_app.
  change (map lower_char (lit "0x")) with (lit "0x").
  split.
  - intros H%app_inv_head. by apply py_lower_replicate_zero.
  - intros ->. reflexivity.
Qed.

Lemma length_address_words addrs :
  Forall is_address addrs ->
  length (concat (abi_address_word <$> addrs)) = (64 * length addrs)%nat.
Proof.
  induction 1 as [|a addrs [Ha _] _ IH]; [reflexivity|].
  rewrite fmap_cons, concat_cons, length_app, IH.
  unfold abi_address_word. rewrite length_app, length_replicate, Ha.
  change (length (a :: addrs)) with (S (length addrs)). lia.
Qed.

Lemma address_element_slice (pre : str) addrs (trailing : str) (i : nat) a start :
  Forall is_address addrs ->
  addrs !! i = Some a ->
  start = Z.of_nat (length pre) + Z.of_nat i * 64 ->
  py_slice (pre ++ concat (abi_address_word <$> addrs) ++ trailing)
           (start + 24) (start + 64) = a.
Proof.
  intros Hall Hi ->.
  assert (length a = 40%nat) as Hlen.
  { rewrite Forall_forall in Hall. apply (Hall a). eauto using list_elem_of_lookup_2. }
  rewrite <-(take_drop_middle addrs i a Hi) at 1.
  rewrite fmap_app, fmap_cons, concat_app, concat_cons.
  unfold abi_address_word at 2.
  set (before := concat (abi_address_word <$> take i addrs)).
  set (after := concat (abi_address_word <$> drop (S i) addrs)).
  assert (length before = (64 * i)%nat) as Hbefore.
  { unfold before. rewrite length_address_words by by apply Forall_take.
    rewrite length_take. apply lookup_lt_Some in Hi. lia. }
  replace (pre ++ (before ++ (replicate 24 (chr 48) ++ a) ++ after) ++ trailing)
    with ((pre ++ before ++ replicate 24 (chr 48)) ++ a ++ (after ++ trailing))
    by (by rewrite <-!(assoc_L (++))).
  apply py_slice_mid.
  - rewrite !length_app, length_replicate, Hbefore. lia.
  - lia.
Qed.

Lemma decode_loop (pre : str) addrs (trailing : str) offset (k : nat) :
  Forall is_address addrs ->
  offset + 64 = Z.of_nat (length pre) ->
  (k <= length addrs)%nat ->
  foldl
    (fun addresses i =>
       let start := offset + 64 + i * 64 in
       let addr :=
         lit "0x" ++ py_slice (pre ++ concat (abi_address_word <$> addrs) ++ trailing)
                              (start + 24) (start + 64) in
       if negb (str_eqb (py_lower addr) zero_address)
       then addresses ++ [addr]
       else addresses)
    [] (seqZ 0 (Z.of_nat k))
  = (lit "0x" ++.) <$> filter (fun a => a <> zero40) (take k addrs).
Proof.
  intros Hall Hoff. induction k as [|k IH]; intros Hk.
  - by rewrite take_0.
  - destruct (lookup_lt_is_Some_2 addrs k) as [a Ha]; [lia|].
    rewrite seqZ_S, foldl_snoc, IH by lia. cbv zeta.
    rewrite (address_element_slice pre addrs trailing k a) by (done || lia).
    rewrite zero_address_test.
    rewrite (take_S_r _ _ _ Ha), filter_app, fmap_app.
    rewrite filter_cons, filter_nil.
    destruct (bool_decide (a = zero40)) eqn:E.
    + apply bool_decide_eq_true in E. simpl.
      rewrite decide_False by tauto. by rewrite app_nil_r.
    + apply bool_decide_eq_false in E. simpl.
      by rewrite decide_True by done.
Qed.

Lemma decode_address_array_short hex_result :
  (length (drop 2 hex_result) < 128)%nat -> decode_address_array hex_result = Ok [].
Proof.
  intros Hshort. unfold decode_address_array.
  assert (py_slice_from hex_result 2 = drop 2 hex_result) as ->.
  { unfold py_slice_from, slice_index. simpl.
    destruct (Z.min_spec 2 (Z.of_nat (length hex_result))) as [[? ->]|[? ->]].
    - reflexivity.
    - rewrite Nat2Z.id. rewrite !drop_ge by lia. reflexivity. }
  destruct (Z.ltb_spec (Z.of_nat (length (drop 2 hex_result))) 128); [done|lia].
Qed.

Lemma decode_address_array_valid prefix woff gap wlen addrs trailing :
  length prefix = 2%nat ->
  valid_address_array woff gap wlen addrs ->
  decode_address_array (prefix ++ abi_address_array woff gap wlen addrs trailing)
  = Ok ((lit "0x" ++.) <$> filter (fun a => a <> zero40) addrs).
Proof.
  intros Hprefix (Hwoff & [g Hg] & Hwlen & Hall).
  pose proof Hwoff as (Hlo & _ & _). pose proof Hwlen as (Hll & _ & _).
  unfold decode_address_array.
  rewrite (py_slice_from_app prefix) by lia.
  unfold abi_address_array.
  destruct (Z.ltb_spec
    (Z.of_nat (length (woff ++ gap ++ wlen
                        ++ concat (abi_address_word <$> addrs) ++ trailing))) 128)
    as [Hshort|_].
  { rewrite !length_app in Hshort. lia. }
  rewrite (py_slice_head woff) by lia.
  rewrite (hex_word_int16 _ _ Hwoff), bind_Ok. cbv zeta.
  replace (woff ++ gap ++ wlen ++ concat (abi_address_word <$> addrs) ++ trailing)
    with ((woff ++ gap) ++ wlen ++ (concat (abi_address_word <$> addrs) ++ trailing))
    by (by rewrite <-!(assoc_L (++))).
  assert ((32 + Z.of_nat (length gap) / 2) * 2 = Z.of_nat (length (woff ++ gap)))
    as Hoffset.
  { rewrite length_app, Hlo.
    assert (Z.of_nat (length gap) / 2 = Z.of_nat g) as ->.
    { symmetry. apply Z.div_unique_exact; lia. }
    lia. }
  rewrite (py_slice_mid (woff ++ gap) wlen) by lia.
  rewrite (hex_word_int16 _ _ Hwlen), bind_Ok.
  replace ((woff ++ gap) ++ wlen ++ concat (abi_address_word <$> addrs) ++ trailing)
    with (((woff ++ gap) ++ wlen) ++ concat (abi_address_word <$> addrs) ++ trailing)
    by (by rewrite <-!(assoc_L (++))).
  f_equal.
  etrans;
    [apply (decode_loop ((woff ++ gap) ++ wlen) addrs trailing
                        ((32 + Z.of_nat (length gap) / 2) * 2) (length addrs));
     [done| |done]|].
  - rewrite (length_app (woff ++ gap)). lia.
  - by rewrite firstn_all.
Qed.

(** C1.  For every input string, a payload shorter than 128 hexadecimal
    characters after the two-character prefix decodes to the empty list, not
    to an error; and every well-formed encoding of an [address[]] decodes to
    its elements, in the order of the encoding, without those equal to the
    all-zero address. *)
Theorem decode_address_array_spec hex_result woff gap wlen addrs trailing :
  ((length (drop 2 hex_result) < 128)%nat ->
   decode_address_array hex_result = Ok [])
  /\ (valid_address_array woff gap wlen addrs ->
      decode_address_array (lit "0x" ++ abi_address_array woff gap wlen addrs trailing)
      = Ok ((lit "0x" ++.) <$> filter (fun a => a <> zero40) addrs)).
Proof.
  split.
  - apply decode_address_array_short.
  - by apply decode_address_array_valid.
Qed.

Lemma decode_address_array_spec_witness :
  ((length (drop 2 (lit "0x" ++ word_0x20)) < 128)%nat
   /\ decode_address_array (lit "0x" ++ word_0x20) = Ok [])
  /\ (valid_address_array word_0x20 [] word_3 [addr_A; zero40; addr_B]
      /\ decode_address_array
           (lit "0x" ++ abi_address_array word_0x20 [] word_3
                          [addr_A; zero40; addr_B] [])
         = Ok [lit "0x" ++ addr_A; lit "0x" ++ addr_B]).
Proof.
  destruct (decode_address_array_spec (lit "0x" ++ word_0x20) word_0x20 [] word_3
              [addr_A; zero40; addr_B] []) as [Hshort Hvalid].
  assert ((length (drop 2 (lit "0x" ++ word_0x20)) < 128)%nat) as H1.
  { vm_compute. lia. }
  assert (valid_address_array word_0x20 [] word_3 [addr_A; zero40; addr_B]) as H2.
  { repeat split; try reflexivity.
    - exists 0%nat. reflexivity.
    - repeat constructor. }
  split; [split; [exact H1|exact (Hshort H1)]|split; [exact H2|exact (Hvalid H2)]].
Defined.

(** ** The chain client: what the [try] blocks catch *)

Section chain_client_facts.
Context {World : Type}.
Variable rpc_post : str -> str -> str -> World -> rpc_reply * World.
Variable set_iter : gset str -> list str.

Lemma get_wallet_for_operator_unfold rpc_url operator w :
  get_wallet_for_operator rpc_post rpc_url operator w
  = let data := GET_WALLETS_FOR_OPERATOR_SELECTOR
                ++ py_zfill 64 (remove_0x (py_lower operator)) in
    let '(r, w') := eth_call rpc_post rpc_url VALIDATOR_WALLET_FACTORY data w in
    (Ok (try_except (result ← r; wallets ← decode_address_array result;
                     Ok (head wallets)) None), w').
Proof.
  unfold get_wallet_for_operator, io_try, io_bind, io_lift, io_ret. cbv zeta.
  destruct (eth_call _ _ _ _ w) as [[result|e] w']; [|reflexivity].
  rewrite bind_Ok.
  destruct (decode_address_array result); reflexivity.
Qed.

Lemma get_validator_moniker_unfold rpc_url wallet_address w :
  get_validator_moniker rpc_post rpc_url wallet_address w
  = let '(r, w') := eth_call rpc_post rpc_url wallet_address GET_IDENTITY_SELECTOR w in
    (Ok (try_except (result ← r; decode_identity_moniker result) None), w').
Proof.
  unfold get_validator_moniker, io_try, io_bind, io_lift.
  destruct (eth_call _ _ _ _ w) as [[result|e] w']; reflexivity.
Qed.

Lemma get_wallet_for_operator_returns rpc_url operator w :
  exists wallet w', get_wallet_for_operator rpc_post rpc_url operator w = (Ok wallet, w').
Proof.
  rewrite get_wallet_for_operator_unfold. cbv zeta.
  destruct (eth_call _ _ _ _ w) as [r w']. eauto.
Qed.

Lemma get_validator_moniker_returns rpc_url wallet_address w :
  exists m w', get_validator_moniker rpc_post rpc_url wallet_address w = (Ok m, w').
Proof.
  rewrite get_validator_moniker_unfold.
  destruct (eth_call _ _ _ _ w) as [r w']. eauto.
Qed.

Lemma fetch_monikers_returns rpc_url active_validators :
  forall dicts w,
    exists dicts' w',
      fetch_monikers rpc_post rpc_url active_validators dicts w = (Ok dicts', w').
Proof.
  induction active_validators as [|addr rest IH]; intros dicts w.
  - by exists dicts, w.
  - cbn [fetch_monikers]. unfold io_bind at 1.
    destruct (get_wallet_for_operator_returns rpc_url addr w) as (wallet & w1 & ->).
    unfold io_bind at 1.
    destruct (truthy_opt wallet).
    + unfold io_bind at 1.
      destruct (get_validator_moniker_returns rpc_url (default [] wallet) w1)
        as (m & w2 & ->).
      unfold io_ret at 1. apply IH.
    + unfold io_ret at 1. apply IH.
Qed.

(** The run is aborted by nothing but the two enumerations. *)
Lemma get_onchain_validators_returns rpc_url w0 w1 w2 active_result banned_result
    active_validators banned_validators :
  eth_call rpc_post rpc_url STAKING_CONTRACT GET_VALIDATORS_SELECTOR w0
    = (Ok active_result, w1) ->
  decode_address_array active_result = Ok active_validators ->
  eth_call rpc_post rpc_url STAKING_CONTRACT GET_BANNED_SELECTOR w1
    = (Ok banned_result, w2) ->
  decode_address_array banned_result = Ok banned_validators ->
  exists data w3,
    get_onchain_validators rpc_post set_iter rpc_url w0 = (Ok data, w3).
Proof.
  intros Hactive Hdec1 Hbanned Hdec2.
  unfold get_onchain_validators.
  unfold io_bind at 1. rewrite Hactive.
  unfold io_bind at 1, io_lift at 1. rewrite Hdec1.
  unfold io_bind at 1. rewrite Hbanned.
  unfold io_bind at 1, io_lift at 1. rewrite Hdec2.
  unfold io_bind at 1.
  destruct (fetch_monikers_returns rpc_url active_validators (∅, ∅) w2)
    as (dicts & w3 & ->).
  unfold io_ret. eauto.
Qed.

(** A decoding error of the first enumeration leaves the function as it is. *)
Lemma get_onchain_validators_propagates rpc_url w0 w1 active_result e :
  eth_call rpc_post rpc_url STAKING_CONTRACT GET_VALIDATORS_SELECTOR w0
    = (Ok active_result, w1) ->
  decode_address_array active_result = Raise e ->
  get_onchain_validators rpc_post set_iter rpc_url w0 = (Raise e, w1).
Proof.
  intros Hactive Hdec.
  unfold get_onchain_validators.
  unfold io_bind at 1. rewrite Hactive.
  unfold io_bind at 1, io_lift at 1. by rewrite Hdec.
Qed.

End chain_client_facts.

(** C8.  A per-validator lookup never raises: the wallet lookup returns the
    first element of the decoded array, or absent when the array is empty
    or when the call or the decoding failed; the moniker lookup returns the
    decoded moniker, or absent on any failure; the loop over the active
    validators therefore always completes, and the whole enumeration
    completes whenever its two bulk calls do. *)
Theorem auxiliary_lookups_are_fault_isolated {World : Type}
    (rpc_post : str -> str -> str -> World -> rpc_reply * World)
    (set_iter : gset str -> list str) (rpc_url : str) :
  (forall operator w,
     let data := GET_WALLETS_FOR_OPERATOR_SELECTOR
                 ++ py_zfill 64 (remove_0x (py_lower operator)) in
     let r := eth_call rpc_post rpc_url VALIDATOR_WALLET_FACTORY data w in
     get_wallet_for_operator rpc_post rpc_url operator w
     = (Ok (first_wallet_or_absent r.1), r.2))
  /\ (forall wallet_address w,
        let r := eth_call rpc_post rpc_url wallet_address GET_IDENTITY_SELECTOR w in
        get_validator_moniker rpc_post rpc_url wallet_address w
        = (Ok (moniker_or_absent r.1), r.2))
  /\ (forall active_validators dicts w,
        exists dicts' w',
          fetch_monikers rpc_post rpc_url active_validators dicts w = (Ok dicts', w'))
  /\ (forall w0 w1 w2 active_result banned_result active_validators banned_validators,
        eth_call rpc_post rpc_url STAKING_CONTRACT GET_VALIDATORS_SELECTOR w0
          = (Ok active_result, w1) ->
        decode_address_array active_result = Ok active_validators ->
        eth_call rpc_post rpc_url STAKING_CONTRACT GET_BANNED_SELECTOR w1
          = (Ok banned_result, w2) ->
        decode_address_array banned_result = Ok banned_validators ->
        exists data w3,
          get_onchain_validators rpc_post set_iter rpc_url w0 = (Ok data, w3)).
Proof.
  split; [|split; [|split]].
  - intros operator w. cbv zeta. rewrite get_wallet_for_operator_unfold. cbv zeta.
    destruct (eth_call _ _ _ _ w) as [[result|e] w']; [|reflexivity].
    simpl. destruct (decode_address_array result) as [[|wallet wallets]|e];
      reflexivity.
  - intros wallet_address w. cbv zeta. rewrite get_validator_moniker_unfold.
    destruct (eth_call _ _ _ _ w) as [[result|e] w']; [|reflexivity].
    simpl. destruct (decode_identity_moniker result); reflexivity.
  - intros. apply fetch_monikers_returns.
  - intros. eapply get_onchain_validators_returns; eauto.
Qed.

Lemma auxiliary_lookups_are_fault_isolated_witness :
  get_wallet_for_operator (rpc_enumerations_only [addr_A; addr_B] [addr_B; addr_C])
    sample_rpc_url (lit "0x" ++ addr_A) 2%nat = (Ok None, 3%nat)
  /\ exists data w3,
       get_onchain_validators (rpc_enumerations_only [addr_A; addr_B] [addr_B; addr_C])
         elements sample_rpc_url 0%nat = (Ok data, w3).
Proof.
  destruct (auxiliary_lookups_are_fault_isolated
              (rpc_enumerations_only [addr_A; addr_B] [addr_B; addr_C])
              elements sample_rpc_url) as (Hwallet & _ & _ & Hbatch).
  split.
  - exact (Hwallet (lit "0x" ++ addr_A) 2%nat).
  - apply (Hbatch 0%nat 1%nat 2%nat
             (address_array_payload [addr_A; addr_B])
             (address_array_payload [addr_B; addr_C])
             [lit "0x" ++ addr_A; lit "0x" ++ addr_B]
             [lit "0x" ++ addr_B; lit "0x" ++ addr_C]); reflexivity.
Defined.

(** ** A payload whose offset points behind its end *)

(** C10.  [decode_address_array] is not total on the payloads that pass its
    length test: [bad_offset_payload] has 128 characters after the prefix
    and an offset word pointing behind them; the slice read as the length
    word is empty, its parse raises, and so does the decoder.  In
    [get_onchain_validators] nothing catches that exception. *)
Theorem decode_address_array_raises_on_far_offset :
  let hex_data := drop 2 bad_offset_payload in
  let offset := hex_value (take 64 hex_data) * 2 in
  (128 <= length hex_data)%nat
  /\ Z.of_nat (length hex_data) < offset
  /\ py_slice hex_data offset (offset + 64) = []
  /\ py_int16 [] = Raise ValueError
  /\ decode_address_array bad_offset_payload = Raise ValueError
  /\ forall (World : Type)
       (rpc_post : str -> str -> str -> World -> rpc_reply * World)
       (set_iter : gset str -> list str) (rpc_url : str) (w w' : World),
       rpc_post rpc_url STAKING_CONTRACT GET_VALIDATORS_SELECTOR w
         = (JsonBody false (Some bad_offset_payload), w') ->
       get_onchain_validators rpc_post set_iter rpc_url w = (Raise ValueError, w').
Proof.
  cbv zeta. split; [|split; [|split; [|split; [|split]]]].
  - vm_compute. lia.
  - vm_compute. reflexivity.
  - vm_compute. reflexivity.
  - reflexivity.
  - vm_compute. reflexivity.
  - intros World rpc_post set_iter rpc_url w w' Hpost.
    apply (get_onchain_validators_propagates rpc_post set_iter rpc_url w w'
             bad_offset_payload).
    + unfold eth_call. by rewrite Hpost.
    + vm_compute. reflexivity.
Qed.

Lemma decode_address_array_raises_on_far_offset_witness :
  rpc_bad_offset sample_rpc_url STAKING_CONTRACT GET_VALIDATORS_SELECTOR 0%nat
    = (JsonBody false (Some bad_offset_payload), 1%nat)
  /\ get_onchain_validators rpc_bad_offset elements sample_rpc_url 0%nat
     = (Raise ValueError, 1%nat).
Proof.
  destruct decode_address_array_raises_on_far_offset
    as (_ & _ & _ & _ & _ & Hbulk).
  split; [reflexivity|].
  apply (Hbulk nat rpc_bad_offset elements sample_rpc_url 0%nat 1%nat).
  reflexivity.
Defined.

(** ** UTF-8: the decoder inverts the encoder *)

Local Ltac range_fact := unfold in_range, second_byte_ok; Z.div_mod_to_equations; lia.

Lemma utf8_decode_encode_char c rest :
  is_scalar c ->
  utf8_decode (utf8_encode_char c ++ rest) = cs ← utf8_decode rest; Ok (c :: cs).
Proof.
  intros Hc. unfold utf8_encode_char, is_scalar in *.
  destruct (Z.ltb_spec c 128).
  { cbn [app utf8_decode].
    assert (in_range 0 127 c = true) as -> by range_fact. reflexivity. }
  destruct (Z.ltb_spec c 2048).
  { cbn [app utf8_decode].
    assert (in_range 0 127 (192 + c / 64) = false) as -> by range_fact.
    assert (in_range 194 223 (192 + c / 64) = true) as -> by range_fact.
    assert (in_range 128 191 (128 + c mod 64) = true) as -> by range_fact.
    replace ((192 + c / 64 - 192) * 64 + (128 + c mod 64 - 128)) with c
      by (Z.div_mod_to_equations; lia).
    reflexivity. }
  destruct (Z.ltb_spec c 65536).
  { cbn [app utf8_decode].
    assert (in_range 0 127 (224 + c / 4096) = false) as -> by range_fact.
    assert (in_range 194 223 (224 + c / 4096) = false) as -> by range_fact.
    assert (in_range 224 239 (224 + c / 4096) = true) as -> by range_fact.
    assert (second_byte_ok (224 + c / 4096) (128 + c / 64 mod 64) = true) as Hsecond.
    { unfold second_byte_ok, in_range.
      destruct (Z.eqb_spec (224 + c / 4096) 224);
        [Z.div_mod_to_equations; lia|].
      destruct (Z.eqb_spec (224 + c / 4096) 237);
        [Z.div_mod_to_equations; lia|].
      destruct (Z.eqb_spec (224 + c / 4096) 240);
        [Z.div_mod_to_equations; lia|].
      destruct (Z.eqb_spec (224 + c / 4096) 244);
        Z.div_mod_to_equations; lia. }
    rewrite Hsecond.
    assert (in_range 128 191 (128 + c mod 64) = true) as -> by range_fact.
    replace ((224 + c / 4096 - 224) * 4096 + (128 + c / 64 mod 64 - 128) * 64
             + (128 + c mod 64 - 128)) with c
      by (Z.div_mod_to_equations; lia).
    reflexivity. }
  cbn [app utf8_decode].
  assert (in_range 0 127 (240 + c / 262144) = false) as -> by range_fact.
  assert (in_range 194 223 (240 + c / 262144) = false) as -> by range_fact.
  assert (in_range 224 239 (240 + c / 262144) = false) as -> by range_fact.
  assert (in_range 240 244 (240 + c / 262144) = true) as -> by range_fact.
  assert (second_byte_ok (240 + c / 262144) (128 + c / 4096 mod 64) = true) as Hsecond.
  { unfold second_byte_ok, in_range.
    destruct (Z.eqb_spec (240 + c / 262144) 224);
      [Z.div_mod_to_equations; lia|].
    destruct (Z.eqb_spec (240 + c / 262144) 237);
      [Z.div_mod_to_equations; lia|].
    destruct (Z.eqb_spec (240 + c / 262144) 240);
      [Z.div_mod_to_equations; lia|].
    destruct (Z.eqb_spec (240 + c / 262144) 244);
      Z.div_mod_to_equations; lia. }
  rewrite Hsecond.
  assert (in_range 128 191 (128 + c / 64 mod 64) = true) as -> by range_fact.
  assert (in_range 128 191 (128 + c mod 64) = true) as -> by range_fact.
  replace ((240 + c / 262144 - 240) * 262144 + (128 + c / 4096 mod 64 - 128) * 4096
           + (128 + c / 64 mod 64 - 128) * 64 + (128 + c mod 64 - 128)) with c
    by (Z.div_mod_to_equations; lia).
  reflexivity.
Qed.

Lemma utf8_decode_encode t :
  Forall is_scalar t -> utf8_decode (utf8_encode t) = Ok t.
Proof.
  induction 1 as [|c t Hc _ IH]; [reflexivity|].
  unfold utf8_encode in *. rewrite bind_cons.
  rewrite utf8_decode_encode_char by done. by rewrite IH.
Qed.

(** ** The identity struct *)

Lemma hex_digit_is_hex c d : hex_digit c = Some d -> is_hex c = true.
Proof. unfold is_hex. by intros ->. Qed.

Lemma bytes_fromhex_of_bytes h bs : hex_of_bytes h bs -> bytes_fromhex h = Ok bs.
Proof.
  induction 1 as [|c d top bot h bs Hc Hd _ IH]; [reflexivity|].
  cbn [bytes_fromhex].
  rewrite (is_hex_not_ascii_space c (hex_digit_is_hex c top Hc)).
  by rewrite Hc, Hd, IH.
Qed.

Lemma length_hex_of_bytes h bs : hex_of_bytes h bs -> length h = (2 * length bs)%nat.
Proof.
  induction 1 as [|c d top bot h bs _ _ _ IH]; [reflexivity|].
  cbn [length]. lia.
Qed.

Lemma hex_word_offset w (gap : str) :
  hex_word w (32 + Z.of_nat (length gap) / 2) ->
  Nat.Even (length gap) ->
  py_int16 w = Ok (32 + Z.of_nat (length gap) / 2)
  /\ (32 + Z.of_nat (length gap) / 2) * 2 = Z.of_nat (length (w ++ gap)).
Proof.
  intros Hw [g Hg]. split; [by apply hex_word_int16|].
  destruct Hw as (Hlen & _ & _). rewrite length_app, Hlen.
  assert (Z.of_nat (length gap) / 2 = Z.of_nat g) as ->.
  { symmetry. apply Z.div_unique_exact; lia. }
  lia.
Qed.

Lemma moniker_header_valid wouter gap1 wmoniker gap2 wlen hex_bytes trailing bs :
  valid_identity wouter gap1 wmoniker gap2 wlen hex_bytes bs ->
  moniker_header
    (lit "0x" ++ abi_identity wouter gap1 wmoniker gap2 wlen hex_bytes trailing)
  = Ok (Some ((wmoniker ++ gap2) ++ wlen ++ hex_bytes ++ trailing,
              Z.of_nat (length (wmoniker ++ gap2)),
              Z.of_nat (length bs))).
Proof.
  intros (Hwouter & Hg1 & Hwmoniker & Hg2 & Hwlen & Hbytes).
  destruct (hex_word_offset _ _ Hwouter Hg1) as [Hint1 Hoff1].
  destruct (hex_word_offset _ _ Hwmoniker Hg2) as [Hint2 Hoff2].
  pose proof Hwouter as (Hlo & _ & _). pose proof Hwmoniker as (Hlm & _ & _).
  pose proof Hwlen as (Hll & _ & _).
  unfold moniker_header, abi_identity.
  rewrite (py_slice_from_app (lit "0x")) by reflexivity.
  destruct (Z.ltb_spec
    (Z.of_nat (length (wouter ++ gap1 ++ wmoniker ++ gap2 ++ wlen
                        ++ hex_bytes ++ trailing))) 128) as [Hshort|_].
  { rewrite !length_app in Hshort. lia. }
  rewrite (py_slice_head wouter) by lia.
  rewrite Hint1, bind_Ok. cbv zeta.
  rewrite (assoc_L (++) wouter gap1).
  rewrite (py_slice_from_app (wouter ++ gap1)) by lia.
  rewrite (py_slice_head wmoniker) by lia.
  rewrite Hint2, bind_Ok. cbv zeta.
  rewrite Hoff2.
  rewrite (assoc_L (++) wmoniker gap2).
  rewrite (py_slice_mid (wmoniker ++ gap2) wlen) by lia.
  by rewrite (hex_word_int16 _ _ Hwlen), bind_Ok.
Qed.

Lemma decode_identity_moniker_valid
    wouter gap1 wmoniker gap2 wlen hex_bytes trailing bs :
  valid_identity wouter gap1 wmoniker gap2 wlen hex_bytes bs ->
  (1 <= length bs <= 1000)%nat ->
  decode_identity_moniker
    (lit "0x" ++ abi_identity wouter gap1 wmoniker gap2 wlen hex_bytes trailing)
  = moniker ← utf8_decode bs; Ok (Some moniker).
Proof.
  intros Hvalid Hlen. unfold decode_identity_moniker.
  rewrite (moniker_header_valid _ _ _ _ _ _ _ _ Hvalid), bind_Ok.
  destruct Hvalid as (_ & _ & _ & _ & (Hll & _ & _) & Hbytes).
  destruct (Z.eqb_spec (Z.of_nat (length bs)) 0); [lia|].
  destruct (Z.gtb_spec (Z.of_nat (length bs)) 1000); [lia|].
  cbn [orb].
  rewrite (assoc_L (++) (wmoniker ++ gap2) wlen).
  rewrite (py_slice_mid ((wmoniker ++ gap2) ++ wlen) hex_bytes trailing).
  - by rewrite (bytes_fromhex_of_bytes _ _ Hbytes), bind_Ok.
  - rewrite (length_app (wmoniker ++ gap2)). lia.
  - rewrite (length_hex_of_bytes _ _ Hbytes). lia.
Qed.

Lemma decode_identity_moniker_bad_length result L :
  declared_moniker_len result = Some L ->
  L = 0 \/ 1000 < L ->
  decode_identity_moniker result = Ok None.
Proof.
  unfold declared_moniker_len, decode_identity_moniker.
  destruct (moniker_header result) as [[[[struct_hex moniker_pos] moniker_len]|]|e];
    try discriminate.
  intros [= ->] HL. rewrite bind_Ok.
  assert ((L =? 0) || (L >? 1000) = true) as -> by lia.
  reflexivity.
Qed.

Example moniker_malformed_hex :
  decode_identity_moniker
    (lit "0x" ++ abi_identity word_0x20 [] word_0x20 [] word_1 (lit "zz") [])
  = Raise ValueError.
Proof. vm_compute. reflexivity. Qed.

Example moniker_invalid_utf8 :
  decode_identity_moniker
    (lit "0x" ++ abi_identity word_0x20 [] word_0x20 [] word_1 (lit "ff") [])
  = Raise UnicodeDecodeError.
Proof. vm_compute. reflexivity. Qed.

Example moniker_offset_out_of_range :
  decode_identity_moniker bad_offset_payload = Raise ValueError.
Proof. vm_compute. reflexivity. Qed.

(** C2.  Once the identity call has returned [result]: a declared length of
    0 or above 1000 gives absent; a decoding that raises gives absent, and
    in every case the function returns rather than raises; and a
    well-formed encoding of a moniker [t] whose UTF-8 form has between 1
    and 1000 bytes gives [t], the UTF-8 decoding of the bytes that follow
    the length word found through the two offsets. *)
Theorem get_validator_moniker_spec {World : Type}
    (rpc_post : str -> str -> str -> World -> rpc_reply * World)
    (rpc_url wallet_address : str) (w w' : World) (result : str) :
  eth_call rpc_post rpc_url wallet_address GET_IDENTITY_SELECTOR w = (Ok result, w') ->
  (forall L,
     declared_moniker_len result = Some L -> L = 0 \/ 1000 < L ->
     get_validator_moniker rpc_post rpc_url wallet_address w = (Ok None, w'))
  /\ (raises (decode_identity_moniker result) ->
      get_validator_moniker rpc_post rpc_url wallet_address w = (Ok None, w'))
  /\ (exists m, get_validator_moniker rpc_post rpc_url wallet_address w = (Ok m, w'))
  /\ (forall wouter gap1 wmoniker gap2 wlen hex_bytes trailing (t : text),
        result = lit "0x"
                 ++ abi_identity wouter gap1 wmoniker gap2 wlen hex_bytes trailing ->
        valid_identity wouter gap1 wmoniker gap2 wlen hex_bytes (utf8_encode t) ->
        Forall is_scalar t ->
        (1 <= length (utf8_encode t) <= 1000)%nat ->
        get_validator_moniker rpc_post rpc_url wallet_address w = (Ok (Some t), w')).
Proof.
  intros Hcall. rewrite get_validator_moniker_unfold, Hcall, bind_Ok.
  split; [|split; [|split]].
  - intros L HL Hbad.
    by rewrite (decode_identity_moniker_bad_length result L HL Hbad).
  - intros [e ->]. reflexivity.
  - eauto.
  - intros wouter gap1 wmoniker gap2 wlen hex_bytes trailing t -> Hvalid Ht Hlen.
    rewrite (decode_identity_moniker_valid _ _ _ _ _ _ _ _ Hvalid Hlen).
    by rewrite (utf8_decode_encode t Ht).
Qed.

Lemma get_validator_moniker_spec_witness :
  (declared_moniker_len empty_identity_payload = Some 0
   /\ get_validator_moniker (rpc_constant empty_identity_payload)
        sample_rpc_url addr_W 0%nat = (Ok None, 1%nat))
  /\ (raises (decode_identity_moniker bad_offset_payload)
      /\ get_validator_moniker (rpc_constant bad_offset_payload)
           sample_rpc_url addr_W 0%nat = (Ok None, 1%nat))
  /\ (valid_identity word_0x20 [] word_0x20 [] word_5 (lit "616c696365")
        (utf8_encode (txt "alice"))
      /\ get_validator_moniker (rpc_constant alice_identity_payload)
           sample_rpc_url addr_W 0%nat = (Ok (Some (txt "alice")), 1%nat)).
Proof.
  assert (declared_moniker_len empty_identity_payload = Some 0) as Hlen0
    by (vm_compute; reflexivity).
  assert (raises (decode_identity_moniker bad_offset_payload)) as Hraise
    by (exists ValueError; vm_compute; reflexivity).
  assert (valid_identity word_0x20 [] word_0x20 [] word_5 (lit "616c696365")
            (utf8_encode (txt "alice"))) as Hvalid.
  { repeat split; try reflexivity; try (exists 0%nat; reflexivity).
    change (utf8_encode (txt "alice"))
      with [6 * 16 + 1; 6 * 16 + 12; 6 * 16 + 9; 6 * 16 + 3; 6 * 16 + 5].
    repeat (apply hex_of_cons; [reflexivity|reflexivity|]).
    apply hex_of_nil. }
  split; [|split].
  - split; [exact Hlen0|].
    destruct (get_validator_moniker_spec (rpc_constant empty_identity_payload)
                sample_rpc_url addr_W 0%nat 1%nat empty_identity_payload eq_refl)
      as (Hbad & _).
    apply (Hbad 0 Hlen0). by left.
  - split; [exact Hraise|].
    destruct (get_validator_moniker_spec (rpc_constant bad_offset_payload)
                sample_rpc_url addr_W 0%nat 1%nat bad_offset_payload eq_refl)
      as (_ & Hexc & _).
    exact (Hexc Hraise).
  - split; [exact Hvalid|].
    destruct (get_validator_moniker_spec (rpc_constant alice_identity_payload)
                sample_rpc_url addr_W 0%nat 1%nat alice_identity_payload eq_refl)
      as (_ & _ & _ & Hgood).
    apply (Hgood word_0x20 [] word_0x20 [] word_5 (lit "616c696365")
                 (replicate 54 (chr 48)) (txt "alice") eq_refl Hvalid).
    + change (txt "alice") with [97; 108; 105; 99; 101].
      repeat (constructor; [unfold is_scalar; lia|]). constructor.
    + vm_compute. lia.
Defined.

(** ** Sorting *)

Lemma list_ltb_irrefl a : list_ltb a a = false.
Proof.
  induction a as [|x a IH]; [reflexivity|].
  simpl. by rewrite Z.ltb_irrefl.
Qed.

Lemma list_ltb_asym a : forall b, list_ltb a b = true -> list_ltb b a = false.
Proof.
  induction a as [|x a IH]; intros [|y b]; simpl; try done.
  destruct (Z.ltb_spec x y), (Z.ltb_spec y x); try done; try lia.
  apply IH.
Qed.

Lemma list_ltb_antisym a : forall b,
  list_ltb a b = false -> list_ltb b a = false -> a = b.
Proof.
  induction a as [|x a IH]; intros [|y b]; simpl; try done.
  destruct (Z.ltb_spec x y), (Z.ltb_spec y x); try done.
  intros Hab Hba. assert (x = y) as -> by lia. f_equal. by apply IH.
Qed.

Lemma list_ltb_neg_trans a : forall b c,
  list_ltb c a = true -> list_ltb b a = true \/ list_ltb c b = true.
Proof.
  induction a as [|x a IH]; intros b c.
  - by destruct c.
  - destruct c as [|z c], b as [|y b]; simpl; auto.
    destruct (Z.ltb_spec z x), (Z.ltb_spec x z), (Z.ltb_spec y x),
      (Z.ltb_spec x y), (Z.ltb_spec z y), (Z.ltb_spec y z);
      try lia; auto; try discriminate.
Qed.

Lemma text_le_trans a b c : text_le a b -> text_le b c -> text_le a c.
Proof.
  unfold text_le. intros Hab Hbc.
  destruct (list_ltb c a) eqn:Hca; [|done].
  destruct (list_ltb_neg_trans a b c Hca); congruence.
Qed.

Lemma text_le_antisym a b : text_le a b -> text_le b a -> a = b.
Proof. unfold text_le. intros Hab Hba. by apply list_ltb_antisym. Qed.

Section py_sorted_facts.
Context {A K : Type} (ltb : K -> K -> bool) (key : A -> K).
Hypothesis ltb_asym : forall a b, ltb a b = true -> ltb b a = false.

Lemma sorted_insert_perm x l : sorted_insert ltb key x l ≡ₚ x :: l.
Proof.
  induction l as [|y l IH]; [done|].
  simpl. destruct (ltb (key x) (key y)); [done|].
  rewrite IH. apply Permutation_swap.
Qed.

Lemma py_sorted_by_perm_acc l : forall acc,
  foldl (fun acc x => sorted_insert ltb key x acc) acc l ≡ₚ acc ++ l.
Proof.
  induction l as [|x l IH]; intros acc; simpl.
  - by rewrite app_nil_r.
  - rewrite IH, sorted_insert_perm. simpl. apply Permutation_middle.
Qed.

Lemma py_sorted_by_perm l : py_sorted_by ltb key l ≡ₚ l.
Proof. apply (py_sorted_by_perm_acc l []). Qed.

Lemma sorted_insert_hd x y l :
  key_le ltb key y x ->
  HdRel (key_le ltb key) y l ->
  HdRel (key_le ltb key) y (sorted_insert ltb key x l).
Proof.
  intros Hyx Hl. destruct l as [|z l]; simpl.
  - by constructor.
  - destruct (ltb (key x) (key z)); constructor; [done|]. by inversion Hl.
Qed.

Lemma sorted_insert_sorted x l :
  Sorted (key_le ltb key) l -> Sorted (key_le ltb key) (sorted_insert ltb key x l).
Proof.
  induction 1 as [|y l Hl IH Hhd]; simpl.
  - by repeat constructor.
  - destruct (ltb (key x) (key y)) eqn:Hxy.
    + constructor; [by constructor|]. constructor. unfold key_le. by apply ltb_asym.
    + constructor; [done|]. by apply sorted_insert_hd.
Qed.

Lemma py_sorted_by_sorted_acc l : forall acc,
  Sorted (key_le ltb key) acc ->
  Sorted (key_le ltb key) (foldl (fun acc x => sorted_insert ltb key x acc) acc l).
Proof.
  induction l as [|x l IH]; intros acc Hacc; simpl; [done|].
  by apply IH, sorted_insert_sorted.
Qed.

Lemma py_sorted_by_sorted l : Sorted (key_le ltb key) (py_sorted_by ltb key l).
Proof. apply py_sorted_by_sorted_acc. constructor. Qed.

End py_sorted_facts.

Lemma py_sorted_perm l : py_sorted l ≡ₚ l.
Proof. apply py_sorted_by_perm. Qed.

Lemma py_sorted_sorted l : Sorted text_le (py_sorted l).
Proof. apply (py_sorted_by_sorted list_ltb id list_ltb_asym). Qed.

(** The sorted list does not depend on the order of the input. *)
Lemma py_sorted_order_irrelevant l1 l2 : l1 ≡ₚ l2 -> py_sorted l1 = py_sorted l2.
Proof.
  intros Hperm.
  apply (Sorted_unique_strong text_le (Transitive0 := text_le_trans)).
  - intros x1 x2 _ _. apply text_le_antisym.
  - apply py_sorted_sorted.
  - apply py_sorted_sorted.
  - by rewrite !py_sorted_perm.
Qed.

Lemma py_sorted_set_iter (iter1 iter2 : gset (list Z) -> list (list Z)) X :
  iteration_order iter1 -> iteration_order iter2 ->
  py_sorted (iter1 X) = py_sorted (iter2 X).
Proof.
  intros H1 H2. apply py_sorted_order_irrelevant. by rewrite H1, H2.
Qed.

(** ** The report *)

Lemma iteration_order_elements {A} `{Countable A} :
  iteration_order (elements : gset A -> list A).
Proof. by intros X. Qed.

Lemma iteration_order_reverse {A} `{Countable A} :
  iteration_order (reverse_elements : gset A -> list A).
Proof. intros X. unfold reverse_elements. apply reverse_Permutation. Qed.

Lemma no_telemetry_list_of_set_iter iter1 iter2 onchain all_with_telemetry :
  iteration_order iter1 -> iteration_order iter2 ->
  no_telemetry_list_of iter1 onchain all_with_telemetry
  = no_telemetry_list_of iter2 onchain all_with_telemetry.
Proof.
  intros H1 H2. unfold no_telemetry_list_of.
  by rewrite (py_sorted_set_iter iter1 iter2 _ H1 H2).
Qed.

(** What a report is made of, once the two rates have been formatted. *)
Lemma generate_report_Ok set_iter now onchain telemetry rpc_url grafana_url r :
  generate_report set_iter now onchain telemetry rpc_url grafana_url = Ok r ->
  let metrics_set : gset (list Z) := list_to_set (tm_validators (metrics telemetry)) in
  let logs_set : gset (list Z) := list_to_set (tm_validators (logs telemetry)) in
  generated_at (metadata r) = now
  /\ g_names (fully_configured (rep_validators r))
     = py_sorted (set_iter (metrics_set ∩ logs_set))
  /\ g_names (metrics_only (rep_validators r))
     = py_sorted (set_iter (metrics_set ∖ logs_set))
  /\ g_names (logs_only (rep_validators r))
     = py_sorted (set_iter (logs_set ∖ metrics_set))
  /\ ntg_validators (no_telemetry (rep_validators r))
     = no_telemetry_list_of set_iter onchain (metrics_set ∪ logs_set)
  /\ format_rate (size (metrics_set ∪ logs_set)) (active_count (summary onchain))
     = Ok (telemetry_adoption_rate (analysis r))
  /\ format_rate (size (metrics_set ∩ logs_set)) (active_count (summary onchain))
     = Ok (full_observability_rate (analysis r)).
Proof.
  unfold generate_report, telemetry_categories. cbv zeta.
  destruct (format_rate (size (_ ∪ _)) _) as [adoption|e];
    [rewrite bind_Ok|rewrite bind_Raise; discriminate].
  destruct (format_rate (size (_ ∩ _)) _) as [observability|e];
    [rewrite bind_Ok|rewrite bind_Raise; discriminate].
  intros [= <-]. simpl. done.
Qed.

(** C9.  Two runs of [generate_report] on the same on-chain and telemetry
    inputs, whatever order the two Python processes iterate their sets in
    and whatever the clock says, give reports that differ in nothing but
    the generation timestamp. *)
Theorem generate_report_deterministic
    (iter1 iter2 : gset (list Z) -> list (list Z)) (now1 now2 : str)
    (onchain : onchain_data) (telemetry : telemetry_data)
    (rpc_url grafana_url : str) :
  iteration_order iter1 ->
  iteration_order iter2 ->
  without_timestamp <$> generate_report iter1 now1 onchain telemetry rpc_url grafana_url
  = without_timestamp <$> generate_report iter2 now2 onchain telemetry rpc_url grafana_url.
Proof.
  intros H1 H2. unfold generate_report, telemetry_categories. cbv zeta.
  rewrite (no_telemetry_list_of_set_iter iter1 iter2 _ _ H1 H2).
  rewrite !(py_sorted_set_iter iter1 iter2 _ H1 H2).
  destruct (format_rate (size (_ ∪ _)) _) as [adoption|e]; [|reflexivity].
  rewrite !bind_Ok.
  destruct (format_rate (size (_ ∩ _)) _) as [observability|e]; reflexivity.
Qed.

Lemma generate_report_deterministic_witness :
  iteration_order (elements : gset (list Z) -> list (list Z))
  /\ iteration_order (reverse_elements : gset (list Z) -> list (list Z))
  /\ without_timestamp
       <$> generate_report elements sample_now sample_onchain sample_telemetry
             sample_rpc_url sample_grafana_url
     = without_timestamp
         <$> generate_report reverse_elements sample_later sample_onchain
               sample_telemetry sample_rpc_url sample_grafana_url.
Proof.
  split; [apply iteration_order_elements|].
  split; [apply iteration_order_reverse|].
  apply generate_report_deterministic.
  - apply iteration_order_elements.
  - apply iteration_order_reverse.
Defined.

(** ** The telemetry categories *)

Lemma telemetry_categories_partition (metrics_set logs_set : gset (list Z)) :
  let '(fully_configured, metrics_only, logs_only, all_with_telemetry) :=
    telemetry_categories metrics_set logs_set in
  fully_configured ∪ metrics_only ∪ logs_only = metrics_set ∪ logs_set
  /\ all_with_telemetry = metrics_set ∪ logs_set
  /\ fully_configured ## metrics_only
  /\ fully_configured ## logs_only
  /\ metrics_only ## logs_only.
Proof.
  unfold telemetry_categories. repeat split.
  - apply set_eq. intros x.
    rewrite !elem_of_union, elem_of_intersection, !elem_of_difference.
    destruct (decide (x ∈ metrics_set)), (decide (x ∈ logs_set)); tauto.
  - apply elem_of_disjoint. intros x.
    rewrite elem_of_intersection, elem_of_difference. tauto.
  - apply elem_of_disjoint. intros x.
    rewrite elem_of_intersection, elem_of_difference. tauto.
  - apply elem_of_disjoint. intros x.
    rewrite !elem_of_difference. tauto.
Qed.

Lemma set_of_sorted_names (set_iter : gset (list Z) -> list (list Z)) X :
  iteration_order set_iter -> list_to_set (py_sorted (set_iter X)) = X.
Proof.
  intros Hiter. apply set_eq. intros x.
  by rewrite elem_of_list_to_set, py_sorted_perm, Hiter, elem_of_elements.
Qed.

(** C3.  The three telemetry categories cover the union of the two input
    sets and are pairwise disjoint, both as [generate_report] computes them
    and as the name lists of the report it returns; on metrics from alice
    and bob and logs from bob and carol they are bob, alice and carol. *)
Theorem telemetry_categories_spec
    (set_iter : gset (list Z) -> list (list Z)) (now : str)
    (onchain : onchain_data) (telemetry : telemetry_data)
    (rpc_url grafana_url : str) (r : report) :
  iteration_order set_iter ->
  generate_report set_iter now onchain telemetry rpc_url grafana_url = Ok r ->
  let metrics_set : gset (list Z) := list_to_set (tm_validators (metrics telemetry)) in
  let logs_set : gset (list Z) := list_to_set (tm_validators (logs telemetry)) in
  let fully : gset (list Z) :=
    list_to_set (g_names (fully_configured (rep_validators r))) in
  let only_metrics : gset (list Z) :=
    list_to_set (g_names (metrics_only (rep_validators r))) in
  let only_logs : gset (list Z) :=
    list_to_set (g_names (logs_only (rep_validators r))) in
  telemetry_categories metrics_set logs_set
    = (fully, only_metrics, only_logs, metrics_set ∪ logs_set)
  /\ fully ∪ only_metrics ∪ only_logs = metrics_set ∪ logs_set
  /\ fully ## only_metrics
  /\ fully ## only_logs
  /\ only_metrics ## only_logs
  /\ (telemetry = sample_telemetry ->
      g_names (fully_configured (rep_validators r)) = [txt "bob"]
      /\ g_names (metrics_only (rep_validators r)) = [txt "alice"]
      /\ g_names (logs_only (rep_validators r)) = [txt "carol"]).
Proof.
  intros Hiter Hr. cbv zeta.
  destruct (generate_report_Ok _ _ _ _ _ _ _ Hr) as (_ & Hf & Hm & Hl & _).
  rewrite Hf, Hm, Hl, !(set_of_sorted_names set_iter _ Hiter).
  pose proof (telemetry_categories_partition
                (list_to_set (tm_validators (metrics telemetry)))
                (list_to_set (tm_validators (logs telemetry)))) as Hpart.
  unfold telemetry_categories in *.
  destruct Hpart as (Hcover & _ & Hd1 & Hd2 & Hd3).
  split; [reflexivity|].
  split; [done|]. split; [done|]. split; [done|]. split; [done|].
  intros ->.
  rewrite !(py_sorted_set_iter set_iter elements _ Hiter iteration_order_elements).
  repeat split; vm_compute; reflexivity.
Qed.

Lemma telemetry_categories_spec_witness :
  exists r,
    generate_report elements sample_now sample_onchain sample_telemetry
      sample_rpc_url sample_grafana_url = Ok r
    /\ g_names (fully_configured (rep_validators r)) = [txt "bob"]
    /\ g_names (metrics_only (rep_validators r)) = [txt "alice"]
    /\ g_names (logs_only (rep_validators r)) = [txt "carol"].
Proof.
  destruct (generate_report elements sample_now sample_onchain sample_telemetry
              sample_rpc_url sample_grafana_url) as [r|e] eqn:Hr;
    [|vm_compute in Hr; discriminate].
  exists r. split; [reflexivity|].
  destruct (telemetry_categories_spec elements sample_now sample_onchain
              sample_telemetry sample_rpc_url sample_grafana_url r
              iteration_order_elements Hr) as (_ & _ & _ & _ & _ & Hscenario).
  exact (Hscenario eq_refl).
Defined.

(** ** The validator records *)

Lemma derive_status_table :
  derive_status true false = Active
  /\ derive_status false true = Banned
  /\ derive_status true true = ActiveAndBanned
  /\ derive_status false false = Unknown.
Proof. repeat split. Qed.

Lemma derive_status_inj a b a' b' :
  derive_status a b = derive_status a' b' -> a = a' /\ b = b'.
Proof. destruct a, b, a', b'; simpl; intros H; try discriminate H; done. Qed.

Lemma validators_build_status set_iter act ban a2m m2a :
  Forall (fun v => status v = derive_status (is_active v) (is_banned v))
         (validators (build_onchain_data set_iter act ban a2m m2a)).
Proof.
  unfold build_onchain_data. cbn [validators].
  apply Forall_fmap, Forall_forall. intros addr _. reflexivity.
Qed.

Lemma validators_build_perm (set_iter : gset (list ascii) -> list (list ascii))
    act ban a2m m2a :
  iteration_order set_iter ->
  validators (build_onchain_data set_iter act ban a2m m2a)
  ≡ₚ validator_record (list_to_set (py_lower <$> act)) (list_to_set (py_lower <$> ban))
       a2m <$> elements (list_to_set (act ++ ban) : gset (list ascii)).
Proof.
  intros Hiter. unfold build_onchain_data. cbn [validators].
  by rewrite py_sorted_by_perm, Hiter.
Qed.

Lemma count_where_perm P l1 l2 : l1 ≡ₚ l2 -> count_where P l1 = count_where P l2.
Proof.
  intros Hperm. unfold count_where.
  induction Hperm as [|x l1 l2 _ IH|x y l|l1 l2 l3 _ IH1 _ IH2]; simpl.
  - reflexivity.
  - destruct (P x); simpl; lia.
  - destruct (P x), (P y); reflexivity.
  - lia.
Qed.

Section onchain_facts.
Context {World : Type}.
Variable rpc_post : str -> str -> str -> World -> rpc_reply * World.
Variable set_iter : gset (list ascii) -> list (list ascii).

Lemma get_onchain_validators_builds rpc_url w0 w1 w2 active_result banned_result
    active_validators banned_validators :
  eth_call rpc_post rpc_url STAKING_CONTRACT GET_VALIDATORS_SELECTOR w0
    = (Ok active_result, w1) ->
  decode_address_array active_result = Ok active_validators ->
  eth_call rpc_post rpc_url STAKING_CONTRACT GET_BANNED_SELECTOR w1
    = (Ok banned_result, w2) ->
  decode_address_array banned_result = Ok banned_validators ->
  exists a2m m2a w3,
    get_onchain_validators rpc_post set_iter rpc_url w0
    = (Ok (build_onchain_data set_iter active_validators banned_validators a2m m2a),
       w3).
Proof.
  intros Hactive Hdec1 Hbanned Hdec2.
  unfold get_onchain_validators.
  unfold io_bind at 1. rewrite Hactive.
  unfold io_bind at 1, io_lift at 1. rewrite Hdec1.
  unfold io_bind at 1. rewrite Hbanned.
  unfold io_bind at 1, io_lift at 1. rewrite Hdec2.
  unfold io_bind at 1.
  destruct (fetch_monikers_returns rpc_post rpc_url active_validators (∅, ∅) w2)
    as ([a2m m2a] & w3 & ->).
  unfold io_ret. simpl. eauto.
Qed.

Lemma get_onchain_validators_inv rpc_url w0 data w3 :
  get_onchain_validators rpc_post set_iter rpc_url w0 = (Ok data, w3) ->
  exists active_validators banned_validators a2m m2a,
    data = build_onchain_data set_iter active_validators banned_validators a2m m2a.
Proof.
  unfold get_onchain_validators.
  unfold io_bind at 1.
  destruct (eth_call _ _ _ _ w0) as [[active_result|e] w1]; [|discriminate].
  unfold io_bind at 1, io_lift at 1.
  destruct (decode_address_array active_result) as [active_validators|e];
    [|discriminate].
  unfold io_bind at 1.
  destruct (eth_call _ _ _ _ w1) as [[banned_result|e] w2]; [|discriminate].
  unfold io_bind at 1, io_lift at 1.
  destruct (decode_address_array banned_result) as [banned_validators|e];
    [|discriminate].
  unfold io_bind at 1.
  destruct (fetch_monikers _ _ _ _ w2) as [[[a2m m2a]|e] w3']; [|discriminate].
  unfold io_ret. intros [= <- <-]. simpl. eauto.
Qed.

End onchain_facts.

Lemma scenario_addresses (A B C : list ascii) :
  A <> B -> A <> C -> B <> C ->
  elements (list_to_set ([A; B] ++ [B; C]) : gset (list ascii)) ≡ₚ [A; B; C].
Proof.
  intros HAB HAC HBC.
  assert ((list_to_set ([A; B] ++ [B; C]) : gset (list ascii))
          = list_to_set [A; B; C]) as ->.
  { apply set_eq. intros x. rewrite !elem_of_list_to_set.
    simpl. rewrite !elem_of_cons. tauto. }
  apply elements_list_to_set.
  repeat (constructor; [rewrite ?elem_of_cons, ?elem_of_nil; intuition congruence|]).
  constructor.
Qed.

Lemma scenario_statuses (set_iter : gset (list ascii) -> list (list ascii))
    (A B C : list ascii) a2m m2a :
  iteration_order set_iter ->
  py_lower A <> py_lower B -> py_lower A <> py_lower C -> py_lower B <> py_lower C ->
  statuses (build_onchain_data set_iter [A; B] [B; C] a2m m2a)
  ≡ₚ [(A, Active); (B, ActiveAndBanned); (C, Banned)].
Proof.
  intros Hiter HAB HAC HBC. unfold statuses.
  rewrite (validators_build_perm set_iter _ _ _ _ Hiter).
  rewrite scenario_addresses by congruence.
  cbn [fmap list_fmap]. unfold validator_record. cbn [address status].
  assert (forall x y z : list ascii, x ∈ (list_to_set [y; z] : gset (list ascii))
                                <-> x = y \/ x = z) as Hin.
  { intros x y z. rewrite elem_of_list_to_set, !elem_of_cons, elem_of_nil. tauto. }
  rewrite (bool_decide_eq_true_2 (py_lower A ∈ _)) by (apply Hin; auto).
  rewrite (bool_decide_eq_false_2 (py_lower A ∈ _))
    by (rewrite Hin; intuition congruence).
  rewrite !(bool_decide_eq_true_2 (py_lower B ∈ _)) by (apply Hin; auto).
  rewrite (bool_decide_eq_false_2 (py_lower C ∈ _))
    by (rewrite Hin; intuition congruence).
  rewrite (bool_decide_eq_true_2 (py_lower C ∈ _)) by (apply Hin; auto).
  reflexivity.
Qed.

(** C4.  The status is a function of the two flags alone, defined on all
    four pairs and taking a different value on each; every record that
    [get_onchain_validators] returns carries the status derived from its
    own flags; and when the active list decodes to A, B and the banned list
    to B, C (three addresses that differ even when case is ignored), A is
    active, B is active and banned, and C is banned. *)
Theorem status_derivation_spec {World : Type}
    (rpc_post : str -> str -> str -> World -> rpc_reply * World)
    (set_iter : gset (list ascii) -> list (list ascii)) (rpc_url : str) :
  (derive_status true false = Active
   /\ derive_status false true = Banned
   /\ derive_status true true = ActiveAndBanned
   /\ derive_status false false = Unknown)
  /\ (forall a b a' b',
        derive_status a b = derive_status a' b' -> a = a' /\ b = b')
  /\ (forall w0 data w3,
        get_onchain_validators rpc_post set_iter rpc_url w0 = (Ok data, w3) ->
        Forall (fun v => status v = derive_status (is_active v) (is_banned v))
               (validators data))
  /\ (forall (A B C : list ascii) w0 w1 w2 active_result banned_result,
        iteration_order set_iter ->
        py_lower A <> py_lower B ->
        py_lower A <> py_lower C ->
        py_lower B <> py_lower C ->
        eth_call rpc_post rpc_url STAKING_CONTRACT GET_VALIDATORS_SELECTOR w0
          = (Ok active_result, w1) ->
        decode_address_array active_result = Ok [A; B] ->
        eth_call rpc_post rpc_url STAKING_CONTRACT GET_BANNED_SELECTOR w1
          = (Ok banned_result, w2) ->
        decode_address_array banned_result = Ok [B; C] ->
        exists data w3,
          get_onchain_validators rpc_post set_iter rpc_url w0 = (Ok data, w3)
          /\ statuses data ≡ₚ [(A, Active); (B, ActiveAndBanned); (C, Banned)]).
Proof.
  split; [apply derive_status_table|].
  split; [apply derive_status_inj|].
  split.
  - intros w0 data w3 Hrun.
    destruct (get_onchain_validators_inv _ _ _ _ _ _ Hrun)
      as (act & ban & a2m & m2a & ->).
    apply validators_build_status.
  - intros A B C w0 w1 w2 active_result banned_result
      Hiter HAB HAC HBC Hactive Hdec1 Hbanned Hdec2.
    destruct (get_onchain_validators_builds rpc_post set_iter rpc_url w0 w1 w2
                active_result banned_result [A; B] [B; C]
                Hactive Hdec1 Hbanned Hdec2) as (a2m & m2a & w3 & Hrun).
    eexists _, w3. split; [exact Hrun|].
    by apply scenario_statuses.
Qed.

Lemma status_derivation_spec_witness :
  iteration_order (elements : gset (list ascii) -> list (list ascii))
  /\ decode_address_array (address_array_payload [addr_A; addr_B])
     = Ok [lit "0x" ++ addr_A; lit "0x" ++ addr_B]
  /\ decode_address_array (address_array_payload [addr_B; addr_C])
     = Ok [lit "0x" ++ addr_B; lit "0x" ++ addr_C]
  /\ exists data w3,
       get_onchain_validators
         (rpc_enumerations_only [addr_A; addr_B] [addr_B; addr_C])
         elements sample_rpc_url 0%nat = (Ok data, w3)
       /\ Forall (fun v => status v = derive_status (is_active v) (is_banned v))
                 (validators data)
       /\ statuses data
          ≡ₚ [(lit "0x" ++ addr_A, Active);
              (lit "0x" ++ addr_B, ActiveAndBanned);
              (lit "0x" ++ addr_C, Banned)].
Proof.
  destruct (status_derivation_spec
              (rpc_enumerations_only [addr_A; addr_B] [addr_B; addr_C])
              elements sample_rpc_url) as (_ & _ & Hrecords & Hscenario).
  assert (decode_address_array (address_array_payload [addr_A; addr_B])
          = Ok [lit "0x" ++ addr_A; lit "0x" ++ addr_B]) as Hdec1
    by (vm_compute; reflexivity).
  assert (decode_address_array (address_array_payload [addr_B; addr_C])
          = Ok [lit "0x" ++ addr_B; lit "0x" ++ addr_C]) as Hdec2
    by (vm_compute; reflexivity).
  split; [apply iteration_order_elements|].
  split; [exact Hdec1|]. split; [exact Hdec2|].
  destruct (Hscenario (lit "0x" ++ addr_A) (lit "0x" ++ addr_B) (lit "0x" ++ addr_C)
              0%nat 1%nat 2%nat
              (address_array_payload [addr_A; addr_B])
              (address_array_payload [addr_B; addr_C])
              iteration_order_elements)
    as (data & w3 & Hrun & Hstatuses);
    try (intros H; vm_compute in H; discriminate H);
    try reflexivity; try assumption.
  exists data, w3. split; [exact Hrun|]. split; [|exact Hstatuses].
  exact (Hrecords 0%nat data w3 Hrun).
Defined.

(** ** Two spellings of one address *)

Lemma summary_build set_iter act ban a2m m2a :
  let vs := validators (build_onchain_data set_iter act ban a2m m2a) in
  summary (build_onchain_data set_iter act ban a2m m2a)
  = {| total_unique := length vs;
       active_count := count_where is_active vs;
       banned_count := count_where is_banned vs;
       active_only := count_where (fun v => bool_decide (status v = Active)) vs;
       banned_only := count_where (fun v => bool_decide (status v = Banned)) vs;
       active_and_banned :=
         count_where (fun v => bool_decide (status v = ActiveAndBanned)) vs;
       with_moniker := size a2m |}.
Proof. reflexivity. Qed.

(** C7, at the failing input.  The active list holds an address in small
    digits and the banned list the same address in capital digits: the two
    spellings are equal once lower-cased, and yet the record list holds one
    record for each, both flagged active and banned, and [total_unique] is
    2. *)
Theorem two_spellings_two_records (set_iter : gset (list ascii) -> list (list ascii)) :
  iteration_order set_iter ->
  py_lower (lit "0x" ++ addr_A_upper) = py_lower (lit "0x" ++ addr_A)
  /\ exists data w,
       get_onchain_validators (rpc_enumerations_only [addr_A] [addr_A_upper])
         set_iter sample_rpc_url 0%nat = (Ok data, w)
       /\ address <$> validators data
          ≡ₚ [lit "0x" ++ addr_A; lit "0x" ++ addr_A_upper]
       /\ total_unique (summary data) = 2%nat
       /\ active_count (summary data) = 2%nat
       /\ banned_count (summary data) = 2%nat
       /\ active_and_banned (summary data) = 2%nat.
Proof.
  intros Hiter. split; [vm_compute; reflexivity|].
  destruct (get_onchain_validators_builds
              (rpc_enumerations_only [addr_A] [addr_A_upper]) set_iter
              sample_rpc_url 0%nat 1%nat 2%nat
              (address_array_payload [addr_A])
              (address_array_payload [addr_A_upper])
              [lit "0x" ++ addr_A] [lit "0x" ++ addr_A_upper])
    as (a2m & m2a & w3 & Hrun);
    try reflexivity; try (vm_compute; reflexivity).
  eexists _, w3. split; [exact Hrun|].
  pose proof (validators_build_perm set_iter [lit "0x" ++ addr_A]
                [lit "0x" ++ addr_A_upper] a2m m2a Hiter) as Hperm.
  assert (elements (list_to_set ([lit "0x" ++ addr_A] ++ [lit "0x" ++ addr_A_upper])
                     : gset (list ascii))
          ≡ₚ [lit "0x" ++ addr_A; lit "0x" ++ addr_A_upper]) as Helems.
  { apply elements_list_to_set.
    repeat (constructor;
            [rewrite ?elem_of_cons, ?elem_of_nil;
             intros H; vm_compute in H; intuition discriminate|]).
    constructor. }
  rewrite Helems in Hperm.
  rewrite summary_build. cbv zeta.
  cbn [total_unique active_count banned_count active_and_banned].
  rewrite !(count_where_perm _ _ _ Hperm).
  rewrite (Permutation_length Hperm), Hperm.
  repeat split; vm_compute; reflexivity.
Qed.

Lemma two_spellings_two_records_witness :
  iteration_order (reverse_elements : gset (list ascii) -> list (list ascii))
  /\ exists data w,
       get_onchain_validators (rpc_enumerations_only [addr_A] [addr_A_upper])
         reverse_elements sample_rpc_url 0%nat = (Ok data, w)
       /\ total_unique (summary data) = 2%nat.
Proof.
  split; [apply iteration_order_reverse|].
  destruct (two_spellings_two_records reverse_elements iteration_order_reverse)
    as (_ & data & w & Hrun & _ & Htotal & _).
  by exists data, w.
Defined.

(** ** The rates: exact cases of the floating-point computation *)

Lemma rne_div_exact k b : 0 < b -> rne_div (k * b) b = k.
Proof.
  intros Hb. unfold rne_div.
  rewrite Z.div_mul, Z.mod_mul by lia.
  destruct (Z.ltb_spec (2 * 0) b); [reflexivity|lia].
Qed.

Lemma floor_log2_ratio_multiple v q :
  1 <= v -> 1 <= q -> floor_log2_ratio (v * q) q = Z.log2 v.
Proof.
  intros Hv Hq. unfold floor_log2_ratio.
  pose proof (Z.log2_mul_below v q ltac:(lia) ltac:(lia)) as Hbelow.
  pose proof (Z.log2_mul_above v q ltac:(lia) ltac:(lia)) as Habove.
  pose proof (Z.log2_nonneg v) as Hlv.
  destruct (Z.log2_spec v ltac:(lia)) as [Hlo Hhi].
  set (d := Z.log2 (v * q) - Z.log2 q) in *.
  assert (d = Z.log2 v \/ d = Z.log2 v + 1) as [Hd|Hd] by lia.
  - rewrite Hd, Z.max_r, Z.max_l by lia.
    rewrite Z.pow_0_r, Z.mul_1_r.
    destruct (Z.leb_spec (q * 2 ^ Z.log2 v) (v * q)) as [_|Hcontra]; [reflexivity|].
    exfalso. nia.
  - rewrite Hd, Z.max_r, Z.max_l by lia.
    rewrite Z.pow_0_r, Z.mul_1_r.
    replace (Z.succ (Z.log2 v)) with (Z.log2 v + 1) in Hhi by lia.
    destruct (Z.leb_spec (q * 2 ^ (Z.log2 v + 1)) (v * q)) as [Hcontra|_]; [|lia].
    exfalso. nia.
Qed.

Lemma mantissa_bound v : 1 <= v -> v * 2 ^ (52 - Z.log2 v) < 2 ^ 53.
Proof.
  intros Hv. destruct (Z.log2_spec v ltac:(lia)) as [_ Hhi].
  pose proof (Z.log2_nonneg v).
  destruct (Z.le_gt_cases (Z.log2 v) 52) as [Hle|Hgt].
  - replace (2 ^ 53) with (2 ^ Z.succ (Z.log2 v) * 2 ^ (52 - Z.log2 v)).
    + apply Z.mul_lt_mono_pos_r; [apply Z.pow_pos_nonneg; lia|done].
    + rewrite <-Z.pow_add_r by lia. f_equal. lia.
  - rewrite Z.pow_neg_r by lia. lia.
Qed.

(** A ratio that is a positive integer below [2^53] is a double. *)
Lemma round_binary64_integer v q :
  1 <= v < 2 ^ 53 -> 1 <= q ->
  round_binary64 (v * q) q = Finite (v * 2 ^ (52 - Z.log2 v)) (Z.log2 v - 52).
Proof.
  intros [Hv Hv53] Hq. unfold round_binary64.
  destruct (Z.eqb_spec (v * q) 0) as [Hz|_]; [nia|].
  rewrite floor_log2_ratio_multiple by lia.
  pose proof (Z.log2_nonneg v) as Hlv.
  assert (Z.log2 v < 53) as Hl53 by (apply Z.log2_lt_pow2; lia).
  rewrite (Z.max_l (Z.log2 v - 52)) by lia.
  rewrite (Z.max_r 0 (- (Z.log2 v - 52))) by lia.
  rewrite (Z.max_l 0 (Z.log2 v - 52)) by lia.
  rewrite Z.pow_0_r, !Z.mul_1_r.
  replace (- (Z.log2 v - 52)) with (52 - Z.log2 v) by lia.
  replace (v * q * 2 ^ (52 - Z.log2 v)) with (v * 2 ^ (52 - Z.log2 v) * q) by ring.
  rewrite rne_div_exact by lia.
  pose proof (mantissa_bound v Hv) as Hm.
  assert (2 ^ 53 < 2 ^ 1024) by (apply Z.pow_lt_mono_r; lia).
  destruct (Z.leb_spec (2 ^ 1024) (v * 2 ^ (52 - Z.log2 v))); [lia|reflexivity].
Qed.

Lemma float_mul_int_integer v k :
  1 <= v -> 1 <= k -> v * k < 2 ^ 53 ->
  float_mul_int (Finite (v * 2 ^ (52 - Z.log2 v)) (Z.log2 v - 52)) k
  = Finite (v * k * 2 ^ (52 - Z.log2 (v * k))) (Z.log2 (v * k) - 52).
Proof.
  intros Hv Hk Hvk. unfold float_mul_int.
  pose proof (Z.log2_nonneg v) as Hlv.
  assert (v < 2 ^ 53) as Hv53 by nia.
  assert (Z.log2 v < 53) as Hl53 by (apply Z.log2_lt_pow2; lia).
  rewrite (Z.max_l 0 (Z.log2 v - 52)) by lia.
  rewrite (Z.max_r 0 (- (Z.log2 v - 52))) by lia.
  rewrite Z.pow_0_r, Z.mul_1_r.
  replace (- (Z.log2 v - 52)) with (52 - Z.log2 v) by lia.
  replace (v * 2 ^ (52 - Z.log2 v) * k) with (v * k * 2 ^ (52 - Z.log2 v)) by ring.
  apply round_binary64_integer; [nia|].
  assert (0 < 2 ^ (52 - Z.log2 v)) by (apply Z.pow_pos_nonneg; lia). lia.
Qed.

Lemma format_1f_integer v :
  1 <= v < 2 ^ 53 ->
  format_1f (Finite (v * 2 ^ (52 - Z.log2 v)) (Z.log2 v - 52))
  = lit (pretty v) ++ lit ".0".
Proof.
  intros [Hv Hv53]. unfold format_1f.
  pose proof (Z.log2_nonneg v) as Hlv.
  assert (Z.log2 v < 53) as Hl53 by (apply Z.log2_lt_pow2; lia).
  rewrite (Z.max_l 0 (Z.log2 v - 52)) by lia.
  rewrite (Z.max_r 0 (- (Z.log2 v - 52))) by lia.
  rewrite Z.pow_0_r, Z.mul_1_r.
  replace (- (Z.log2 v - 52)) with (52 - Z.log2 v) by lia.
  replace (10 * (v * 2 ^ (52 - Z.log2 v))) with (10 * v * 2 ^ (52 - Z.log2 v)) by ring.
  rewrite rne_div_exact by (apply Z.pow_pos_nonneg; lia).
  rewrite (Z.mul_comm 10 v), Z.div_mul, Z.mod_mul by lia.
  reflexivity.
Qed.

(** With at most one active validator the rate is a whole number of
    hundreds. *)
Lemma format_rate_no_active (count onchain_count : nat) :
  (onchain_count <= 1)%nat ->
  100 * Z.of_nat count < 2 ^ 53 ->
  format_rate count onchain_count
  = Ok (lit (pretty (100 * Z.of_nat count)) ++ lit ".0%").
Proof.
  intros Hone Hbound. unfold format_rate, py_truediv.
  replace (Z.of_nat (Nat.max onchain_count 1)) with 1 by lia.
  change (1 =? 0) with false. cbv iota.
  destruct count as [|n].
  - vm_compute. reflexivity.
  - set (v := Z.of_nat (S n)) in *.
    replace v with (v * 1) at 1 by lia.
    rewrite round_binary64_integer by lia.
    rewrite bind_Ok.
    rewrite float_mul_int_integer by lia.
    rewrite format_1f_integer by lia.
    rewrite (Z.mul_comm 100 v), <-(assoc_L (++)). reflexivity.
Qed.

Lemma lit_app a b : lit (a +:+ b) = lit a ++ lit b.
Proof. induction a as [|c a IH]; [reflexivity|]. simpl. by rewrite <-IH. Qed.

Lemma lit_inj a b : lit a = lit b -> a = b.
Proof.
  intros H. rewrite <-(string_of_list_ascii_of_string a),
    <-(string_of_list_ascii_of_string b). unfold lit in H. by rewrite H.
Qed.

Lemma rate_is_zero_iff (n : Z) :
  0 <= n -> lit (pretty (100 * n)) ++ lit ".0%" = lit "0.0%" <-> n = 0.
Proof.
  intros Hn. split.
  - change (lit "0.0%") with (lit (pretty 0) ++ lit ".0%").
    intros H%app_inv_tail%lit_inj%(inj pretty). lia.
  - intros ->. reflexivity.
Qed.

(** C5, as stated, fails: with no active validator and three names in the
    telemetry union, one of them in both sets, the rates are 300.0% and
    100.0%. *)
Lemma rates_without_active_validators_counterexample :
  active_count (summary empty_onchain) = 0%nat
  /\ exists r,
       generate_report elements sample_now empty_onchain sample_telemetry
         sample_rpc_url sample_grafana_url = Ok r
       /\ telemetry_adoption_rate (analysis r) = lit "300.0%"
       /\ full_observability_rate (analysis r) = lit "100.0%"
       /\ telemetry_adoption_rate (analysis r) <> lit "0.0%"
       /\ full_observability_rate (analysis r) <> lit "0.0%".
Proof.
  split; [reflexivity|].
  destruct (generate_report elements sample_now empty_onchain sample_telemetry
              sample_rpc_url sample_grafana_url) as [r|e] eqn:Hr;
    [|vm_compute in Hr; discriminate].
  exists r. split; [reflexivity|].
  assert (telemetry_adoption_rate (analysis r) = lit "300.0%"
          /\ full_observability_rate (analysis r) = lit "100.0%") as [Ha Hf].
  { vm_compute in Hr. injection Hr as <-. split; reflexivity. }
  rewrite Ha, Hf. repeat split; discriminate.
Qed.

(** C5, amended.  With no active validator the rates are computed without
    error, the divisor being [max(0, 1) = 1]; each rate is a hundred times
    the size of its set, printed with the decimal [.0], and so it is 0.0%
    exactly when its set is empty. *)
Theorem rates_without_active_validators
    (set_iter : gset (list Z) -> list (list Z)) (now : str)
    (onchain : onchain_data) (telemetry : telemetry_data)
    (rpc_url grafana_url : str) :
  let metrics_set : gset (list Z) := list_to_set (tm_validators (metrics telemetry)) in
  let logs_set : gset (list Z) := list_to_set (tm_validators (logs telemetry)) in
  active_count (summary onchain) = 0%nat ->
  100 * Z.of_nat (size (metrics_set ∪ logs_set)) < 2 ^ 53 ->
  exists r,
    generate_report set_iter now onchain telemetry rpc_url grafana_url = Ok r
    /\ telemetry_adoption_rate (analysis r)
       = lit (pretty (100 * Z.of_nat (size (metrics_set ∪ logs_set)))) ++ lit ".0%"
    /\ full_observability_rate (analysis r)
       = lit (pretty (100 * Z.of_nat (size (metrics_set ∩ logs_set)))) ++ lit ".0%"
    /\ (telemetry_adoption_rate (analysis r) = lit "0.0%"
        <-> metrics_set ∪ logs_set = ∅)
    /\ (full_observability_rate (analysis r) = lit "0.0%"
        <-> metrics_set ∩ logs_set = ∅).
Proof.
  cbv zeta. intros Hcount Hbound.
  set (metrics_set := list_to_set (tm_validators (metrics telemetry)) : gset (list Z))
    in *.
  set (logs_set := list_to_set (tm_validators (logs telemetry)) : gset (list Z)) in *.
  assert (size (metrics_set ∩ logs_set) <= size (metrics_set ∪ logs_set))%nat
    as Hsub.
  { apply subseteq_size. intros x.
    rewrite elem_of_intersection, elem_of_union. tauto. }
  unfold generate_report, telemetry_categories. cbv zeta.
  fold metrics_set logs_set. rewrite Hcount.
  assert (100 * Z.of_nat (size (metrics_set ∩ logs_set)) < 2 ^ 53) as Hbound' by lia.
  rewrite (format_rate_no_active (size (metrics_set ∪ logs_set)) 0 (le_S _ _ (le_n 0))
             Hbound).
  rewrite bind_Ok.
  rewrite (format_rate_no_active (size (metrics_set ∩ logs_set)) 0 (le_S _ _ (le_n 0))
             Hbound').
  rewrite bind_Ok.
  eexists. split; [reflexivity|]. cbn [analysis telemetry_adoption_rate
                                        full_observability_rate].
  split; [reflexivity|]. split; [reflexivity|].
  rewrite !rate_is_zero_iff by lia.
  split.
  - etrans; [|apply leibniz_equiv_iff]. rewrite <-size_empty_iff. lia.
  - etrans; [|apply leibniz_equiv_iff]. rewrite <-size_empty_iff. lia.
Qed.

Lemma rates_without_active_validators_witness :
  active_count (summary empty_onchain) = 0%nat
  /\ exists r,
       generate_report reverse_elements sample_now empty_onchain sample_telemetry
         sample_rpc_url sample_grafana_url = Ok r
       /\ telemetry_adoption_rate (analysis r) = lit "300.0%"
       /\ full_observability_rate (analysis r) = lit "100.0%".
Proof.
  split; [reflexivity|].
  destruct (rates_without_active_validators reverse_elements sample_now
              empty_onchain sample_telemetry sample_rpc_url sample_grafana_url)
    as (r & Hr & Ha & Hf & _).
  - reflexivity.
  - vm_compute. reflexivity.
  - exists r. split; [exact Hr|]. split.
    + rewrite Ha. vm_compute. reflexivity.
    + rewrite Hf. vm_compute. reflexivity.
Defined.

(** ** The no-telemetry list *)

Lemma elem_of_active_monikers (vs : list validator) (m : list Z) :
  m ∈ (list_to_set
         (omap (fun v => if is_active v && truthy_opt (moniker v)
                         then moniker v else None) vs) : gset (list Z))
  <-> m <> [] /\ exists v, v ∈ vs /\ is_active v = true /\ moniker v = Some m.
Proof.
  rewrite elem_of_list_to_set, list_elem_of_omap. split.
  - intros (v & Hv & Hf).
    destruct (is_active v) eqn:Ha; [|discriminate].
    destruct (moniker v) as [[|c m']|] eqn:Hm; try discriminate.
    injection Hf as <-. split; [discriminate|]. eauto.
  - intros (Hne & v & Hv & Ha & Hm). exists v. split; [done|].
    rewrite Ha, Hm. destruct m; [done|reflexivity].
Qed.

Lemma generate_report_counts set_iter now onchain telemetry rpc_url grafana_url r :
  generate_report set_iter now onchain telemetry rpc_url grafana_url = Ok r ->
  ntg_count (no_telemetry (rep_validators r))
  = length (ntg_validators (no_telemetry (rep_validators r))).
Proof.
  unfold generate_report, telemetry_categories. cbv zeta.
  destruct (format_rate (size (_ ∪ _)) _) as [adoption|e];
    [rewrite bind_Ok|rewrite bind_Raise; discriminate].
  destruct (format_rate (size (_ ∩ _)) _) as [observability|e];
    [rewrite bind_Ok|rewrite bind_Raise; discriminate].
  intros [= <-]. reflexivity.
Qed.

(** C6, as stated, fails: two active operators whose identities carry the
    same moniker, neither sending telemetry, get one entry between them, and
    the address of the first appears nowhere in the list. *)
Lemma no_telemetry_list_counterexample :
  exists data w r,
    get_onchain_validators (rpc_all_alice [addr_A; addr_B] []) elements
      sample_rpc_url 0%nat = (Ok data, w)
    /\ generate_report elements sample_now data no_telemetry_data
         sample_rpc_url sample_grafana_url = Ok r
    /\ (fun v => (address v, moniker v, is_active v)) <$> validators data
       = [(lit "0x" ++ addr_A, Some (txt "alice"), true);
          (lit "0x" ++ addr_B, Some (txt "alice"), true)]
    /\ ntg_validators (no_telemetry (rep_validators r))
       = [{| nt_moniker := Some (txt "alice"); nt_address := lit "0x" ++ addr_B |}]
    /\ ntg_count (no_telemetry (rep_validators r)) = 1%nat.
Proof.
  eexists _, _, _.
  split; [vm_compute; reflexivity|].
  split; [vm_compute; reflexivity|].
  repeat split.
Qed.

(** C6, amended.  The no-telemetry list is made of two parts.  The first
    holds one entry for each distinct non-empty moniker that some active
    validator carries and that is in neither telemetry set, in sorted
    order, with the address [moniker_to_address] has for that moniker (or
    ["unknown"]).  The second holds one entry with a null moniker and the
    validator's own address for each active validator whose moniker is
    absent or empty, in the order of the records, whatever the telemetry
    holds. *)
Theorem no_telemetry_list_spec
    (set_iter : gset (list Z) -> list (list Z)) (now : str)
    (onchain : onchain_data) (telemetry : telemetry_data)
    (rpc_url grafana_url : str) (r : report) :
  iteration_order set_iter ->
  generate_report set_iter now onchain telemetry rpc_url grafana_url = Ok r ->
  let telemetry_union : gset (list Z) :=
    list_to_set (tm_validators (metrics telemetry))
    ∪ list_to_set (tm_validators (logs telemetry)) in
  exists names : list (list Z),
    ntg_validators (no_telemetry (rep_validators r))
    = ((fun m => {| nt_moniker := Some m;
                    nt_address :=
                      default (lit "unknown") (moniker_to_address onchain !! m) |})
         <$> names)
      ++ ((fun v => {| nt_moniker := None; nt_address := address v |})
            <$> List.filter (fun v => is_active v && negb (truthy_opt (moniker v)))
                            (validators onchain))
    /\ NoDup names
    /\ Sorted text_le names
    /\ (forall m,
          m ∈ names
          <-> (m <> []
               /\ exists v, v ∈ validators onchain
                            /\ is_active v = true /\ moniker v = Some m)
              /\ m ∉ telemetry_union)
    /\ ntg_count (no_telemetry (rep_validators r))
       = length (ntg_validators (no_telemetry (rep_validators r))).
Proof.
  intros Hiter Hr. cbv zeta.
  pose proof (generate_report_counts _ _ _ _ _ _ _ Hr) as Hcount.
  destruct (generate_report_Ok _ _ _ _ _ _ _ Hr) as (_ & _ & _ & _ & Hlist & _).
  cbv zeta in Hlist. rewrite Hcount, Hlist. unfold no_telemetry_list_of.
  eexists. split; [reflexivity|].
  split; [|split; [|split]].
  - rewrite py_sorted_perm, Hiter. apply NoDup_elements.
  - apply py_sorted_sorted.
  - intros m.
    rewrite py_sorted_perm, Hiter, elem_of_elements, elem_of_difference.
    by rewrite elem_of_active_monikers.
  - reflexivity.
Qed.

Lemma no_telemetry_list_spec_witness :
  iteration_order (elements : gset (list Z) -> list (list Z))
  /\ exists r names,
       generate_report elements sample_now sample_onchain no_telemetry_data
         sample_rpc_url sample_grafana_url = Ok r
       /\ ntg_validators (no_telemetry (rep_validators r))
          = ((fun m => {| nt_moniker := Some m;
                          nt_address :=
                            default (lit "unknown")
                                    (moniker_to_address sample_onchain !! m) |})
               <$> names)
            ++ [{| nt_moniker := None; nt_address := lit "0x" ++ addr_B |}]
       /\ txt "dave" ∈ names.
Proof.
  split; [apply iteration_order_elements|].
  destruct (generate_report elements sample_now sample_onchain no_telemetry_data
              sample_rpc_url sample_grafana_url) as [r|e] eqn:Hr;
    [|vm_compute in Hr; discriminate].
  destruct (no_telemetry_list_spec elements sample_now sample_onchain
              no_telemetry_data sample_rpc_url sample_grafana_url r
              iteration_order_elements Hr)
    as (names & Hlist & _ & _ & Hnames & _).
  exists r, names. split; [reflexivity|]. split; [exact Hlist|].
  apply Hnames. split.
  - split; [discriminate|].
    eexists. split; [|split].
    + vm_compute. apply elem_of_cons; by left.
    + reflexivity.
    + reflexivity.
  - cbn [no_telemetry_data metrics logs tm_validators].
    rewrite elem_of_union, !elem_of_list_to_set, elem_of_nil. tauto.
Defined.

(** * Further properties *)

(** ** The addresses [decode_address_array] returns *)

Lemma py_slice_length_le {A} (s : list A) (lo hi : Z) :
  lo <= hi -> (length (py_slice s lo hi) <= Z.to_nat (hi - lo))%nat.
Proof.
  intros Hle. unfold py_slice, slice_index.
  rewrite length_take, length_drop.
  destruct (Z.ltb_spec lo 0), (Z.ltb_spec hi 0); lia.
Qed.

Lemma py_slice_past_end {A} (s : list A) (lo hi : Z) :
  Z.of_nat (length s) <= lo -> py_slice s lo hi = [].
Proof.
  intros Hlo. unfold py_slice, slice_index.
  destruct (Z.ltb_spec lo 0); [lia|].
  rewrite (Z.min_r lo) by lia. rewrite Nat2Z.id, drop_all. by rewrite take_nil.
Qed.

Lemma py_lower_prefix_not_zero :
  py_lower (lit "0x") <> zero_address.
Proof. discriminate. Qed.

Lemma decode_loop_invariant (P : list ascii -> Prop) (hex_data : list ascii) offset :
  (forall start,
     let addr := lit "0x" ++ py_slice hex_data (start + 24) (start + 64) in
     py_lower addr <> zero_address -> P addr) ->
  forall indices acc,
    Forall P acc ->
    Forall P
      (foldl
         (fun addresses i =>
            let start := offset + 64 + i * 64 in
            let addr := lit "0x" ++ py_slice hex_data (start + 24) (start + 64) in
            if negb (str_eqb (py_lower addr) zero_address)
            then addresses ++ [addr]
            else addresses)
         acc indices).
Proof.
  intros Hstep indices.
  induction indices as [|i indices IH]; intros acc Hacc; [done|].
  cbn [foldl]. apply IH. cbv zeta.
  unfold str_eqb. case_bool_decide as Hz; cbn [negb]; [done|].
  apply Forall_app. split; [done|].
  constructor; [|constructor]. by apply Hstep.
Qed.

(** X1.  Whatever the payload, every address that
    [decode_address_array] returns is the prefix [0x] followed by at most
    40 characters, and none is a spelling of the all-zero address. *)
Theorem decode_address_array_shape hex_result addresses :
  decode_address_array hex_result = Ok addresses ->
  Forall (fun addr =>
            take 2 addr = lit "0x"
            /\ (length addr <= 42)%nat
            /\ py_lower addr <> zero_address)
         addresses.
Proof.
  unfold decode_address_array.
  destruct (Z.of_nat (length (py_slice_from hex_result 2)) <? 128).
  { intros [= <-]. constructor. }
  destruct (py_int16 (py_slice (py_slice_from hex_result 2) 0 64)) as [word0|e];
    [rewrite bind_Ok|rewrite bind_Raise; discriminate].
  cbv zeta.
  destruct (py_int16 (py_slice (py_slice_from hex_result 2) (word0 * 2)
                               (word0 * 2 + 64))) as [n|e];
    [rewrite bind_Ok|rewrite bind_Raise; discriminate].
  intros [= <-].
  apply decode_loop_invariant; [|constructor].
  intros start addr Hnz. split; [reflexivity|]. split; [|exact Hnz].
  unfold addr. rewrite length_app.
  pose proof (py_slice_length_le (py_slice_from hex_result 2)
                (start + 24) (start + 64) ltac:(lia)).
  change (length (lit "0x")) with 2%nat. lia.
Qed.

Lemma decode_address_array_shape_witness :
  decode_address_array (address_array_payload [addr_A; zero40; addr_B])
    = Ok [lit "0x" ++ addr_A; lit "0x" ++ addr_B]
  /\ Forall (fun addr =>
               take 2 addr = lit "0x"
               /\ (length addr <= 42)%nat
               /\ py_lower addr <> zero_address)
            [lit "0x" ++ addr_A; lit "0x" ++ addr_B].
Proof.
  assert (decode_address_array (address_array_payload [addr_A; zero40; addr_B])
          = Ok [lit "0x" ++ addr_A; lit "0x" ++ addr_B]) as Hdec
    by (vm_compute; reflexivity).
  split; [exact Hdec|].
  exact (decode_address_array_shape _ _ Hdec).
Defined.

Lemma truncated_loop (hex_data : list ascii) offset (k : nat) :
  Z.of_nat (length hex_data) <= offset + 64 ->
  0 <= offset ->
  foldl
    (fun addresses i =>
       let start := offset + 64 + i * 64 in
       let addr := lit "0x" ++ py_slice hex_data (start + 24) (start + 64) in
       if negb (str_eqb (py_lower addr) zero_address)
       then addresses ++ [addr]
       else addresses)
    [] (seqZ 0 (Z.of_nat k))
  = replicate k (lit "0x").
Proof.
  intros Hend Hoff. induction k as [|k IH]; [reflexivity|].
  rewrite seqZ_S, foldl_snoc, IH. cbv zeta.
  rewrite py_slice_past_end by lia.
  rewrite app_nil_r.
  change (negb (str_eqb (py_lower (lit "0x")) zero_address)) with true.
  cbv iota. clear IH. induction k as [|k IH]; [reflexivity|].
  cbn [replicate app]. by rewrite IH.
Qed.

(** X2.  An array that declares [n] elements and holds none is not an
    error: it decodes to [n] copies of the bare prefix [0x]. *)
Theorem decode_address_array_truncated woff wlen (n : nat) :
  hex_word woff 32 ->
  hex_word wlen (Z.of_nat n) ->
  decode_address_array (lit "0x" ++ woff ++ wlen)
  = Ok (replicate n (lit "0x")).
Proof.
  intros Hwoff Hwlen.
  pose proof Hwoff as (Hlo & _ & _). pose proof Hwlen as (Hlen & _ & _).
  unfold decode_address_array.
  rewrite (py_slice_from_app (lit "0x")) by reflexivity.
  destruct (Z.ltb_spec (Z.of_nat (length (woff ++ wlen))) 128) as [Hshort|_].
  { rewrite length_app in Hshort. lia. }
  rewrite (py_slice_head woff) by lia.
  rewrite (hex_word_int16 _ _ Hwoff), bind_Ok. cbv zeta.
  rewrite <-(app_nil_r (woff ++ wlen)) at 1.
  rewrite <-(assoc_L (++)).
  rewrite (py_slice_mid woff wlen []) by lia.
  rewrite (hex_word_int16 _ _ Hwlen), bind_Ok.
  f_equal. apply truncated_loop; [|lia].
  rewrite length_app. lia.
Qed.

Lemma decode_address_array_truncated_witness :
  hex_word word_0x20 32
  /\ hex_word word_3 (Z.of_nat 3)
  /\ decode_address_array (lit "0x" ++ word_0x20 ++ word_3)
     = Ok [lit "0x"; lit "0x"; lit "0x"].
Proof.
  assert (hex_word word_0x20 32) as Ho by (repeat split).
  assert (hex_word word_3 (Z.of_nat 3)) as Hw by (repeat split).
  split; [exact Ho|]. split; [exact Hw|].
  exact (decode_address_array_truncated word_0x20 word_3 3 Ho Hw).
Defined.

(** ** The call data of the wallet lookup *)

Lemma lower_char_hex c :
  is_hex c = true ->
  hex_digit (lower_char c) = hex_digit c
  /\ is_hex (lower_char c) = true
  /\ ord (lower_char c) <> 120
  /\ ord (lower_char c) <> 43
  /\ ord (lower_char c) <> 45.
Proof.
  destruct c as [[] [] [] [] [] [] [] []]; vm_compute; intros H;
    try discriminate H; repeat split; discriminate.
Qed.

Lemma remove_0x_cons c x s :
  remove_0x (c :: x :: s)
  = if (ord c =? 48) && (ord x =? 120) then remove_0x s else c :: remove_0x (x :: s).
Proof. reflexivity. Qed.

Lemma remove_0x_no_x s :
  Forall (fun c => ord c <> 120) s -> remove_0x s = s.
Proof.
  induction 1 as [|c s Hc Hs IH]; [reflexivity|].
  destruct Hs as [|x s' Hx Hs']; [reflexivity|].
  rewrite remove_0x_cons.
  destruct (Z.eqb_spec (ord x) 120) as [Heq|_]; [done|].
  rewrite andb_false_r. by rewrite IH.
Qed.

Lemma hex_fold_lower a :
  forallb is_hex a = true ->
  forall acc,
    foldl (fun acc c => 16 * acc + default 0 (hex_digit c)) acc (map lower_char a)
    = foldl (fun acc c => 16 * acc + default 0 (hex_digit c)) acc a.
Proof.
  induction a as [|c a IH]; intros Hhex acc; [reflexivity|].
  cbn [forallb] in Hhex. apply andb_true_iff in Hhex as [Hc Ha].
  destruct (lower_char_hex c Hc) as (Hd & _).
  cbn [map foldl]. rewrite Hd. by apply IH.
Qed.

Lemma py_lower_address a :
  is_address a ->
  length (py_lower a) = 40%nat
  /\ forallb is_hex (py_lower a) = true
  /\ Forall (fun c => ord c <> 120) (py_lower a)
  /\ hex_value (py_lower a) = hex_value a.
Proof.
  intros [Hlen Hhex]. unfold py_lower. rewrite length_map.
  split; [done|]. clear Hlen.
  split; [|split].
  - induction a as [|c a IH]; [reflexivity|].
    cbn [forallb] in Hhex. apply andb_true_iff in Hhex as [Hc Ha].
    destruct (lower_char_hex c Hc) as (_ & Hh & _).
    cbn [map forallb]. by rewrite Hh, IH.
  - induction a as [|c a IH]; [constructor|].
    cbn [forallb] in Hhex. apply andb_true_iff in Hhex as [Hc Ha].
    destruct (lower_char_hex c Hc) as (_ & _ & Hx & _).
    cbn [map]. constructor; [done|by apply IH].
  - unfold hex_value. by apply hex_fold_lower.
Qed.

Lemma hex_value_zero_padding n w :
  hex_value (replicate n (chr 48) ++ w) = hex_value w.
Proof.
  unfold hex_value. rewrite foldl_app. f_equal.
  induction n as [|n IH]; [reflexivity|]. cbn [replicate foldl]. exact IH.
Qed.

Lemma wallet_call_argument a :
  is_address a ->
  py_zfill 64 (remove_0x (py_lower (lit "0x" ++ a))) = abi_address_word (py_lower a).
Proof.
  intros Ha. destruct (py_lower_address a Ha) as (Hlen & Hhex & Hx & _).
  unfold py_lower at 1. rewrite map_app. fold (py_lower a).
  change (map lower_char (lit "0x")) with (lit "0x").
  change (remove_0x (lit "0x" ++ py_lower a)) with (remove_0x (py_lower a)).
  rewrite remove_0x_no_x by done.
  unfold py_zfill, abi_address_word. rewrite Hlen.
  destruct (py_lower a) as [|c s] eqn:Hs; [discriminate|].
  assert (is_hex c = true) as Hc
    by (cbn [forallb] in Hhex; by apply andb_true_iff in Hhex as [? _]).
  pose proof (is_hex_range c Hc).
  destruct (Z.eqb_spec (ord c) 43); [lia|].
  destruct (Z.eqb_spec (ord c) 45); [lia|]. reflexivity.
Qed.

(** X3.  For an operator address as [decode_address_array] returns it (the
    prefix [0x] and 40 hexadecimal digits), the wallet lookup calls the
    factory with the selector followed by one 32-byte word: the address in
    lower case, left-padded with zeros, denoting the same number. *)
Theorem get_wallet_for_operator_call_data {World : Type}
    (rpc_post : str -> str -> str -> World -> rpc_reply * World)
    (rpc_url a : str) (w : World) :
  is_address a ->
  let data := GET_WALLETS_FOR_OPERATOR_SELECTOR ++ abi_address_word (py_lower a) in
  let r := eth_call rpc_post rpc_url VALIDATOR_WALLET_FACTORY data w in
  get_wallet_for_operator rpc_post rpc_url (lit "0x" ++ a) w
    = (Ok (first_wallet_or_absent r.1), r.2)
  /\ length data = 74%nat
  /\ hex_word (abi_address_word (py_lower a)) (hex_value a).
Proof.
  intros Ha. cbv zeta.
  destruct (py_lower_address a Ha) as (Hlen & Hhex & _ & Hval).
  split; [|split].
  - rewrite get_wallet_for_operator_unfold. cbv zeta.
    rewrite (wallet_call_argument a Ha).
    destruct (eth_call _ _ _ _ w) as [[result|e] w']; [|reflexivity].
    rewrite bind_Ok. cbn [fst snd first_wallet_or_absent].
    destruct (decode_address_array result) as [[|wallet wallets]|e]; reflexivity.
  - unfold abi_address_word. rewrite !length_app, length_replicate, Hlen. reflexivity.
  - unfold abi_address_word. split; [|split].
    + rewrite length_app, length_replicate, Hlen. reflexivity.
    + rewrite forallb_app, Hhex.
      assert (forallb is_hex (replicate 24 (chr 48)) = true) as -> by reflexivity.
      reflexivity.
    + by rewrite hex_value_zero_padding.
Qed.

Lemma get_wallet_for_operator_call_data_witness :
  is_address addr_A_upper
  /\ get_wallet_for_operator (rpc_all_alice [addr_A_upper] []) sample_rpc_url
       (lit "0x" ++ addr_A_upper) 0%nat
     = (Ok (Some (lit "0x" ++ addr_W)), 1%nat)
  /\ abi_address_word (py_lower addr_A_upper) = abi_address_word addr_A.
Proof.
  assert (is_address addr_A_upper) as Ha by (split; reflexivity).
  split; [exact Ha|]. split; [|reflexivity].
  destruct (get_wallet_for_operator_call_data (rpc_all_alice [addr_A_upper] [])
              sample_rpc_url addr_A_upper 0%nat Ha) as (Hcall & _ & _).
  rewrite Hcall. vm_compute. reflexivity.
Defined.

(** ** The strict UTF-8 decoder accepts encodings only *)

Lemma second_byte_ok_spec b0 b1 :
  second_byte_ok b0 b1 = true ->
  128 <= b1 <= 191
  /\ (b0 = 224 -> 160 <= b1)
  /\ (b0 = 237 -> b1 <= 159)
  /\ (b0 = 240 -> 144 <= b1)
  /\ (b0 = 244 -> b1 <= 143).
Proof.
  unfold second_byte_ok, in_range.
  destruct (Z.eqb_spec b0 224); [lia|].
  destruct (Z.eqb_spec b0 237); [lia|].
  destruct (Z.eqb_spec b0 240); [lia|].
  destruct (Z.eqb_spec b0 244); lia.
Qed.

Lemma utf8_decode_step b0 r0 t :
  utf8_decode (b0 :: r0) = Ok t ->
  exists c rest t',
    t = c :: t'
    /\ utf8_decode rest = Ok t'
    /\ b0 :: r0 = utf8_encode_char c ++ rest
    /\ is_scalar c.
Proof.
  cbn [utf8_decode]. unfold utf8_encode_char, is_scalar.
  destruct (in_range 0 127 b0) eqn:H1.
  { destruct (utf8_decode r0) as [t'|e] eqn:Hrest;
      [rewrite bind_Ok|rewrite bind_Raise; discriminate].
    intros [= <-]. exists b0, r0, t'. unfold in_range in H1.
    assert ((b0 <? 128) = true) as -> by lia.
    repeat split; try done; lia. }
  destruct (in_range 194 223 b0) eqn:H2.
  { destruct r0 as [|b1 r1]; [discriminate|].
    destruct (in_range 128 191 b1) eqn:H3; [|discriminate].
    destruct (utf8_decode r1) as [t'|e] eqn:Hrest;
      [rewrite bind_Ok|rewrite bind_Raise; discriminate].
    intros [= <-]. unfold in_range in *.
    set (c := (b0 - 192) * 64 + (b1 - 128)).
    exists c, r1, t'.
    assert (128 <= c < 2048) as Hc by (unfold c; lia).
    assert ((c <? 128) = false) as -> by lia.
    assert ((c <? 2048) = true) as -> by lia.
    assert (192 + c / 64 = b0 /\ 128 + c mod 64 = b1) as [-> ->]
      by (unfold c; Z.div_mod_to_equations; lia).
    repeat split; try done; lia. }
  destruct (in_range 224 239 b0) eqn:H3.
  { destruct r0 as [|b1 [|b2 r2]]; try discriminate.
    destruct (second_byte_ok b0 b1) eqn:Hs; [|discriminate].
    destruct (in_range 128 191 b2) eqn:H4; [|discriminate]. cbn [andb].
    destruct (utf8_decode r2) as [t'|e] eqn:Hrest;
      [rewrite bind_Ok|rewrite bind_Raise; discriminate].
    intros [= <-]. unfold in_range in *.
    destruct (second_byte_ok_spec b0 b1 Hs) as (Hb1 & He0 & Hed & _).
    set (c := (b0 - 224) * 4096 + (b1 - 128) * 64 + (b2 - 128)).
    exists c, r2, t'.
    assert (2048 <= c < 65536) as Hc by (unfold c; lia).
    assert (c < 55296 \/ 57344 <= c) as Hsur by (unfold c; lia).
    assert ((c <? 128) = false) as -> by lia.
    assert ((c <? 2048) = false) as -> by lia.
    assert ((c <? 65536) = true) as -> by lia.
    assert (224 + c / 4096 = b0 /\ 128 + c / 64 mod 64 = b1 /\ 128 + c mod 64 = b2)
      as (-> & -> & ->) by (unfold c; Z.div_mod_to_equations; lia).
    repeat split; try done; lia. }
  destruct (in_range 240 244 b0) eqn:H4; [|discriminate].
  destruct r0 as [|b1 [|b2 [|b3 r3]]]; try discriminate.
  destruct (second_byte_ok b0 b1) eqn:Hs; [|discriminate].
  destruct (in_range 128 191 b2) eqn:H5; [|discriminate].
  destruct (in_range 128 191 b3) eqn:H6; [|discriminate]. cbn [andb].
  destruct (utf8_decode r3) as [t'|e] eqn:Hrest;
    [rewrite bind_Ok|rewrite bind_Raise; discriminate].
  intros [= <-]. unfold in_range in *.
  destruct (second_byte_ok_spec b0 b1 Hs) as (Hb1 & _ & _ & Hf0 & Hf4).
  set (c := (b0 - 240) * 262144 + (b1 - 128) * 4096 + (b2 - 128) * 64 + (b3 - 128)).
  exists c, r3, t'.
  assert (65536 <= c <= 1114111) as Hc by (unfold c; lia).
  assert ((c <? 128) = false) as -> by lia.
  assert ((c <? 2048) = false) as -> by lia.
  assert ((c <? 65536) = false) as -> by lia.
  assert (240 + c / 262144 = b0 /\ 128 + c / 4096 mod 64 = b1
          /\ 128 + c / 64 mod 64 = b2 /\ 128 + c mod 64 = b3)
    as (-> & -> & -> & ->) by (unfold c; Z.div_mod_to_equations; lia).
  repeat split; try done; lia.
Qed.

Lemma utf8_encode_char_length c : (1 <= length (utf8_encode_char c) <= 4)%nat.
Proof.
  unfold utf8_encode_char.
  destruct (c <? 128), (c <? 2048), (c <? 65536); cbn [length]; lia.
Qed.

Lemma utf8_decode_sound_aux (n : nat) :
  forall bs t,
    (length bs <= n)%nat ->
    utf8_decode bs = Ok t ->
    Forall is_scalar t /\ utf8_encode t = bs /\ (length t <= length bs)%nat.
Proof.
  induction n as [|n IH]; intros bs t Hn Hdec.
  - destruct bs; [|cbn [length] in Hn; lia].
    injection Hdec as <-. by repeat split.
  - destruct bs as [|b0 r0]; [injection Hdec as <-; by repeat split|].
    destruct (utf8_decode_step b0 r0 t Hdec) as (c & rest & t' & -> & Hrest & Hbs & Hc).
    pose proof (utf8_encode_char_length c) as Hlen.
    assert (length (b0 :: r0) = (length (utf8_encode_char c) + length rest)%nat)
      as Hsplit by (by rewrite Hbs, length_app).
    destruct (IH rest t' ltac:(lia) Hrest) as (Hs & He & Hl).
    split; [by constructor|]. split.
    + unfold utf8_encode in *. by rewrite bind_cons, He.
    + cbn [length] in *. lia.
Qed.

(** X4.  The UTF-8 decoder succeeds on the encodings of sequences of Unicode
    scalar values and on nothing else: what it returns encodes back to the
    very bytes it was given, so over-long forms, surrogates and truncated
    sequences are all refused. *)
Theorem utf8_decode_iff (bs : list Z) (t : list Z) :
  utf8_decode bs = Ok t <-> Forall is_scalar t /\ utf8_encode t = bs.
Proof.
  split.
  - intros Hdec.
    destruct (utf8_decode_sound_aux (length bs) bs t (le_n _) Hdec) as (Hs & He & _).
    done.
  - intros [Hs <-]. by apply utf8_decode_encode.
Qed.

Lemma utf8_decode_iff_witness :
  utf8_decode [195; 169; 97] = Ok [233; 97].
Proof.
  apply utf8_decode_iff. split; [|reflexivity].
  repeat (constructor; [unfold is_scalar; lia|]). constructor.
Defined.

(** ** The length of a moniker *)

Lemma bytes_fromhex_length_aux (n : nat) :
  forall s bs,
    (length s <= n)%nat ->
    bytes_fromhex s = Ok bs -> (2 * length bs <= length s)%nat.
Proof.
  induction n as [|n IH]; intros s bs Hn Hdec.
  - destruct s; [|cbn [length] in Hn; lia]. by injection Hdec as <-.
  - destruct s as [|c s']; [by injection Hdec as <-|].
    cbn [bytes_fromhex] in Hdec. cbn [length] in Hn.
    destruct (ascii_space c).
    { pose proof (IH s' bs ltac:(lia) Hdec). cbn [length]. lia. }
    destruct (hex_digit c) as [top|]; [|discriminate].
    destruct s' as [|d s'']; [discriminate|].
    destruct (hex_digit d) as [bot|]; [|discriminate].
    destruct (bytes_fromhex s'') as [bs'|e] eqn:Hrest;
      [rewrite bind_Ok in Hdec|rewrite bind_Raise in Hdec; discriminate].
    injection Hdec as <-. cbn [length] in *.
    pose proof (IH s'' bs' ltac:(lia) Hrest). lia.
Qed.

Lemma bytes_fromhex_length s bs :
  bytes_fromhex s = Ok bs -> (2 * length bs <= length s)%nat.
Proof. apply (bytes_fromhex_length_aux (length s)). lia. Qed.

Lemma utf8_decode_length bs t :
  utf8_decode bs = Ok t -> Forall is_scalar t /\ (length t <= length bs)%nat.
Proof.
  intros Hdec.
  destruct (utf8_decode_sound_aux (length bs) bs t (le_n _) Hdec) as (Hs & _ & Hl).
  done.
Qed.

Lemma decode_identity_moniker_Some result t :
  decode_identity_moniker result = Ok (Some t) ->
  Forall is_scalar t
  /\ exists L,
       declared_moniker_len result = Some L
       /\ L <> 0 /\ L <= 1000
       /\ (0 < L -> (length t <= Z.to_nat L)%nat).
Proof.
  unfold decode_identity_moniker, declared_moniker_len.
  destruct (moniker_header result)
    as [[[[struct_hex moniker_pos] moniker_len]|]|e];
    [rewrite bind_Ok| |rewrite bind_Raise]; try discriminate.
  destruct (Z.eqb_spec moniker_len 0) as [|Hne0]; [discriminate|].
  destruct (Z.gtb_spec moniker_len 1000) as [|Hle]; [discriminate|].
  cbn [orb].
  destruct (bytes_fromhex _) as [moniker_bytes|e] eqn:Hbytes;
    [rewrite bind_Ok|rewrite bind_Raise; discriminate].
  destruct (utf8_decode moniker_bytes) as [moniker|e] eqn:Hutf;
    [rewrite bind_Ok|rewrite bind_Raise; discriminate].
  intros [= <-].
  destruct (utf8_decode_length _ _ Hutf) as [Hscalar Hlen].
  split; [done|]. exists moniker_len. repeat split; try done; try lia.
  intros Hpos.
  pose proof (bytes_fromhex_length _ _ Hbytes) as Hb.
  pose proof (py_slice_length_le struct_hex (moniker_pos + 64)
                (moniker_pos + 64 + moniker_len * 2) ltac:(lia)) as Hs.
  lia.
Qed.

(** X5.  A moniker that [get_validator_moniker] returns is a sequence of
    Unicode scalar values, and the length word it was read under is not 0
    and not above 1000; when that length is positive the moniker has at
    most that many code points, so at most 1000. *)
Theorem get_validator_moniker_bounded {World : Type}
    (rpc_post : str -> str -> str -> World -> rpc_reply * World)
    (rpc_url wallet_address : str) (w w' : World) (result : str) (t : list Z) :
  eth_call rpc_post rpc_url wallet_address GET_IDENTITY_SELECTOR w = (Ok result, w') ->
  get_validator_moniker rpc_post rpc_url wallet_address w = (Ok (Some t), w') ->
  Forall is_scalar t
  /\ exists L,
       declared_moniker_len result = Some L
       /\ L <> 0 /\ L <= 1000
       /\ (0 < L -> (length t <= Z.to_nat L)%nat /\ (length t <= 1000)%nat).
Proof.
  intros Hcall. rewrite get_validator_moniker_unfold, Hcall, bind_Ok.
  destruct (decode_identity_moniker result) as [[t'|]|e] eqn:Hdec;
    cbn [try_except]; intros [= <-].
  destruct (decode_identity_moniker_Some result t' Hdec) as (Hs & L & HL & H0 & H1 & Hb).
  split; [done|]. exists L. repeat split; try done.
  - by apply Hb.
  - pose proof (Hb H). lia.
Qed.

Lemma get_validator_moniker_bounded_witness :
  get_validator_moniker (rpc_constant alice_identity_payload)
    sample_rpc_url addr_W 0%nat = (Ok (Some (txt "alice")), 1%nat)
  /\ Forall is_scalar (txt "alice")
  /\ exists L,
       declared_moniker_len alice_identity_payload = Some L
       /\ L <> 0 /\ L <= 1000
       /\ (0 < L -> (length (txt "alice") <= Z.to_nat L)%nat
                    /\ (length (txt "alice") <= 1000)%nat).
Proof.
  assert (get_validator_moniker (rpc_constant alice_identity_payload)
            sample_rpc_url addr_W 0%nat = (Ok (Some (txt "alice")), 1%nat)) as Hrun
    by (vm_compute; reflexivity).
  split; [exact Hrun|].
  exact (get_validator_moniker_bounded (rpc_constant alice_identity_payload)
           sample_rpc_url addr_W 0%nat 1%nat alice_identity_payload (txt "alice")
           eq_refl Hrun).
Defined.

Lemma py_slice_to_negative {A} (pre mid post : list A) (lo hi : Z) :
  lo = Z.of_nat (length pre) ->
  hi = - Z.of_nat (length post) ->
  post <> [] ->
  py_slice (pre ++ mid ++ post) lo hi = mid.
Proof.
  intros -> -> Hpost. unfold py_slice, slice_index.
  assert (0 < length post)%nat by (destruct post; [done|cbn [length]; lia]).
  rewrite !length_app.
  destruct (Z.ltb_spec (Z.of_nat (length pre)) 0); [lia|].
  destruct (Z.ltb_spec (- Z.of_nat (length post)) 0); [|lia].
  rewrite Z.min_l, Z.max_l by lia.
  replace (Z.to_nat (_ - _)) with (length mid) by lia.
  rewrite Nat2Z.id, drop_app_length. by rewrite take_app_length.
Qed.

(** X6.  The bound of 1000 holds for non-negative length words only.  The
    length word is read with [int], which accepts a sign; under the length
    word -65, with two characters after the moniker's bytes, the decoder
    returns the moniker whatever its length. *)
Theorem moniker_bound_bypassed_by_negative_length
    (wouter wmoniker hex_bytes : str) (c1 c2 : ascii) (t : list Z) :
  hex_word wouter 32 ->
  hex_word wmoniker 32 ->
  hex_of_bytes hex_bytes (utf8_encode t) ->
  Forall is_scalar t ->
  declared_moniker_len
    (lit "0x" ++ abi_identity wouter [] wmoniker [] word_minus_65 hex_bytes [c1; c2])
    = Some (-65)
  /\ decode_identity_moniker
       (lit "0x" ++ abi_identity wouter [] wmoniker [] word_minus_65 hex_bytes [c1; c2])
     = Ok (Some t).
Proof.
  intros Hwouter Hwmoniker Hbytes Ht.
  pose proof Hwouter as (Hlo & _ & _). pose proof Hwmoniker as (Hlm & _ & _).
  assert (moniker_header
            (lit "0x" ++ abi_identity wouter [] wmoniker [] word_minus_65 hex_bytes
                           [c1; c2])
          = Ok (Some (wmoniker ++ word_minus_65 ++ hex_bytes ++ [c1; c2], 64, -65)))
    as Hheader.
  { unfold moniker_header, abi_identity.
    rewrite (py_slice_from_app (lit "0x")) by reflexivity.
    rewrite !app_nil_l.
    destruct (Z.ltb_spec
      (Z.of_nat (length (wouter ++ wmoniker ++ word_minus_65 ++ hex_bytes ++ [c1; c2])))
      128) as [Hshort|_].
    { rewrite !length_app in Hshort. lia. }
    rewrite (py_slice_head wouter) by lia.
    rewrite (hex_word_int16 _ _ Hwouter), bind_Ok. cbv zeta.
    rewrite (py_slice_from_app wouter) by lia.
    rewrite (py_slice_head wmoniker) by lia.
    rewrite (hex_word_int16 _ _ Hwmoniker), bind_Ok. cbv zeta.
    rewrite (py_slice_mid wmoniker word_minus_65) by (rewrite ?Hlm; reflexivity).
    reflexivity. }
  split.
  - unfold declared_moniker_len. by rewrite Hheader.
  - unfold decode_identity_moniker. rewrite Hheader, bind_Ok.
    change ((-65 =? 0) || (-65 >? 1000)) with false. cbv iota.
    rewrite (assoc_L (++) wmoniker word_minus_65).
    rewrite (py_slice_to_negative (wmoniker ++ word_minus_65) hex_bytes [c1; c2]);
      [|rewrite length_app, Hlm; reflexivity|reflexivity|discriminate].
    rewrite (bytes_fromhex_of_bytes _ _ Hbytes), bind_Ok.
    by rewrite (utf8_decode_encode t Ht).
Qed.

Lemma moniker_bound_bypassed_by_negative_length_witness :
  hex_word word_0x20 32
  /\ hex_of_bytes (lit "616c696365") (utf8_encode (txt "alice"))
  /\ decode_identity_moniker
       (lit "0x" ++ abi_identity word_0x20 [] word_0x20 [] word_minus_65
                      (lit "616c696365") (lit "00"))
     = Ok (Some (txt "alice")).
Proof.
  assert (hex_word word_0x20 32) as Hw by (repeat split).
  assert (hex_of_bytes (lit "616c696365") (utf8_encode (txt "alice"))) as Hb.
  { change (utf8_encode (txt "alice"))
      with [6 * 16 + 1; 6 * 16 + 12; 6 * 16 + 9; 6 * 16 + 3; 6 * 16 + 5].
    repeat (apply hex_of_cons; [reflexivity|reflexivity|]). apply hex_of_nil. }
  split; [exact Hw|]. split; [exact Hb|].
  apply (moniker_bound_bypassed_by_negative_length word_0x20 word_0x20
           (lit "616c696365") (chr 48) (chr 48) (txt "alice") Hw Hw Hb).
  change (txt "alice") with [97; 108; 105; 99; 101].
  repeat (constructor; [unfold is_scalar; lia|]). constructor.
Defined.

(** ** When the enumeration of validators fails *)

Section enumeration_failure.
Context {World : Type}.
Variable rpc_post : str -> str -> str -> World -> rpc_reply * World.
Variable set_iter : gset (list ascii) -> list (list ascii).

Lemma get_onchain_validators_cases rpc_url w0 :
  match enumerate_validators rpc_post rpc_url GET_VALIDATORS_SELECTOR w0 with
  | (Raise e, w1) =>
      get_onchain_validators rpc_post set_iter rpc_url w0 = (Raise e, w1)
  | (Ok active_validators, w1) =>
      match enumerate_validators rpc_post rpc_url GET_BANNED_SELECTOR w1 with
      | (Raise e, w2) =>
          get_onchain_validators rpc_post set_iter rpc_url w0 = (Raise e, w2)
      | (Ok banned_validators, w2) =>
          exists a2m m2a w3,
            get_onchain_validators rpc_post set_iter rpc_url w0
            = (Ok (build_onchain_data set_iter active_validators banned_validators
                     a2m m2a), w3)
      end
  end.
Proof.
  unfold enumerate_validators.
  destruct (eth_call rpc_post rpc_url STAKING_CONTRACT GET_VALIDATORS_SELECTOR w0)
    as [[active_result|e] w1] eqn:Hc1.
  2: { rewrite bind_Raise. unfold get_onchain_validators, io_bind at 1.
       by rewrite Hc1. }
  rewrite bind_Ok.
  destruct (decode_address_array active_result) as [active_validators|e] eqn:Hd1.
  2: { by apply (get_onchain_validators_propagates rpc_post set_iter rpc_url w0 w1
                   active_result). }
  destruct (eth_call rpc_post rpc_url STAKING_CONTRACT GET_BANNED_SELECTOR w1)
    as [[banned_result|e] w2] eqn:Hc2.
  2: { rewrite bind_Raise. unfold get_onchain_validators.
       unfold io_bind at 1. rewrite Hc1.
       unfold io_bind at 1, io_lift at 1. rewrite Hd1.
       unfold io_bind at 1. by rewrite Hc2. }
  rewrite bind_Ok.
  destruct (decode_address_array banned_result) as [banned_validators|e] eqn:Hd2.
  - by apply (get_onchain_validators_builds rpc_post set_iter rpc_url w0 w1 w2
                active_result banned_result).
  - unfold get_onchain_validators.
    unfold io_bind at 1. rewrite Hc1.
    unfold io_bind at 1, io_lift at 1. rewrite Hd1.
    unfold io_bind at 1. rewrite Hc2.
    unfold io_bind at 1, io_lift at 1. by rewrite Hd2.
Qed.

End enumeration_failure.

(** X7.  [get_onchain_validators] raises exactly when one of its two
    enumerations does, with that very exception and in the world that
    enumeration left: no call is made after the failure, and no failure of
    a per-validator lookup ever surfaces. *)
Theorem get_onchain_validators_raises_iff {World : Type}
    (rpc_post : str -> str -> str -> World -> rpc_reply * World)
    (set_iter : gset (list ascii) -> list (list ascii))
    (rpc_url : str) (w0 w' : World) (e : exn) :
  get_onchain_validators rpc_post set_iter rpc_url w0 = (Raise e, w')
  <-> enumerate_validators rpc_post rpc_url GET_VALIDATORS_SELECTOR w0 = (Raise e, w')
      \/ exists active_validators w1,
           enumerate_validators rpc_post rpc_url GET_VALIDATORS_SELECTOR w0
             = (Ok active_validators, w1)
           /\ enumerate_validators rpc_post rpc_url GET_BANNED_SELECTOR w1
              = (Raise e, w').
Proof.
  pose proof (get_onchain_validators_cases rpc_post set_iter rpc_url w0) as Hcases.
  destruct (enumerate_validators rpc_post rpc_url GET_VALIDATORS_SELECTOR w0)
    as [[active_validators|e1] w1].
  - destruct (enumerate_validators rpc_post rpc_url GET_BANNED_SELECTOR w1)
      as [[banned_validators|e2] w2] eqn:Hbanned.
    + destruct Hcases as (a2m & m2a & w3 & ->). split.
      * discriminate.
      * intros [Hcontra|(act & w1' & [= <- <-] & Hcontra)]; [discriminate|].
        rewrite Hbanned in Hcontra. discriminate.
    + rewrite Hcases. split.
      * intros [= <- <-]. right. exists active_validators, w1. by rewrite Hbanned.
      * intros [Hcontra|(act & w1' & [= <- <-] & Hraise)]; [discriminate|].
        rewrite Hbanned in Hraise. by injection Hraise as <- <-.
  - rewrite Hcases. split.
    + intros [= <- <-]. by left.
    + intros [[= <- <-]|(act & w1' & Hcontra & _)]; [done|discriminate].
Qed.

Lemma get_onchain_validators_raises_iff_witness :
  enumerate_validators rpc_bad_offset sample_rpc_url GET_VALIDATORS_SELECTOR 0%nat
    = (Raise ValueError, 1%nat)
  /\ get_onchain_validators rpc_bad_offset elements sample_rpc_url 0%nat
     = (Raise ValueError, 1%nat).
Proof.
  assert (enumerate_validators rpc_bad_offset sample_rpc_url GET_VALIDATORS_SELECTOR
            0%nat = (Raise ValueError, 1%nat)) as Henum by (vm_compute; reflexivity).
  split; [exact Henum|].
  apply get_onchain_validators_raises_iff. left. exact Henum.
Defined.

(** ** The record list and its summary *)

Lemma address_validator_record active_set banned_set a2m (l : list (list ascii)) :
  address <$> (validator_record active_set banned_set a2m <$> l) = l.
Proof.
  rewrite <-list_fmap_compose. rewrite <-(list_fmap_id l) at 2.
  apply list_fmap_ext. reflexivity.
Qed.

Lemma validators_build_addresses set_iter act ban a2m m2a :
  address <$> validators (build_onchain_data set_iter act ban a2m m2a)
  = py_sorted_by str_ltb py_lower
      (set_iter (list_to_set (act ++ ban) : gset (list ascii))).
Proof.
  unfold build_onchain_data. cbn [validators]. apply address_validator_record.
Qed.

Lemma str_ltb_asym a b : str_ltb a b = true -> str_ltb b a = false.
Proof. unfold str_ltb. apply list_ltb_asym. Qed.

Lemma validators_build_flagged (set_iter : gset (list ascii) -> list (list ascii))
    act ban a2m m2a :
  iteration_order set_iter ->
  Forall (fun v => is_active v || is_banned v = true)
         (validators (build_onchain_data set_iter act ban a2m m2a)).
Proof.
  intros Hiter. rewrite (validators_build_perm set_iter _ _ _ _ Hiter).
  apply Forall_fmap, Forall_forall. intros a Ha.
  apply elem_of_elements, elem_of_list_to_set, elem_of_app in Ha.
  unfold validator_record. cbn [is_active is_banned].
  apply orb_true_iff.
  destruct Ha as [Ha|Ha]; [left|right]; apply bool_decide_eq_true_2;
    apply elem_of_list_to_set, list_elem_of_fmap; eauto.
Qed.

Lemma status_counts (vs : list validator) :
  Forall (fun v => status v = derive_status (is_active v) (is_banned v)) vs ->
  count_where is_active vs
    = (count_where (fun v => bool_decide (status v = Active)) vs
       + count_where (fun v => bool_decide (status v = ActiveAndBanned)) vs)%nat
  /\ count_where is_banned vs
     = (count_where (fun v => bool_decide (status v = Banned)) vs
        + count_where (fun v => bool_decide (status v = ActiveAndBanned)) vs)%nat
  /\ length vs
     = (count_where (fun v => bool_decide (status v = Active)) vs
        + count_where (fun v => bool_decide (status v = Banned)) vs
        + count_where (fun v => bool_decide (status v = ActiveAndBanned)) vs
        + count_where (fun v => bool_decide (status v = Unknown)) vs)%nat.
Proof.
  unfold count_where.
  induction 1 as [|v vs Hv _ (IH1 & IH2 & IH3)]; [done|].
  cbn [List.filter]. rewrite Hv.
  destruct (is_active v), (is_banned v); simpl; lia.
Qed.

Lemma no_unknown_count (vs : list validator) :
  Forall (fun v => status v = derive_status (is_active v) (is_banned v)) vs ->
  Forall (fun v => is_active v || is_banned v = true) vs ->
  Forall (fun v => status v <> Unknown) vs
  /\ count_where (fun v => bool_decide (status v = Unknown)) vs = 0%nat.
Proof.
  unfold count_where.
  induction 1 as [|v vs Hv _ IH]; intros Hflag; [by split|].
  apply Forall_cons in Hflag as [Hf Hflag]. destruct (IH Hflag) as [IH1 IH2].
  assert (status v <> Unknown) as Hne.
  { rewrite Hv. destruct (is_active v), (is_banned v); done. }
  split; [by constructor|].
  cbn [List.filter]. by rewrite bool_decide_eq_false_2.
Qed.

(** X8.  In what [get_onchain_validators] returns, the summary agrees with
    the records: no record has the status unknown, [total_unique] is the
    number of records and the sum of the three status counts, and the
    active and banned counts are the sums of the status counts they span. *)
Theorem onchain_summary_consistent {World : Type}
    (rpc_post : str -> str -> str -> World -> rpc_reply * World)
    (set_iter : gset (list ascii) -> list (list ascii))
    (rpc_url : str) (w0 w' : World) (data : onchain_data) :
  iteration_order set_iter ->
  get_onchain_validators rpc_post set_iter rpc_url w0 = (Ok data, w') ->
  Forall (fun v => status v <> Unknown) (validators data)
  /\ total_unique (summary data) = length (validators data)
  /\ total_unique (summary data)
     = (active_only (summary data) + banned_only (summary data)
        + active_and_banned (summary data))%nat
  /\ active_count (summary data)
     = (active_only (summary data) + active_and_banned (summary data))%nat
  /\ banned_count (summary data)
     = (banned_only (summary data) + active_and_banned (summary data))%nat
  /\ with_moniker (summary data) = size (address_to_moniker data).
Proof.
  intros Hiter Hrun.
  destruct (get_onchain_validators_inv _ _ _ _ _ _ Hrun)
    as (act & ban & a2m & m2a & ->).
  pose proof (validators_build_status set_iter act ban a2m m2a) as Hstatus.
  pose proof (validators_build_flagged set_iter act ban a2m m2a Hiter) as Hflag.
  destruct (status_counts _ Hstatus) as (Ha & Hb & Ht).
  destruct (no_unknown_count _ Hstatus Hflag) as (Hno & Hzero).
  rewrite summary_build. cbv zeta.
  cbn [total_unique active_count banned_count active_only banned_only
       active_and_banned with_moniker].
  repeat split; try done; lia.
Qed.

Lemma onchain_summary_consistent_witness :
  iteration_order (reverse_elements : gset (list ascii) -> list (list ascii))
  /\ exists data w,
       get_onchain_validators (rpc_all_alice [addr_A; addr_B] [addr_B; addr_C])
         reverse_elements sample_rpc_url 0%nat = (Ok data, w)
       /\ total_unique (summary data)
          = (active_only (summary data) + banned_only (summary data)
             + active_and_banned (summary data))%nat.
Proof.
  split; [apply iteration_order_reverse|].
  destruct (get_onchain_validators (rpc_all_alice [addr_A; addr_B] [addr_B; addr_C])
              reverse_elements sample_rpc_url 0%nat) as [[data|e] w] eqn:Hrun;
    [|vm_compute in Hrun; discriminate].
  exists data, w. split; [reflexivity|].
  destruct (onchain_summary_consistent _ _ _ _ _ _ iteration_order_reverse Hrun)
    as (_ & _ & Htotal & _).
  exact Htotal.
Defined.

(** X9.  The records come one per decoded spelling, in the order of the
    lower-cased addresses: once both enumerations have decoded, the
    addresses of the records are exactly the members of the two lists,
    without repetition and sorted by [str.lower], whatever order the set is
    iterated in. *)
Theorem onchain_records_sorted {World : Type}
    (rpc_post : str -> str -> str -> World -> rpc_reply * World)
    (set_iter : gset (list ascii) -> list (list ascii))
    (rpc_url : str) (w0 w1 w2 : World) (active_validators banned_validators : list str) :
  iteration_order set_iter ->
  enumerate_validators rpc_post rpc_url GET_VALIDATORS_SELECTOR w0
    = (Ok active_validators, w1) ->
  enumerate_validators rpc_post rpc_url GET_BANNED_SELECTOR w1
    = (Ok banned_validators, w2) ->
  exists data w3,
    get_onchain_validators rpc_post set_iter rpc_url w0 = (Ok data, w3)
    /\ NoDup (address <$> validators data)
    /\ Sorted (key_le str_ltb py_lower) (address <$> validators data)
    /\ (forall a, a ∈ address <$> validators data
                  <-> a ∈ active_validators \/ a ∈ banned_validators)
    /\ Forall (fun v => is_active v = bool_decide (py_lower (address v)
                                                   ∈ py_lower <$> active_validators)
                        /\ is_banned v = bool_decide (py_lower (address v)
                                                      ∈ py_lower <$> banned_validators))
              (validators data).
Proof.
  intros Hiter Hactive Hbanned.
  pose proof (get_onchain_validators_cases rpc_post set_iter rpc_url w0) as Hcases.
  rewrite Hactive, Hbanned in Hcases.
  destruct Hcases as (a2m & m2a & w3 & Hrun).
  eexists _, w3. split; [exact Hrun|].
  rewrite validators_build_addresses.
  split; [|split; [|split]].
  - rewrite py_sorted_by_perm, Hiter. apply NoDup_elements.
  - apply py_sorted_by_sorted, str_ltb_asym.
  - intros a.
    by rewrite py_sorted_by_perm, Hiter, elem_of_elements, elem_of_list_to_set,
      elem_of_app.
  - unfold build_onchain_data. cbn [validators].
    apply Forall_fmap, Forall_forall. intros a _.
    unfold validator_record. cbn [is_active is_banned address].
    split; apply bool_decide_ext, elem_of_list_to_set.
Qed.

Lemma onchain_records_sorted_witness :
  iteration_order (reverse_elements : gset (list ascii) -> list (list ascii))
  /\ exists data w3,
       get_onchain_validators (rpc_enumerations_only [addr_B; addr_A] [addr_C; addr_B])
         reverse_elements sample_rpc_url 0%nat = (Ok data, w3)
       /\ NoDup (address <$> validators data)
       /\ Sorted (key_le str_ltb py_lower) (address <$> validators data).
Proof.
  split; [apply iteration_order_reverse|].
  destruct (onchain_records_sorted
              (rpc_enumerations_only [addr_B; addr_A] [addr_C; addr_B])
              reverse_elements sample_rpc_url 0%nat 1%nat 2%nat
              [lit "0x" ++ addr_B; lit "0x" ++ addr_A]
              [lit "0x" ++ addr_C; lit "0x" ++ addr_B]
              iteration_order_reverse)
    as (data & w3 & Hrun & Hnodup & Hsorted & _);
    try (vm_compute; reflexivity).
  by exists data, w3.
Defined.

(** ** Addresses that are already in lower case *)

Lemma NoDup_List_filter {A} (P : A -> bool) (l : list A) :
  NoDup l -> NoDup (List.filter P l).
Proof.
  induction 1 as [|a l Ha _ IH]; cbn [List.filter]; [constructor|].
  destruct (P a); [|exact IH]. constructor; [|exact IH].
  rewrite list_elem_of_In, List.filter_In, <-list_elem_of_In. tauto.
Qed.

Lemma filter_members_length (X Y : gset (list ascii)) (P : list ascii -> bool) :
  (forall a, a ∈ Y -> (P a = true <-> a ∈ X)) ->
  X ⊆ Y ->
  length (List.filter P (elements Y)) = size X.
Proof.
  intros HP Hsub. unfold size, set_size. cbn.
  apply Permutation_length, NoDup_Permutation.
  - apply NoDup_List_filter, NoDup_elements.
  - apply NoDup_elements.
  - intros a. rewrite elem_of_elements, list_elem_of_In, List.filter_In,
      <-list_elem_of_In, elem_of_elements.
    split.
    + intros [Ha HPa]. by apply HP.
    + intros Ha. split; [by apply Hsub|]. apply HP; [by apply Hsub|done].
Qed.

Lemma count_where_fmap (P : validator -> bool) (f : list ascii -> validator) l :
  count_where P (f <$> l) = length (List.filter (fun a => P (f a)) l).
Proof.
  unfold count_where. induction l as [|a l IH]; [reflexivity|].
  cbn [fmap list_fmap List.filter]. fold (f <$> l).
  destruct (P (f a)); cbn [length]; by rewrite IH.
Qed.

Lemma py_lower_fixed_fmap (l : list (list ascii)) :
  Forall (fun a => py_lower a = a) l -> py_lower <$> l = l.
Proof.
  intros Hl. rewrite <-(list_fmap_id l) at 2. apply list_fmap_ext.
  intros i a Hi. rewrite Forall_forall in Hl. apply Hl.
  by apply list_elem_of_lookup_2 in Hi.
Qed.

(** X10.  When every decoded address is already in lower case, the records
    are one per address even when case is ignored, and the counts are the
    sizes of the sets: [total_unique] the number of distinct addresses,
    [active_count] the number of distinct active ones, [banned_count] the
    number of distinct banned ones. *)
Theorem lowercase_addresses_one_record_each {World : Type}
    (rpc_post : str -> str -> str -> World -> rpc_reply * World)
    (set_iter : gset (list ascii) -> list (list ascii))
    (rpc_url : str) (w0 w1 w2 : World) (active_validators banned_validators : list str) :
  iteration_order set_iter ->
  enumerate_validators rpc_post rpc_url GET_VALIDATORS_SELECTOR w0
    = (Ok active_validators, w1) ->
  enumerate_validators rpc_post rpc_url GET_BANNED_SELECTOR w1
    = (Ok banned_validators, w2) ->
  Forall (fun a => py_lower a = a) (active_validators ++ banned_validators) ->
  exists data w3,
    get_onchain_validators rpc_post set_iter rpc_url w0 = (Ok data, w3)
    /\ NoDup (py_lower <$> (address <$> validators data))
    /\ total_unique (summary data)
       = size (list_to_set (active_validators ++ banned_validators)
                 : gset (list ascii))
    /\ active_count (summary data)
       = size (list_to_set active_validators : gset (list ascii))
    /\ banned_count (summary data)
       = size (list_to_set banned_validators : gset (list ascii)).
Proof.
  intros Hiter Hactive Hbanned Hlower.
  pose proof (get_onchain_validators_cases rpc_post set_iter rpc_url w0) as Hcases.
  rewrite Hactive, Hbanned in Hcases.
  destruct Hcases as (a2m & m2a & w3 & Hrun).
  eexists _, w3. split; [exact Hrun|].
  apply Forall_app in Hlower as Hboth. destruct Hboth as [Hla Hlb].
  pose proof (validators_build_perm set_iter active_validators banned_validators
                a2m m2a Hiter) as Hperm.
  set (all := list_to_set (active_validators ++ banned_validators)
              : gset (list ascii)) in *.
  assert (forall a, a ∈ all -> py_lower a = a) as Hall.
  { intros a Ha. apply elem_of_list_to_set in Ha.
    rewrite Forall_forall in Hlower. by apply Hlower. }
  rewrite summary_build. cbv zeta.
  cbn [total_unique active_count banned_count].
  rewrite !(count_where_perm _ _ _ Hperm), (Permutation_length Hperm), Hperm.
  rewrite address_validator_record, length_fmap, !count_where_fmap.
  rewrite (py_lower_fixed_fmap active_validators Hla),
    (py_lower_fixed_fmap banned_validators Hlb).
  split; [|split; [reflexivity|split]].
  - rewrite py_lower_fixed_fmap; [apply NoDup_elements|].
    apply Forall_forall. intros a Ha. by apply Hall, elem_of_elements.
  - apply filter_members_length.
    + intros a Ha. unfold validator_record. cbn [is_active].
      rewrite (Hall a Ha). apply bool_decide_eq_true.
    + intros a. unfold all. rewrite !elem_of_list_to_set, elem_of_app. tauto.
  - apply filter_members_length.
    + intros a Ha. unfold validator_record. cbn [is_banned].
      rewrite (Hall a Ha). apply bool_decide_eq_true.
    + intros a. unfold all. rewrite !elem_of_list_to_set, elem_of_app. tauto.
Qed.

Lemma lowercase_addresses_one_record_each_witness :
  iteration_order (elements : gset (list ascii) -> list (list ascii))
  /\ Forall (fun a => py_lower a = a)
            ([lit "0x" ++ addr_A; lit "0x" ++ addr_B; lit "0x" ++ addr_A]
             ++ [lit "0x" ++ addr_B; lit "0x" ++ addr_C])
  /\ exists data w3,
       get_onchain_validators
         (rpc_enumerations_only [addr_A; addr_B; addr_A] [addr_B; addr_C])
         elements sample_rpc_url 0%nat = (Ok data, w3)
       /\ total_unique (summary data) = 3%nat
       /\ active_count (summary data) = 2%nat
       /\ banned_count (summary data) = 2%nat.
Proof.
  assert (Forall (fun a => py_lower a = a)
            ([lit "0x" ++ addr_A; lit "0x" ++ addr_B; lit "0x" ++ addr_A]
             ++ [lit "0x" ++ addr_B; lit "0x" ++ addr_C])) as Hlower
    by (repeat constructor).
  split; [apply iteration_order_elements|]. split; [exact Hlower|].
  destruct (lowercase_addresses_one_record_each
              (rpc_enumerations_only [addr_A; addr_B; addr_A] [addr_B; addr_C])
              elements sample_rpc_url 0%nat 1%nat 2%nat
              [lit "0x" ++ addr_A; lit "0x" ++ addr_B; lit "0x" ++ addr_A]
              [lit "0x" ++ addr_B; lit "0x" ++ addr_C]
              iteration_order_elements)
    as (data & w3 & Hrun & _ & Ht & Ha & Hb);
    try (vm_compute; reflexivity); [exact Hlower|].
  exists data, w3. split; [exact Hrun|].
  rewrite Ht, Ha, Hb. repeat split; vm_compute; reflexivity.
Defined.

(** ** The two moniker dictionaries *)

Lemma size_list_to_set_le (l : list (list ascii)) :
  (size (list_to_set l : gset (list ascii)) <= length l)%nat.
Proof.
  unfold size, set_size. cbn.
  apply submseteq_length, NoDup_submseteq; [apply NoDup_elements|].
  intros x Hx. by apply elem_of_elements, elem_of_list_to_set in Hx.
Qed.

Section moniker_dictionaries.
Context {World : Type}.
Variable rpc_post : str -> str -> str -> World -> rpc_reply * World.
Variable set_iter : gset (list ascii) -> list (list ascii).

(** The loop of lines 161-169 only adds entries, both at once, for an
    address of the list and a moniker that is not empty. *)
Lemma fetch_monikers_invariant rpc_url (active_validators : list str) :
  forall (seen : list str) (dicts dicts' : gmap str text * gmap text str) w w',
    fetch_monikers rpc_post rpc_url active_validators dicts w = (Ok dicts', w') ->
    (forall a m, dicts.1 !! a = Some m ->
       m <> [] /\ a ∈ py_lower <$> seen /\ is_Some (dicts.2 !! m)) ->
    (forall m addr, dicts.2 !! m = Some addr ->
       m <> [] /\ addr ∈ seen /\ is_Some (dicts.1 !! py_lower addr)) ->
    (forall a m, dicts'.1 !! a = Some m ->
       m <> [] /\ a ∈ py_lower <$> (seen ++ active_validators)
       /\ is_Some (dicts'.2 !! m))
    /\ (forall m addr, dicts'.2 !! m = Some addr ->
          m <> [] /\ addr ∈ seen ++ active_validators
          /\ is_Some (dicts'.1 !! py_lower addr)).
Proof.
  induction active_validators as [|addr rest IH]; intros seen dicts dicts' w w'.
  - cbn [fetch_monikers]. unfold io_ret. intros [= <- <-] H1 H2.
    rewrite app_nil_r. by split.
  - cbn [fetch_monikers]. unfold io_bind at 1.
    destruct (get_wallet_for_operator_returns rpc_post rpc_url addr w)
      as (wallet & w1 & ->).
    unfold io_bind at 1.
    assert (forall d : gmap str text * gmap text str,
              (forall a m, d.1 !! a = Some m ->
                 m <> [] /\ a ∈ py_lower <$> (seen ++ [addr])
                 /\ is_Some (d.2 !! m)) ->
              (forall m a, d.2 !! m = Some a ->
                 m <> [] /\ a ∈ seen ++ [addr] /\ is_Some (d.1 !! py_lower a)) ->
              forall w2,
              fetch_monikers rpc_post rpc_url rest d w2 = (Ok dicts', w') ->
              (forall a m, dicts'.1 !! a = Some m ->
                 m <> [] /\ a ∈ py_lower <$> (seen ++ addr :: rest)
                 /\ is_Some (dicts'.2 !! m))
              /\ (forall m a, dicts'.2 !! m = Some a ->
                    m <> [] /\ a ∈ seen ++ addr :: rest
                    /\ is_Some (dicts'.1 !! py_lower a))) as Hnext.
    { intros d Hd1 Hd2 w2 Hrun.
      replace (seen ++ addr :: rest) with ((seen ++ [addr]) ++ rest)
        by (by rewrite <-app_assoc).
      by apply (IH (seen ++ [addr]) d dicts' w2 w'). }
    intros Hrun H1 H2.
    assert ((forall a m, dicts.1 !! a = Some m ->
               m <> [] /\ a ∈ py_lower <$> (seen ++ [addr])
               /\ is_Some (dicts.2 !! m))
            /\ (forall m a, dicts.2 !! m = Some a ->
                  m <> [] /\ a ∈ seen ++ [addr]
                  /\ is_Some (dicts.1 !! py_lower a))) as [Hsame1 Hsame2].
    { split.
      - intros a m Ham. destruct (H1 a m Ham) as (? & ? & ?).
        rewrite fmap_app, elem_of_app. tauto.
      - intros m a Hma. destruct (H2 m a Hma) as (? & ? & ?).
        rewrite elem_of_app. tauto. }
    destruct (truthy_opt wallet).
    + unfold io_bind at 1 in Hrun.
      destruct (get_validator_moniker_returns rpc_post rpc_url (default [] wallet) w1)
        as (moniker & w2 & Hm). rewrite Hm in Hrun.
      unfold io_ret at 1 in Hrun.
      destruct moniker as [m|]; [|by apply (Hnext dicts Hsame1 Hsame2 w2)].
      destruct m as [|c m]; [by apply (Hnext dicts Hsame1 Hsame2 w2)|].
      cbn [truthy] in Hrun.
      refine (Hnext _ _ _ w2 Hrun); cbn [fst snd].
      * intros a m' Ham'.
        destruct (decide (py_lower addr = a)) as [<-|Hne].
        -- rewrite lookup_insert_eq in Ham'. injection Ham' as <-.
           split; [done|]. split.
           ++ rewrite fmap_app, elem_of_app. right. apply list_elem_of_fmap.
              exists addr. split; [done|]. apply list_elem_of_singleton. done.
           ++ rewrite lookup_insert_eq. eauto.
        -- rewrite lookup_insert_ne in Ham' by done.
           destruct (Hsame1 a m' Ham') as (? & ? & Hs). split; [done|].
           split; [done|].
           destruct (decide (c :: m = m')) as [<-|Hne'];
             [rewrite lookup_insert_eq; eauto|by rewrite lookup_insert_ne].
      * intros m' a Hm'a.
        destruct (decide (c :: m = m')) as [<-|Hne].
        -- rewrite lookup_insert_eq in Hm'a. injection Hm'a as <-.
           split; [done|]. split.
           ++ rewrite elem_of_app. right. by apply list_elem_of_singleton.
           ++ rewrite lookup_insert_eq. eauto.
        -- rewrite lookup_insert_ne in Hm'a by done.
           destruct (Hsame2 m' a Hm'a) as (? & ? & Hs). split; [done|].
           split; [done|].
           destruct (decide (py_lower addr = py_lower a)) as [<-|Hne'];
             [rewrite lookup_insert_eq; eauto|by rewrite lookup_insert_ne].
    + unfold io_ret at 1 in Hrun. by apply (Hnext dicts Hsame1 Hsame2 w1).
Qed.

Lemma get_onchain_validators_fetch rpc_url w0 data w3 :
  get_onchain_validators rpc_post set_iter rpc_url w0 = (Ok data, w3) ->
  exists active_validators banned_validators w2 dicts,
    fetch_monikers rpc_post rpc_url active_validators (∅, ∅) w2 = (Ok dicts, w3)
    /\ data = build_onchain_data set_iter active_validators banned_validators
                dicts.1 dicts.2.
Proof.
  unfold get_onchain_validators.
  unfold io_bind at 1.
  destruct (eth_call _ _ _ _ w0) as [[active_result|e] w1]; [|discriminate].
  unfold io_bind at 1, io_lift at 1.
  destruct (decode_address_array active_result) as [active_validators|e];
    [|discriminate].
  unfold io_bind at 1.
  destruct (eth_call _ _ _ _ w1) as [[banned_result|e] w2]; [|discriminate].
  unfold io_bind at 1, io_lift at 1.
  destruct (decode_address_array banned_result) as [banned_validators|e];
    [|discriminate].
  unfold io_bind at 1.
  destruct (fetch_monikers _ _ _ _ w2) as [[dicts|e] w3'] eqn:Hfetch; [|discriminate].
  unfold io_ret. intros [= <- <-].
  exists active_validators, banned_validators, w2, dicts. by split.
Qed.

End moniker_dictionaries.

(** X11.  In the data of a successful run, a record carries a moniker only
    if it is flagged active; the moniker is never the empty string and is a
    key of [moniker_to_address].  Every address in [moniker_to_address] is
    the address of a record flagged active whose lower-case form is a key
    of [address_to_moniker].  The count [with_moniker] does not exceed
    [active_count]. *)
Theorem monikers_belong_to_active_validators {World : Type}
    (rpc_post : str -> str -> str -> World -> rpc_reply * World)
    (set_iter : gset (list ascii) -> list (list ascii))
    (rpc_url : str) (w0 w' : World) (data : onchain_data) :
  iteration_order set_iter ->
  get_onchain_validators rpc_post set_iter rpc_url w0 = (Ok data, w') ->
  (forall v m, v ∈ validators data -> moniker v = Some m ->
     is_active v = true /\ m <> [] /\ is_Some (moniker_to_address data !! m)
     /\ address_to_moniker data !! py_lower (address v) = Some m)
  /\ (forall m addr, moniker_to_address data !! m = Some addr ->
        m <> [] /\ is_Some (address_to_moniker data !! py_lower addr)
        /\ exists v, v ∈ validators data /\ address v = addr
                     /\ is_active v = true)
  /\ (with_moniker (summary data) <= active_count (summary data))%nat.
Proof.
  intros Hiter Hrun.
  destruct (get_onchain_validators_fetch rpc_post set_iter rpc_url w0 data w' Hrun)
    as (act & ban & w2 & [a2m m2a] & Hfetch & ->).
  destruct (fetch_monikers_invariant rpc_post rpc_url act [] (∅, ∅) (a2m, m2a) w2 w'
              Hfetch) as [H1 H2].
  { intros a m Ham. cbn [fst] in Ham. by rewrite lookup_empty in Ham. }
  { intros m a Hma. cbn [snd] in Hma. by rewrite lookup_empty in Hma. }
  cbn [fst snd app] in *.
  pose proof (validators_build_perm set_iter act ban a2m m2a Hiter) as Hperm.
  split; [|split].
  - intros v m Hv Hm. rewrite Hperm in Hv.
    apply list_elem_of_fmap in Hv as (a & -> & Ha).
    unfold validator_record in *. cbn [moniker is_active address] in *.
    destruct (H1 _ _ Hm) as (Hne & Hin & Hkey).
    split; [|by repeat split].
    apply bool_decide_eq_true_2. by apply elem_of_list_to_set.
  - intros m addr Hm. unfold build_onchain_data in Hm. cbn [moniker_to_address] in Hm.
    destruct (H2 _ _ Hm) as (Hne & Hin & Hkey).
    split; [done|]. split; [exact Hkey|].
    exists (validator_record (list_to_set (py_lower <$> act))
              (list_to_set (py_lower <$> ban)) a2m addr).
    split; [|split; [reflexivity|]].
    + rewrite Hperm. apply list_elem_of_fmap. exists addr. split; [done|].
      apply elem_of_elements, elem_of_list_to_set, elem_of_app. by left.
    + unfold validator_record. cbn [is_active]. apply bool_decide_eq_true_2.
      apply elem_of_list_to_set, list_elem_of_fmap. eauto.
  - rewrite summary_build. cbv zeta. cbn [with_moniker active_count].
    rewrite (count_where_perm _ _ _ Hperm), count_where_fmap.
    set (L := List.filter _ _).
    transitivity (size (list_to_set (py_lower <$> L) : gset (list ascii))).
    + rewrite <-size_dom. apply subseteq_size. intros a Ha.
      apply elem_of_dom in Ha as [m Ham].
      destruct (H1 _ _ Ham) as (_ & Hin & _).
      apply list_elem_of_fmap in Hin as (addr & -> & Hin).
      apply elem_of_list_to_set, list_elem_of_fmap. exists addr. split; [done|].
      subst L. rewrite list_elem_of_In, List.filter_In, <-list_elem_of_In.
      split.
      * apply elem_of_elements, elem_of_list_to_set, elem_of_app. by left.
      * unfold validator_record. cbn [is_active]. apply bool_decide_eq_true_2.
        apply elem_of_list_to_set, list_elem_of_fmap. eauto.
    + etransitivity; [apply size_list_to_set_le|]. by rewrite length_fmap.
Qed.

Lemma monikers_belong_to_active_validators_witness :
  iteration_order (reverse_elements : gset (list ascii) -> list (list ascii))
  /\ exists data w,
       get_onchain_validators (rpc_all_alice [addr_A; addr_B] [addr_B; addr_C])
         reverse_elements sample_rpc_url 0%nat = (Ok data, w)
       /\ (with_moniker (summary data) <= active_count (summary data))%nat.
Proof.
  split; [apply iteration_order_reverse|].
  destruct (get_onchain_validators (rpc_all_alice [addr_A; addr_B] [addr_B; addr_C])
              reverse_elements sample_rpc_url 0%nat) as [[data|e] w] eqn:Hrun;
    [|vm_compute in Hrun; discriminate].
  exists data, w. split; [reflexivity|].
  destruct (monikers_belong_to_active_validators _ _ _ _ _ _
              iteration_order_reverse Hrun) as (_ & _ & Hle).
  exact Hle.
Defined.

(** ** Rates that are whole percentages *)

(** X12.  When the count is a whole multiple [k] of a positive number of
    active validators, the rate is the whole percentage [100 * k] with one
    zero decimal: ["0.0%"] when nothing is counted, ["100.0%"] when the
    count equals the number of active validators, and above ["100.0%"]
    when more names report than there are active validators. *)
Theorem format_rate_whole_multiple (k onchain_count : nat) :
  (1 <= onchain_count)%nat ->
  100 * Z.of_nat k < 2 ^ 53 ->
  format_rate (k * onchain_count) onchain_count
  = Ok (lit (pretty (100 * Z.of_nat k)) ++ lit ".0%").
Proof.
  intros Hn Hbound. unfold format_rate, py_truediv.
  replace (Z.of_nat (Nat.max onchain_count 1)) with (Z.of_nat onchain_count) by lia.
  destruct (Z.eqb_spec (Z.of_nat onchain_count) 0) as [Hz|_]; [lia|].
  destruct k as [|k'].
  - rewrite Nat.mul_0_l. vm_compute. reflexivity.
  - set (k := S k') in *. rewrite Nat2Z.inj_mul.
    rewrite round_binary64_integer by lia.
    rewrite bind_Ok.
    rewrite float_mul_int_integer by lia.
    rewrite format_1f_integer by lia.
    rewrite (Z.mul_comm 100 (Z.of_nat k)), <-(assoc_L (++)). reflexivity.
Qed.

Lemma format_rate_whole_multiple_witness :
  format_rate 7 7 = Ok (lit "100.0%") /\ format_rate 14 7 = Ok (lit "200.0%").
Proof.
  split.
  - apply (format_rate_whole_multiple 1 7); [lia|vm_compute; reflexivity].
  - apply (format_rate_whole_multiple 2 7); [lia|vm_compute; reflexivity].
Defined.

(** ** The counts of the report *)

Lemma generate_report_sizes set_iter now onchain telemetry rpc_url grafana_url r :
  generate_report set_iter now onchain telemetry rpc_url grafana_url = Ok r ->
  let metrics_set : gset (list Z) := list_to_set (tm_validators (metrics telemetry)) in
  let logs_set : gset (list Z) := list_to_set (tm_validators (logs telemetry)) in
  sum_telemetry_status (rep_summary r)
  = {| ts_fully_configured := size (metrics_set ∩ logs_set);
       ts_metrics_only := size (metrics_set ∖ logs_set);
       ts_logs_only := size (logs_set ∖ metrics_set);
       ts_no_telemetry :=
         length (no_telemetry_list_of set_iter onchain (metrics_set ∪ logs_set));
       ts_total_with_any_telemetry := size (metrics_set ∪ logs_set) |}
  /\ g_count (fully_configured (rep_validators r)) = size (metrics_set ∩ logs_set)
  /\ g_count (metrics_only (rep_validators r)) = size (metrics_set ∖ logs_set)
  /\ g_count (logs_only (rep_validators r)) = size (logs_set ∖ metrics_set)
  /\ sum_on_chain_validators (rep_summary r) = summary onchain
  /\ on_chain_validators r
     = {| active_and_healthy := refs_with_status Active (validators onchain);
          active_but_banned := refs_with_status ActiveAndBanned (validators onchain);
          banned_only_refs := refs_with_status Banned (validators onchain) |}.
Proof.
  unfold generate_report, telemetry_categories. cbv zeta.
  destruct (format_rate (size (_ ∪ _)) _) as [adoption|e];
    [rewrite bind_Ok|rewrite bind_Raise; discriminate].
  destruct (format_rate (size (_ ∩ _)) _) as [observability|e];
    [rewrite bind_Ok|rewrite bind_Raise; discriminate].
  intros [= <-]. simpl. done.
Qed.

Lemma size_split (X Y : gset (list Z)) :
  size X = (size (X ∩ Y) + size (X ∖ Y))%nat.
Proof.
  rewrite <-size_union.
  - f_equal. apply set_eq. intros x.
    rewrite elem_of_union, elem_of_intersection, elem_of_difference.
    destruct (decide (x ∈ Y)); tauto.
  - apply elem_of_disjoint. intros x.
    rewrite elem_of_intersection, elem_of_difference. tauto.
Qed.

Lemma size_union_split (X Y : gset (list Z)) :
  size (X ∪ Y) = (size (X ∩ Y) + size (X ∖ Y) + size (Y ∖ X))%nat.
Proof.
  rewrite size_union_alt, (size_split X Y). reflexivity.
Qed.

Lemma length_sorted_names (set_iter : gset (list Z) -> list (list Z)) X :
  iteration_order set_iter -> length (py_sorted (set_iter X)) = size X.
Proof.
  intros Hiter. by rewrite py_sorted_perm, Hiter.
Qed.

(** X13.  The telemetry counts of a report add up: the total with any
    telemetry is the sum of the three categories; fully configured plus
    metrics-only is the number of distinct names the metrics panel gave,
    fully configured plus logs-only the number the logs panel gave; and
    each category's count is the length of its list of names. *)
Theorem telemetry_counts_add_up
    (set_iter : gset (list Z) -> list (list Z)) (now : str)
    (onchain : onchain_data) (telemetry : telemetry_data)
    (rpc_url grafana_url : str) (r : report) :
  iteration_order set_iter ->
  generate_report set_iter now onchain telemetry rpc_url grafana_url = Ok r ->
  let ts := sum_telemetry_status (rep_summary r) in
  let groups := rep_validators r in
  ts_total_with_any_telemetry ts
    = (ts_fully_configured ts + ts_metrics_only ts + ts_logs_only ts)%nat
  /\ (ts_fully_configured ts + ts_metrics_only ts)%nat
     = size (list_to_set (tm_validators (metrics telemetry)) : gset (list Z))
  /\ (ts_fully_configured ts + ts_logs_only ts)%nat
     = size (list_to_set (tm_validators (logs telemetry)) : gset (list Z))
  /\ ts_fully_configured ts = length (g_names (fully_configured groups))
  /\ ts_metrics_only ts = length (g_names (metrics_only groups))
  /\ ts_logs_only ts = length (g_names (logs_only groups))
  /\ ts_no_telemetry ts = length (ntg_validators (no_telemetry groups))
  /\ g_count (fully_configured groups) = ts_fully_configured ts
  /\ g_count (metrics_only groups) = ts_metrics_only ts
  /\ g_count (logs_only groups) = ts_logs_only ts
  /\ ntg_count (no_telemetry groups) = ts_no_telemetry ts.
Proof.
  intros Hiter Hr. cbv zeta.
  destruct (generate_report_sizes _ _ _ _ _ _ _ Hr)
    as (-> & -> & -> & -> & _ & _).
  destruct (generate_report_Ok _ _ _ _ _ _ _ Hr)
    as (_ & -> & -> & -> & Hlist & _).
  rewrite (generate_report_counts _ _ _ _ _ _ _ Hr).
  cbv zeta in Hlist. rewrite Hlist.
  cbn [ts_fully_configured ts_metrics_only ts_logs_only ts_no_telemetry
       ts_total_with_any_telemetry].
  rewrite !(length_sorted_names set_iter _ Hiter).
  set (M := list_to_set (tm_validators (metrics telemetry)) : gset (list Z)).
  set (L := list_to_set (tm_validators (logs telemetry)) : gset (list Z)).
  split; [apply size_union_split|].
  split; [symmetry; apply size_split|].
  split; [|repeat split].
  assert (M ∩ L = L ∩ M) as ->
    by (apply set_eq; intros x; rewrite !elem_of_intersection; tauto).
  symmetry. apply size_split.
Qed.

Lemma telemetry_counts_add_up_witness :
  iteration_order (elements : gset (list Z) -> list (list Z))
  /\ exists r,
       generate_report elements sample_now sample_onchain sample_telemetry
         sample_rpc_url sample_grafana_url = Ok r
       /\ ts_total_with_any_telemetry (sum_telemetry_status (rep_summary r))
          = (ts_fully_configured (sum_telemetry_status (rep_summary r))
             + ts_metrics_only (sum_telemetry_status (rep_summary r))
             + ts_logs_only (sum_telemetry_status (rep_summary r)))%nat.
Proof.
  split; [apply iteration_order_elements|].
  destruct (generate_report elements sample_now sample_onchain sample_telemetry
              sample_rpc_url sample_grafana_url) as [r|e] eqn:Hr;
    [|vm_compute in Hr; discriminate].
  exists r. split; [reflexivity|].
  destruct (telemetry_counts_add_up elements sample_now sample_onchain
              sample_telemetry sample_rpc_url sample_grafana_url r
              iteration_order_elements Hr) as (Htotal & _).
  exact Htotal.
Defined.

(** ** The report of a run *)

Lemma length_refs_with_status s vs :
  length (refs_with_status s vs)
  = count_where (fun v => bool_decide (status v = s)) vs.
Proof. unfold refs_with_status, count_where. by rewrite length_fmap. Qed.

Lemma elem_of_refs_with_status s vs ref :
  ref ∈ refs_with_status s vs
  <-> exists v, v ∈ vs /\ status v = s
                /\ ref = {| ref_address := address v; ref_moniker := moniker v |}.
Proof.
  unfold refs_with_status. rewrite list_elem_of_fmap. split.
  - intros (v & -> & Hv).
    apply list_elem_of_In, List.filter_In in Hv as [Hv Hs].
    apply bool_decide_eq_true in Hs. exists v.
    by rewrite list_elem_of_In.
  - intros (v & Hv & Hs & ->). exists v. split; [done|].
    apply list_elem_of_In, List.filter_In. split; [by apply list_elem_of_In|].
    by apply bool_decide_eq_true.
Qed.

(** X14.  In the report made from the data of a successful run, the three
    on-chain lists have the lengths the summary announces ([active_only],
    [active_and_banned], [banned_only]), they account for every record
    ([total_unique] entries in all), and every record is listed, with its
    address and moniker, in exactly the list of its status. *)
Theorem report_onchain_lists_match_summary {World : Type}
    (rpc_post : str -> str -> str -> World -> rpc_reply * World)
    (address_iter : gset (list ascii) -> list (list ascii))
    (name_iter : gset (list Z) -> list (list Z))
    (rpc_url grafana_url now : str) (w0 w' : World)
    (data : onchain_data) (telemetry : telemetry_data) (r : report) :
  iteration_order address_iter ->
  get_onchain_validators rpc_post address_iter rpc_url w0 = (Ok data, w') ->
  generate_report name_iter now data telemetry rpc_url grafana_url = Ok r ->
  let lists := on_chain_validators r in
  let counts := sum_on_chain_validators (rep_summary r) in
  length (active_and_healthy lists) = active_only counts
  /\ length (active_but_banned lists) = active_and_banned counts
  /\ length (banned_only_refs lists) = banned_only counts
  /\ (length (active_and_healthy lists) + length (active_but_banned lists)
      + length (banned_only_refs lists))%nat = total_unique counts
  /\ (forall v, v ∈ validators data ->
        let ref := {| ref_address := address v; ref_moniker := moniker v |} in
        (status v = Active /\ ref ∈ active_and_healthy lists)
        \/ (status v = ActiveAndBanned /\ ref ∈ active_but_banned lists)
        \/ (status v = Banned /\ ref ∈ banned_only_refs lists)).
Proof.
  intros Hiter Hrun Hr. cbv zeta.
  destruct (generate_report_sizes _ _ _ _ _ _ _ Hr) as (_ & _ & _ & _ & -> & ->).
  cbn [active_and_healthy active_but_banned banned_only_refs].
  rewrite !length_refs_with_status.
  destruct (get_onchain_validators_inv rpc_post address_iter rpc_url w0 data w' Hrun)
    as (act & ban & a2m & m2a & ->).
  rewrite summary_build. cbv zeta.
  cbn [active_only active_and_banned banned_only total_unique].
  pose proof (validators_build_status address_iter act ban a2m m2a) as Hstatus.
  pose proof (validators_build_flagged address_iter act ban a2m m2a Hiter) as Hflag.
  destruct (status_counts _ Hstatus) as (_ & _ & Hlen).
  destruct (no_unknown_count _ Hstatus Hflag) as [Hnone Hzero].
  split; [reflexivity|]. split; [reflexivity|]. split; [reflexivity|].
  split; [rewrite Hlen, Hzero; lia|].
  intros v Hv.
  rewrite !elem_of_refs_with_status.
  rewrite Forall_forall in Hnone. specialize (Hnone v Hv).
  destruct (status v) eqn:Hs; [left|right; right|right; left|done];
    (split; [reflexivity|]); exists v; by rewrite Hs.
Qed.

Lemma report_onchain_lists_match_summary_witness :
  iteration_order (reverse_elements : gset (list ascii) -> list (list ascii))
  /\ exists data w r,
       get_onchain_validators (rpc_all_alice [addr_A; addr_B] [addr_B; addr_C])
         reverse_elements sample_rpc_url 0%nat = (Ok data, w)
       /\ generate_report elements sample_now data sample_telemetry
            sample_rpc_url sample_grafana_url = Ok r
       /\ length (active_and_healthy (on_chain_validators r))
          = active_only (sum_on_chain_validators (rep_summary r)).
Proof.
  split; [apply iteration_order_reverse|].
  destruct (get_onchain_validators (rpc_all_alice [addr_A; addr_B] [addr_B; addr_C])
              reverse_elements sample_rpc_url 0%nat) as [[data|e] w] eqn:Hrun;
    [|vm_compute in Hrun; discriminate].
  destruct (generate_report elements sample_now data sample_telemetry
              sample_rpc_url sample_grafana_url) as [r|e] eqn:Hr.
  - exists data, w, r. split; [reflexivity|]. split; [exact Hr|].
    destruct (report_onchain_lists_match_summary _ _ elements _ sample_grafana_url
                sample_now _ _ data sample_telemetry r
                iteration_order_reverse Hrun Hr) as (Hlen & _).
    exact Hlen.
  - exfalso. vm_compute in Hrun. injection Hrun as <- <-.
    vm_compute in Hr. discriminate.
Defined.

(** ** The no-telemetry list of a run *)

Lemma decode_address_array_prefixed hex_result addresses :
  decode_address_array hex_result = Ok addresses ->
  Forall (fun addr => take 2 addr = lit "0x") addresses.
Proof.
  unfold decode_address_array.
  destruct (Z.of_nat (length (py_slice_from hex_result 2)) <? 128).
  { intros [= <-]. constructor. }
  destruct (py_int16 (py_slice (py_slice_from hex_result 2) 0 64)) as [word0|e];
    [rewrite bind_Ok|rewrite bind_Raise; discriminate].
  cbv zeta.
  destruct (py_int16 (py_slice (py_slice_from hex_result 2) (word0 * 2)
                               (word0 * 2 + 64))) as [n|e];
    [rewrite bind_Ok|rewrite bind_Raise; discriminate].
  intros [= <-].
  apply decode_loop_invariant; [|constructor].
  intros start addr _. reflexivity.
Qed.

Lemma size_names_le (l : list (list Z)) :
  (size (list_to_set l : gset (list Z)) <= length l)%nat.
Proof.
  unfold size, set_size. cbn.
  apply submseteq_length, NoDup_submseteq; [apply NoDup_elements|].
  intros x Hx. by apply elem_of_elements, elem_of_list_to_set in Hx.
Qed.

Lemma active_records_split (vs : list validator) :
  (length (omap (fun v => if is_active v && truthy_opt (moniker v)
                          then moniker v else None) vs)
   + length (List.filter (fun v => is_active v && negb (truthy_opt (moniker v))) vs))%nat
  = count_where is_active vs.
Proof.
  unfold count_where.
  induction vs as [|v vs IH]; [reflexivity|].
  cbn [omap list_omap List.filter].
  destruct (is_active v); cbn [andb]; [|exact IH].
  destruct (moniker v) as [[|c m]|]; cbn [truthy_opt truthy negb length];
    rewrite <-IH; lia.
Qed.

Lemma length_no_telemetry_list_of (set_iter : gset (list Z) -> list (list Z))
    onchain all_with_telemetry :
  iteration_order set_iter ->
  (length (no_telemetry_list_of set_iter onchain all_with_telemetry)
   <= count_where is_active (validators onchain))%nat.
Proof.
  intros Hiter. unfold no_telemetry_list_of. cbv zeta.
  rewrite length_app, !length_fmap, (length_sorted_names set_iter _ Hiter).
  rewrite <-active_records_split.
  apply Nat.add_le_mono_r.
  etransitivity; [|apply size_names_le].
  apply subseteq_size. intros x. rewrite elem_of_difference. tauto.
Qed.

Section no_telemetry_of_run.
Context {World : Type}.
Variable rpc_post : str -> str -> str -> World -> rpc_reply * World.
Variable address_iter : gset (list ascii) -> list (list ascii).

Lemma get_onchain_validators_decoded rpc_url w0 data w3 :
  get_onchain_validators rpc_post address_iter rpc_url w0 = (Ok data, w3) ->
  exists active_validators banned_validators w2 dicts,
    Forall (fun addr => take 2 addr = lit "0x")
           (active_validators ++ banned_validators)
    /\ fetch_monikers rpc_post rpc_url active_validators (∅, ∅) w2 = (Ok dicts, w3)
    /\ data = build_onchain_data address_iter active_validators banned_validators
                dicts.1 dicts.2.
Proof.
  unfold get_onchain_validators.
  unfold io_bind at 1.
  destruct (eth_call _ _ _ _ w0) as [[active_result|e] w1]; [|discriminate].
  unfold io_bind at 1, io_lift at 1.
  destruct (decode_address_array active_result) as [active_validators|e] eqn:Hd1;
    [|discriminate].
  unfold io_bind at 1.
  destruct (eth_call _ _ _ _ w1) as [[banned_result|e] w2]; [|discriminate].
  unfold io_bind at 1, io_lift at 1.
  destruct (decode_address_array banned_result) as [banned_validators|e] eqn:Hd2;
    [|discriminate].
  unfold io_bind at 1.
  destruct (fetch_monikers _ _ _ _ w2) as [[dicts|e] w3'] eqn:Hfetch; [|discriminate].
  unfold io_ret. intros [= <- <-].
  exists active_validators, banned_validators, w2, dicts.
  split; [|by split].
  apply Forall_app. split; by eapply decode_address_array_prefixed.
Qed.

End no_telemetry_of_run.

(** X15.  In the report made from the data of a successful run, every
    entry of the no-telemetry list carries the address of a record flagged
    active: the placeholder ["unknown"] never appears as an address, and the
    entries with a moniker carry the address [moniker_to_address] holds for
    it.  The list is never longer than [active_count]. *)
Theorem no_telemetry_entries_are_active_validators {World : Type}
    (rpc_post : str -> str -> str -> World -> rpc_reply * World)
    (address_iter : gset (list ascii) -> list (list ascii))
    (name_iter : gset (list Z) -> list (list Z))
    (rpc_url grafana_url now : str) (w0 w' : World)
    (data : onchain_data) (telemetry : telemetry_data) (r : report) :
  iteration_order address_iter ->
  iteration_order name_iter ->
  get_onchain_validators rpc_post address_iter rpc_url w0 = (Ok data, w') ->
  generate_report name_iter now data telemetry rpc_url grafana_url = Ok r ->
  (forall entry, entry ∈ ntg_validators (no_telemetry (rep_validators r)) ->
     nt_address entry <> lit "unknown"
     /\ (forall m, nt_moniker entry = Some m ->
           moniker_to_address data !! m = Some (nt_address entry))
     /\ exists v, v ∈ validators data /\ is_active v = true
                  /\ address v = nt_address entry)
  /\ (ts_no_telemetry (sum_telemetry_status (rep_summary r))
      <= active_count (sum_on_chain_validators (rep_summary r)))%nat.
Proof.
  intros Haddr Hname Hrun Hr.
  destruct (generate_report_sizes _ _ _ _ _ _ _ Hr) as (-> & _ & _ & _ & -> & _).
  destruct (generate_report_Ok _ _ _ _ _ _ _ Hr) as (_ & _ & _ & _ & Hlist & _).
  cbv zeta in Hlist. rewrite Hlist. cbn [ts_no_telemetry].
  destruct (get_onchain_validators_decoded rpc_post address_iter rpc_url w0 data w'
              Hrun) as (act & ban & w2 & [a2m m2a] & Hprefix & Hfetch & ->).
  destruct (fetch_monikers_invariant rpc_post rpc_url act [] (∅, ∅) (a2m, m2a) w2 w'
              Hfetch) as [H1 H2].
  { intros a m Ham. cbn [fst] in Ham. by rewrite lookup_empty in Ham. }
  { intros m a Hma. cbn [snd] in Hma. by rewrite lookup_empty in Hma. }
  cbn [fst snd app] in *.
  pose proof (validators_build_perm address_iter act ban a2m m2a Haddr) as Hperm.
  assert (forall v, v ∈ validators (build_onchain_data address_iter act ban a2m m2a) ->
            address v <> lit "unknown"
            /\ moniker v = a2m !! py_lower (address v)) as Hrecord.
  { intros v Hv. rewrite Hperm in Hv.
    apply list_elem_of_fmap in Hv as (a & -> & Ha).
    unfold validator_record. cbn [address moniker]. split; [|reflexivity].
    apply elem_of_elements, elem_of_list_to_set in Ha.
    rewrite Forall_forall in Hprefix. specialize (Hprefix a Ha).
    intros ->. discriminate Hprefix. }
  assert (forall addr, addr ∈ act ->
            exists v, v ∈ validators (build_onchain_data address_iter act ban a2m m2a)
                      /\ is_active v = true /\ address v = addr) as Hactive.
  { intros addr Hin.
    exists (validator_record (list_to_set (py_lower <$> act))
              (list_to_set (py_lower <$> ban)) a2m addr).
    split; [|split; [|reflexivity]].
    - rewrite Hperm. apply list_elem_of_fmap. exists addr. split; [done|].
      apply elem_of_elements, elem_of_list_to_set, elem_of_app. by left.
    - unfold validator_record. cbn [is_active]. apply bool_decide_eq_true_2.
      apply elem_of_list_to_set, list_elem_of_fmap. eauto. }
  split.
  - intros entry Hentry. unfold no_telemetry_list_of in Hentry. cbv zeta in Hentry.
    apply elem_of_app in Hentry as [Hentry|Hentry].
    + apply list_elem_of_fmap in Hentry as (m & -> & Hm).
      rewrite py_sorted_perm, Hname, elem_of_elements, elem_of_difference in Hm.
      destruct Hm as [Hm _].
      apply elem_of_active_monikers in Hm as (_ & v & Hv & _ & Hmoniker).
      destruct (Hrecord v Hv) as [_ Hlookup]. rewrite Hmoniker in Hlookup.
      symmetry in Hlookup. destruct (H1 _ _ Hlookup) as (_ & _ & [addr Hkey]).
      destruct (H2 _ _ Hkey) as (_ & Hin & _).
      destruct (Hactive addr Hin) as (v' & Hv' & Hact & Haddr').
      cbn [nt_address nt_moniker moniker_to_address build_onchain_data].
      rewrite Hkey. cbn [default].
      split; [|split].
      * rewrite <-Haddr'. by apply Hrecord.
      * by intros ? [= <-].
      * by exists v'.
    + apply list_elem_of_fmap in Hentry as (v & -> & Hv).
      apply list_elem_of_In, List.filter_In in Hv as [Hv Hcond].
      apply list_elem_of_In in Hv. apply andb_true_iff in Hcond as [Hact _].
      cbn [nt_address nt_moniker].
      split; [by apply Hrecord|]. split; [discriminate|]. by exists v.
  - rewrite summary_build. cbv zeta. cbn [active_count].
    by apply length_no_telemetry_list_of.
Qed.

Lemma no_telemetry_entries_are_active_validators_witness :
  iteration_order (reverse_elements : gset (list ascii) -> list (list ascii))
  /\ iteration_order (elements : gset (list Z) -> list (list Z))
  /\ exists data w r,
       get_onchain_validators (rpc_all_alice [addr_A; addr_B] [addr_B; addr_C])
         reverse_elements sample_rpc_url 0%nat = (Ok data, w)
       /\ generate_report elements sample_now data no_telemetry_data
            sample_rpc_url sample_grafana_url = Ok r
       /\ (ts_no_telemetry (sum_telemetry_status (rep_summary r))
           <= active_count (sum_on_chain_validators (rep_summary r)))%nat.
Proof.
  split; [apply iteration_order_reverse|].
  split; [apply iteration_order_elements|].
  destruct (get_onchain_validators (rpc_all_alice [addr_A; addr_B] [addr_B; addr_C])
              reverse_elements sample_rpc_url 0%nat) as [[data|e] w] eqn:Hrun;
    [|vm_compute in Hrun; discriminate].
  destruct (generate_report elements sample_now data no_telemetry_data
              sample_rpc_url sample_grafana_url) as [r|e] eqn:Hr.
  - exists data, w, r. split; [reflexivity|]. split; [exact Hr|].
    destruct (no_telemetry_entries_are_active_validators _ _ elements _
                sample_grafana_url sample_now _ _ data no_telemetry_data r
                iteration_order_reverse iteration_order_elements Hrun Hr)
      as (_ & Hle).
    exact Hle.
  - exfalso. vm_compute in Hrun. injection Hrun as <- <-.
    vm_compute in Hr. discriminate.
Defined.

(** ** The telemetry client *)

Lemma elem_of_collect_fields (flds : list panel_field) (acc : gset (list Z)) name :
  name ∈ foldl
           (fun validators field =>
              let labels := default ∅ (labels field) in
              match labels !! txt "validator_name" with
              | Some name => {[ name ]} ∪ validators
              | None => validators
              end)
           acc flds
  <-> name ∈ acc
      \/ exists field lbls, field ∈ flds /\ labels field = Some lbls
                            /\ lbls !! txt "validator_name" = Some name.
Proof.
  revert acc. induction flds as [|field flds IH]; intros acc.
  - cbn [foldl]. split; [by left|].
    intros [H|(field & lbls & Hin & _)]; [done|]. by apply elem_of_nil in Hin.
  - cbn [foldl]. rewrite IH. cbv zeta.
    assert (forall P : Prop,
              (P \/ exists f lbls, f ∈ flds /\ labels f = Some lbls
                                   /\ lbls !! txt "validator_name" = Some name)
              -> P \/ exists f lbls, f ∈ field :: flds /\ labels f = Some lbls
                                     /\ lbls !! txt "validator_name" = Some name)
      as Hweaken.
    { intros P [HP|(f & lbls & Hin & Hrest)]; [by left|].
      right. exists f, lbls. split; [apply elem_of_cons; by right|done]. }
    destruct (labels field) as [lbls0|] eqn:Hlabels; cbn [default from_option id].
    + destruct (lbls0 !! txt "validator_name") as [n|] eqn:Hn0.
      * rewrite elem_of_union, elem_of_singleton. split.
        -- intros [[->|Hacc]|Hrest].
           ++ right. exists field, lbls0. split; [apply elem_of_cons; by left|done].
           ++ by left.
           ++ apply Hweaken. by right.
        -- intros [Hacc|(f & lbls & Hin & Hl & Hn)]; [left; by right|].
           apply elem_of_cons in Hin as [->|Hin].
           ++ left. left. congruence.
           ++ right. by exists f, lbls.
      * split; [apply Hweaken|].
        intros [Hacc|(f & lbls & Hin & Hl & Hn)]; [by left|].
        apply elem_of_cons in Hin as [->|Hin]; [congruence|].
        right. by exists f, lbls.
    + rewrite lookup_empty. split; [apply Hweaken|].
      intros [Hacc|(f & lbls & Hin & Hl & Hn)]; [by left|].
      apply elem_of_cons in Hin as [->|Hin]; [congruence|].
      right. by exists f, lbls.
Qed.

Lemma elem_of_collect_frames (frs : list panel_frame) (acc : gset (list Z)) name :
  name ∈ foldl
           (fun validators frame =>
              let fields :=
                default [] (fields (default {| fields := None |} (schema frame))) in
              foldl
                (fun validators field =>
                   let labels := default ∅ (labels field) in
                   match labels !! txt "validator_name" with
                   | Some name => {[ name ]} ∪ validators
                   | None => validators
                   end)
                validators fields)
           acc frs
  <-> name ∈ acc
      \/ exists frame sch flds field lbls,
           frame ∈ frs /\ schema frame = Some sch /\ fields sch = Some flds
           /\ field ∈ flds /\ labels field = Some lbls
           /\ lbls !! txt "validator_name" = Some name.
Proof.
  revert acc. induction frs as [|frame frs IH]; intros acc.
  - cbn [foldl]. split; [by left|].
    intros [H|(frame & ? & ? & ? & ? & Hin & _)]; [done|].
    by apply elem_of_nil in Hin.
  - cbn [foldl]. rewrite IH. cbv zeta. rewrite elem_of_collect_fields. split.
    + intros [[Hacc|(field & lbls & Hin & Hl & Hn)]
             |(f & sch & flds & field & lbls & Hin & Hrest)].
      * by left.
      * right. destruct (schema frame) as [sch|] eqn:Hsch; cbn [default from_option id] in Hin.
        -- destruct (fields sch) as [flds|] eqn:Hflds; cbn [default from_option id] in Hin.
           ++ exists frame, sch, flds, field, lbls.
              split; [apply elem_of_cons; by left|done].
           ++ by apply elem_of_nil in Hin.
        -- by apply elem_of_nil in Hin.
      * right. exists f, sch, flds, field, lbls.
        split; [apply elem_of_cons; by right|done].
    + intros [Hacc|(f & sch & flds & field & lbls & Hin & Hsch & Hflds & Hrest)].
      * left. by left.
      * apply elem_of_cons in Hin as [->|Hin].
        -- left. right. exists field, lbls. rewrite Hsch. cbn [default from_option id].
           rewrite Hflds. cbn [default from_option id]. done.
        -- right. by exists f, sch, flds, field, lbls.
Qed.

Lemma elem_of_collect_validator_names (result : panel_body) name :
  name ∈ collect_validator_names result
  <-> exists res query frs frame sch flds field lbls,
        results result = Some res /\ query_A res = Some query
        /\ frames query = Some frs /\ frame ∈ frs
        /\ schema frame = Some sch /\ fields sch = Some flds
        /\ field ∈ flds /\ labels field = Some lbls
        /\ lbls !! txt "validator_name" = Some name.
Proof.
  unfold collect_validator_names. cbv zeta. rewrite elem_of_collect_frames. split.
  - intros [Hempty|(frame & sch & flds & field & lbls & Hin & Hrest)];
      [by apply not_elem_of_empty in Hempty|].
    destruct (results result) as [res|] eqn:Hres; cbn [default from_option id] in Hin;
      [|by apply elem_of_nil in Hin].
    destruct (query_A res) as [query|] eqn:Hquery; cbn [default from_option id] in Hin;
      [|by apply elem_of_nil in Hin].
    destruct (frames query) as [frs|] eqn:Hfrs; cbn [default from_option id] in Hin;
      [|by apply elem_of_nil in Hin].
    by exists res, query, frs, frame, sch, flds, field, lbls.
  - intros (res & query & frs & frame & sch & flds & field & lbls
            & Hres & Hquery & Hfrs & Hin & Hrest).
    right. exists frame, sch, flds, field, lbls.
    rewrite Hres. cbn [default from_option id]. rewrite Hquery. cbn [default from_option id].
    rewrite Hfrs. cbn [default from_option id]. done.
Qed.

(** X16.  When a panel query returns, the dashboard has answered the POST
    to the panel's query URL with a JSON body, and the names returned are
    exactly the values of the [validator_name] labels found on the fields
    of the frames of [results.A]: each once, in sorted order, whatever
    order the set is iterated in.  A body that lacks any of the keys on the
    way gives the empty list. *)
Theorem panel_query_names {World : Type}
    (dashboard_post : str -> str -> World -> panel_reply * World)
    (set_iter : gset (list Z) -> list (list Z))
    (grafana_url dashboard_token : str) (panel_id : Z) (time_from : str)
    (w w' : World) (names : list (list Z)) :
  iteration_order set_iter ->
  query_public_dashboard_panel dashboard_post set_iter grafana_url dashboard_token
    panel_id time_from w = (Ok names, w') ->
  exists result,
    dashboard_post
      (grafana_url ++ lit "/api/public/dashboards/" ++ dashboard_token
       ++ lit "/panels/" ++ lit (pretty panel_id) ++ lit "/query")
      time_from w = (PanelJson result, w')
    /\ NoDup names
    /\ Sorted text_le names
    /\ (forall name,
          name ∈ names
          <-> exists res query frs frame sch flds field lbls,
                results result = Some res /\ query_A res = Some query
                /\ frames query = Some frs /\ frame ∈ frs
                /\ schema frame = Some sch /\ fields sch = Some flds
                /\ field ∈ flds /\ labels field = Some lbls
                /\ lbls !! txt "validator_name" = Some name).
Proof.
  intros Hiter. unfold query_public_dashboard_panel. cbv zeta.
  destruct (dashboard_post _ time_from w) as [[| | |result] w1]; try discriminate.
  intros [= <- <-]. exists result. split; [reflexivity|].
  split; [|split].
  - rewrite py_sorted_perm, Hiter. apply NoDup_elements.
  - apply py_sorted_sorted.
  - intros name. rewrite py_sorted_perm, Hiter, elem_of_elements.
    apply elem_of_collect_validator_names.
Qed.

Lemma panel_query_names_witness :
  iteration_order (reverse_elements : gset (list Z) -> list (list Z))
  /\ query_public_dashboard_panel dashboard_sample reverse_elements
       sample_grafana_url PUBLIC_DASHBOARD_TOKEN METRICS_PANEL_ID (lit "now-15m")
       0%nat = (Ok [txt "alice"; txt "bob"], 1%nat)
  /\ NoDup [txt "alice"; txt "bob"]
  /\ Sorted text_le [txt "alice"; txt "bob"].
Proof.
  assert (query_public_dashboard_panel dashboard_sample reverse_elements
            sample_grafana_url PUBLIC_DASHBOARD_TOKEN METRICS_PANEL_ID
            (lit "now-15m") 0%nat = (Ok [txt "alice"; txt "bob"], 1%nat)) as Hrun
    by (vm_compute; reflexivity).
  split; [apply iteration_order_reverse|]. split; [exact Hrun|].
  destruct (panel_query_names dashboard_sample reverse_elements sample_grafana_url
              PUBLIC_DASHBOARD_TOKEN METRICS_PANEL_ID (lit "now-15m") 0%nat 1%nat
              [txt "alice"; txt "bob"] iteration_order_reverse Hrun)
    as (result & _ & Hnodup & Hsorted & _).
  by split.
Defined.

Lemma panel_url_metrics grafana_url :
  grafana_url ++ lit "/api/public/dashboards/" ++ PUBLIC_DASHBOARD_TOKEN
  ++ lit "/panels/" ++ lit (pretty METRICS_PANEL_ID) ++ lit "/query"
  = grafana_url ++ lit "/api/public/dashboards/66a372d856ea44e78cf9ac21a344f792/panels/2/query".
Proof. reflexivity. Qed.

Lemma panel_url_logs grafana_url :
  grafana_url ++ lit "/api/public/dashboards/" ++ PUBLIC_DASHBOARD_TOKEN
  ++ lit "/panels/" ++ lit (pretty LOGS_PANEL_ID) ++ lit "/query"
  = grafana_url ++ lit "/api/public/dashboards/66a372d856ea44e78cf9ac21a344f792/panels/1/query".
Proof. reflexivity. Qed.

Lemma sorted_names_facts (set_iter : gset (list Z) -> list (list Z)) X :
  iteration_order set_iter ->
  NoDup (py_sorted (set_iter X)) /\ Sorted text_le (py_sorted (set_iter X))
  /\ forall name, name ∈ py_sorted (set_iter X) <-> name ∈ X.
Proof.
  intros Hiter. split; [|split].
  - rewrite py_sorted_perm, Hiter. apply NoDup_elements.
  - apply py_sorted_sorted.
  - intros name. by rewrite py_sorted_perm, Hiter, elem_of_elements.
Qed.

(** X17.  [get_telemetry_data] never raises and always queries both
    panels, the metrics panel (panel 2, last 15 minutes) and then the logs
    panel (panel 1, last hour).  A panel whose query fails, in transport,
    by its HTTP status or by a body that is not JSON, contributes the empty
    list and leaves the other panel's names untouched; a panel that answers
    contributes its labelled names, sorted and without repetition.  Each
    count is the length of its list. *)
Theorem telemetry_panels_are_fault_isolated {World : Type}
    (dashboard_post : str -> str -> World -> panel_reply * World)
    (set_iter : gset (list Z) -> list (list Z))
    (grafana_url : str) (w w1 w2 : World) (metrics_reply logs_reply : panel_reply) :
  iteration_order set_iter ->
  dashboard_post
    (grafana_url
     ++ lit "/api/public/dashboards/66a372d856ea44e78cf9ac21a344f792/panels/2/query")
    (lit "now-15m") w = (metrics_reply, w1) ->
  dashboard_post
    (grafana_url
     ++ lit "/api/public/dashboards/66a372d856ea44e78cf9ac21a344f792/panels/1/query")
    (lit "now-1h") w1 = (logs_reply, w2) ->
  exists telemetry,
    get_telemetry_data dashboard_post set_iter grafana_url w = (Ok telemetry, w2)
    /\ (forall name,
          name ∈ tm_validators (metrics telemetry)
          <-> exists result, metrics_reply = PanelJson result
                             /\ name ∈ collect_validator_names result)
    /\ (forall name,
          name ∈ tm_validators (logs telemetry)
          <-> exists result, logs_reply = PanelJson result
                             /\ name ∈ collect_validator_names result)
    /\ NoDup (tm_validators (metrics telemetry))
    /\ NoDup (tm_validators (logs telemetry))
    /\ Sorted text_le (tm_validators (metrics telemetry))
    /\ Sorted text_le (tm_validators (logs telemetry))
    /\ tm_count (metrics telemetry) = length (tm_validators (metrics telemetry))
    /\ tm_count (logs telemetry) = length (tm_validators (logs telemetry)).
Proof.
  intros Hiter Hmetrics Hlogs.
  unfold get_telemetry_data.
  unfold io_bind at 1, io_try at 1, query_public_dashboard_panel at 1. cbv zeta.
  rewrite panel_url_metrics, Hmetrics.
  assert (exists metrics_names,
            (let (r, w') :=
               match metrics_reply with
               | PanelTransportFailure => (Raise ConnectionError, w1)
               | PanelHttpErrorStatus => (Raise HTTPError, w1)
               | PanelBodyNotJson => (Raise JSONDecodeError, w1)
               | PanelJson result =>
                   (Ok (py_sorted (set_iter (collect_validator_names result))), w1)
               end in (Ok (try_except r []), w'))
            = (Ok metrics_names, w1)
            /\ (forall name,
                  name ∈ metrics_names
                  <-> exists result, metrics_reply = PanelJson result
                                     /\ name ∈ collect_validator_names result)
            /\ NoDup metrics_names /\ Sorted text_le metrics_names)
    as (metrics_names & -> & Hm & Hmn & Hms).
  { destruct metrics_reply as [| | |result].
    1-3: exists []; split; [reflexivity|]; split; [|split; constructor];
      intros name; split; [by intros ?%elem_of_nil|by intros (? & ? & _)].
    exists (py_sorted (set_iter (collect_validator_names result))).
    destruct (sorted_names_facts set_iter (collect_validator_names result) Hiter)
      as (Hnd & Hs & Hin).
    split; [reflexivity|]. split; [|by split].
    intros name. rewrite Hin. split; [by exists result|].
    by intros (? & [= <-] & ?). }
  unfold io_bind at 1, io_try at 1, query_public_dashboard_panel at 1. cbv zeta.
  rewrite panel_url_logs, Hlogs.
  assert (exists logs_names,
            (let (r, w') :=
               match logs_reply with
               | PanelTransportFailure => (Raise ConnectionError, w2)
               | PanelHttpErrorStatus => (Raise HTTPError, w2)
               | PanelBodyNotJson => (Raise JSONDecodeError, w2)
               | PanelJson result =>
                   (Ok (py_sorted (set_iter (collect_validator_names result))), w2)
               end in (Ok (try_except r []), w'))
            = (Ok logs_names, w2)
            /\ (forall name,
                  name ∈ logs_names
                  <-> exists result, logs_reply = PanelJson result
                                     /\ name ∈ collect_validator_names result)
            /\ NoDup logs_names /\ Sorted text_le logs_names)
    as (logs_names & -> & Hl & Hln & Hls).
  { destruct logs_reply as [| | |result].
    1-3: exists []; split; [reflexivity|]; split; [|split; constructor];
      intros name; split; [by intros ?%elem_of_nil|by intros (? & ? & _)].
    exists (py_sorted (set_iter (collect_validator_names result))).
    destruct (sorted_names_facts set_iter (collect_validator_names result) Hiter)
      as (Hnd & Hs & Hin).
    split; [reflexivity|]. split; [|by split].
    intros name. rewrite Hin. split; [by exists result|].
    by intros (? & [= <-] & ?). }
  unfold io_ret. eexists. split; [reflexivity|].
  cbn [metrics logs tm_validators tm_count]. done.
Qed.

Lemma telemetry_panels_are_fault_isolated_witness :
  iteration_order (elements : gset (list Z) -> list (list Z))
  /\ exists telemetry,
       get_telemetry_data dashboard_metrics_down elements sample_grafana_url 0%nat
       = (Ok telemetry, 2%nat)
       /\ tm_validators (metrics telemetry) = []
       /\ tm_validators (logs telemetry) = [txt "bob"; txt "carol"].
Proof.
  split; [apply iteration_order_elements|].
  destruct (telemetry_panels_are_fault_isolated dashboard_metrics_down elements
              sample_grafana_url 0%nat 1%nat 2%nat PanelTransportFailure
              (PanelJson (body_of_names [txt "carol"; txt "bob"]))
              iteration_order_elements)
    as (telemetry & Hrun & _); try (vm_compute; reflexivity).
  exists telemetry. split; [exact Hrun|].
  vm_compute in Hrun. injection Hrun as <-. split; reflexivity.
Defined.

(** ** The files written *)

Lemma replace_json_by_md_cons c0 s0 :
  replace_json_by_md (c0 :: s0)
  = if str_eqb (take 5 (c0 :: s0)) (lit ".json")
    then lit ".md" ++ replace_json_by_md (drop 5 (c0 :: s0))
    else c0 :: replace_json_by_md s0.
Proof.
  destruct s0 as [|c1 [|c2 [|c3 [|c4 rest]]]]; try reflexivity;
    unfold str_eqb; case_bool_decide as Hhead;
    first [discriminate Hhead|reflexivity].
Qed.

Lemma replace_json_by_md_at_match post :
  replace_json_by_md (lit ".json" ++ post) = lit ".md" ++ replace_json_by_md post.
Proof. reflexivity. Qed.

Lemma occurs_in_cons pat c s : occurs_in pat s -> occurs_in pat (c :: s).
Proof. intros (pre & post & ->). by exists (c :: pre), post. Qed.

Lemma occurs_at_head_or_tail c s :
  occurs_in (lit ".json") (c :: s) ->
  take 5 (c :: s) = lit ".json" \/ occurs_in (lit ".json") s.
Proof.
  intros ([|c' pre] & post & Heq).
  - left. rewrite Heq. reflexivity.
  - right. injection Heq as _ ->. by exists pre, post.
Qed.

(** [str.replace] leaves a string alone exactly when the pattern does not
    occur in it, and otherwise makes it shorter. *)
Lemma replace_json_by_md_length (n : nat) :
  forall s, (length s <= n)%nat ->
    (length (replace_json_by_md s) <= length s)%nat
    /\ (occurs_in (lit ".json") s ->
        (length (replace_json_by_md s) < length s)%nat).
Proof.
  induction n as [|n IH]; intros s Hlen.
  - destruct s; [|cbn in Hlen; lia]. split; [done|].
    intros (pre & post & Heq). by destruct pre.
  - destruct s as [|c0 s0].
    { split; [done|]. intros (pre & post & Heq). by destruct pre. }
    rewrite replace_json_by_md_cons. unfold str_eqb. case_bool_decide as Hhead.
    + assert (length (drop 5 (c0 :: s0)) + 5 = length (c0 :: s0))%nat as Hdrop.
      { rewrite length_drop.
        assert (length (take 5 (c0 :: s0)) = 5%nat) as Htake by (by rewrite Hhead).
        rewrite length_take in Htake. lia. }
      destruct (IH (drop 5 (c0 :: s0))) as [Hle _]; [cbn [length] in *; lia|].
      rewrite length_app. change (length (lit ".md")) with 3%nat.
      split; [lia|intros _; lia].
    + destruct (IH s0) as [Hle Hlt]; [cbn [length] in Hlen; lia|].
      cbn [length]. split; [lia|].
      intros Hocc. apply occurs_at_head_or_tail in Hocc as [Hocc|Hocc]; [done|].
      specialize (Hlt Hocc). lia.
Qed.

Lemma replace_json_by_md_absent s :
  ~ occurs_in (lit ".json") s -> replace_json_by_md s = s.
Proof.
  induction s as [|c0 s0 IH]; intros Hno; [reflexivity|].
  rewrite replace_json_by_md_cons. unfold str_eqb. case_bool_decide as Hhead.
  - exfalso. apply Hno. exists [], (drop 5 (c0 :: s0)).
    rewrite <-Hhead. cbn [app]. by rewrite take_drop.
  - f_equal. apply IH. intros Hocc. by apply Hno, occurs_in_cons.
Qed.

(** X18.  With [--format both] the JSON report is written to the output
    path and the Markdown report to the path with every [.json] replaced by
    [.md].  The two paths are the same, so that the Markdown report
    overwrites the JSON report just written, exactly when [.json] does not
    occur in the output path. *)
Theorem both_formats_share_a_path_iff (output : str) :
  report_writes FormatBoth output
  = [(output, JsonDocument); (replace_json_by_md output, MarkdownDocument)]
  /\ (replace_json_by_md output = output <-> ~ occurs_in (lit ".json") output).
Proof.
  split; [reflexivity|]. split.
  - intros Hsame Hocc.
    destruct (replace_json_by_md_length (length output) output (le_n _)) as [_ Hlt].
    specialize (Hlt Hocc). rewrite Hsame in Hlt. lia.
  - apply replace_json_by_md_absent.
Qed.

Lemma both_formats_share_a_path_iff_witness :
  report_writes FormatBoth (lit "report.txt")
  = [(lit "report.txt", JsonDocument); (lit "report.txt", MarkdownDocument)].
Proof.
  destruct (both_formats_share_a_path_iff (lit "report.txt")) as [Hwrites Hiff].
  rewrite Hwrites.
  replace (replace_json_by_md (lit "report.txt")) with (lit "report.txt");
    [reflexivity|].
  symmetry. apply Hiff.
  intros (pre & post & Heq).
  do 11 (destruct pre as [|? pre];
         [discriminate Heq|first [discriminate Heq|injection Heq as _ Heq]]).
Defined.

Lemma replace_json_by_md_first_match pre post :
  ~ occurs_in (lit ".json") pre ->
  replace_json_by_md (pre ++ lit ".json" ++ post)
  = pre ++ lit ".md" ++ replace_json_by_md post.
Proof.
  induction pre as [|c pre IH]; intros Hno; [apply replace_json_by_md_at_match|].
  rewrite <-app_comm_cons, replace_json_by_md_cons.
  unfold str_eqb. case_bool_decide as Hhead.
  - exfalso.
    destruct pre as [|c1 [|c2 [|c3 [|c4 rest]]]];
      try (cbn in Hhead; discriminate Hhead).
    apply Hno. exists [], rest. cbn in Hhead. cbn [app].
    by injection Hhead as -> -> -> -> ->.
  - rewrite <-app_comm_cons. f_equal. apply IH.
    intros Hocc. by apply Hno, occurs_in_cons.
Qed.

(** X19.  For an output path that ends in [.json] and has no other
    [.json] in it, [--format both] writes the JSON report to that path and
    the Markdown report beside it, under the same name with [.md] for
    [.json]; [--format markdown] writes the Markdown report to the output
    path as it is given, [.json] ending included. *)
Theorem writes_for_a_json_path (stem : str) :
  ~ occurs_in (lit ".json") stem ->
  report_writes FormatJson (stem ++ lit ".json")
  = [(stem ++ lit ".json", JsonDocument)]
  /\ report_writes FormatBoth (stem ++ lit ".json")
     = [(stem ++ lit ".json", JsonDocument); (stem ++ lit ".md", MarkdownDocument)]
  /\ report_writes FormatMarkdown (stem ++ lit ".json")
     = [(stem ++ lit ".json", MarkdownDocument)].
Proof.
  intros Hno. split; [reflexivity|]. split; [|reflexivity].
  unfold report_writes. cbn [app].
  replace (stem ++ lit ".json") with (stem ++ lit ".json" ++ []) at 2
    by (by rewrite app_nil_r).
  rewrite (replace_json_by_md_first_match stem [] Hno).
  reflexivity.
Qed.

Lemma writes_for_a_json_path_witness :
  report_writes FormatBoth (lit "validator-telemetry-report.json")
  = [(lit "validator-telemetry-report.json", JsonDocument);
     (lit "validator-telemetry-report.md", MarkdownDocument)].
Proof.
  apply (writes_for_a_json_path (lit "validator-telemetry-report")).
  intros (pre & post & Heq).
  do 27 (destruct pre as [|? pre];
         [discriminate Heq|first [discriminate Heq|injection Heq as _ Heq]]).
Defined.

(** ** The rates never overflow *)

Lemma rne_div_bounds a b :
  0 <= a -> 0 < b -> 0 <= rne_div a b <= a / b + 1.
Proof.
  intros Ha Hb. unfold rne_div.
  pose proof (Z.div_pos a b Ha Hb).
  destruct (2 * (a mod b) <? b); [lia|].
  destruct (b <? 2 * (a mod b)); [lia|].
  destruct (Z.even (a / b)); lia.
Qed.

Lemma floor_log2_ratio_bounds p q :
  Z.log2 p - Z.log2 q - 1 <= floor_log2_ratio p q <= Z.log2 p - Z.log2 q.
Proof.
  unfold floor_log2_ratio.
  destruct (_ <=? _); lia.
Qed.

Lemma pow2_pos n : 0 < 2 ^ n \/ (n < 0 /\ 2 ^ n = 0).
Proof.
  destruct (Z.le_gt_cases 0 n) as [Hn|Hn].
  - left. by apply Z.pow_pos_nonneg.
  - right. split; [done|]. by apply Z.pow_neg_r.
Qed.

(** The quotient of two integers is a finite double as long as the
    numerator is below [2^1023]. *)
Lemma round_binary64_finite p q :
  0 <= p < 2 ^ 1023 -> 1 <= q ->
  exists m e, round_binary64 p q = Finite m e.
Proof.
  intros [Hp0 Hp] Hq. unfold round_binary64.
  destruct (Z.eqb_spec p 0) as [_|Hnz]; [eauto|].
  set (fl := floor_log2_ratio p q).
  set (e := Z.max (fl - 52) (-1074)).
  set (m := rne_div (p * 2 ^ Z.max 0 (- e)) (q * 2 ^ Z.max 0 e)).
  destruct (Z.leb_spec (2 ^ 1024) (m * 2 ^ Z.max 0 e)) as [Hover|_]; [|eauto].
  exfalso.
  pose proof (floor_log2_ratio_bounds p q) as Hfl. fold fl in Hfl.
  assert (0 < p) as Hppos by lia.
  destruct (Z.log2_spec p Hppos) as [Hplo Hphi].
  destruct (Z.log2_spec q ltac:(lia)) as [Hqlo Hqhi].
  pose proof (Z.log2_nonneg p) as Hlp. pose proof (Z.log2_nonneg q) as Hlq.
  assert (Z.log2 p < 1023) as Hlp' by (apply Z.log2_lt_pow2; lia).
  assert (0 < 2 ^ Z.max 0 e) as He by (apply Z.pow_pos_nonneg; lia).
  assert (0 < 2 ^ Z.max 0 (- e)) as Hne by (apply Z.pow_pos_nonneg; lia).
  destruct (rne_div_bounds (p * 2 ^ Z.max 0 (- e)) (q * 2 ^ Z.max 0 e)
              ltac:(nia) ltac:(nia)) as [Hm0 Hm]. fold m in Hm0, Hm.
  destruct (Z.le_gt_cases 0 e) as [Hepos|Heneg].
  - (* the exponent is not negative: the mantissa is at most p / 2^e + 1 *)
    rewrite (Z.max_r 0 e) in * by lia.
    rewrite (Z.max_l 0 (- e)) in * by lia.
    rewrite Z.pow_0_r, Z.mul_1_r in Hm.
    assert (p / (q * 2 ^ e) * 2 ^ e <= p) as Hquot.
    { pose proof (Z.mul_div_le p (q * 2 ^ e) ltac:(nia)) as Hmd.
      assert (0 <= p / (q * 2 ^ e)) by (apply Z.div_pos; nia). nia. }
    assert (e <= 1022 - 52) as Hebound by lia.
    assert (2 ^ e <= 2 ^ 970) by (apply Z.pow_le_mono_r; lia).
    assert (2 ^ 970 < 2 ^ 1023) by (apply Z.pow_lt_mono_r; lia).
    assert (2 ^ 1024 = 2 * 2 ^ 1023) as Hdouble
      by (change 1024 with (Z.succ 1023); apply Z.pow_succ_r; lia).
    nia.
  - (* the exponent is negative: the mantissa is at most 2^54 + 1 *)
    rewrite (Z.max_l 0 e) in * by lia.
    rewrite (Z.max_r 0 (- e)) in * by lia.
    rewrite Z.pow_0_r, !Z.mul_1_r in *.
    assert (- e <= 53 - Z.log2 p + Z.log2 q) as Hexp by lia.
    assert (p * 2 ^ (- e) < q * 2 ^ 54) as Hnum.
    { assert (2 ^ (- e) <= 2 ^ (53 - Z.log2 p + Z.log2 q))
        by (apply Z.pow_le_mono_r; lia).
      assert (2 ^ Z.succ (Z.log2 p) * 2 ^ (53 - Z.log2 p + Z.log2 q)
              = 2 ^ Z.log2 q * 2 ^ 54) as Hpow.
      { rewrite <-!Z.pow_add_r by lia. f_equal. lia. }
      assert (0 < 2 ^ (53 - Z.log2 p + Z.log2 q)) by (apply Z.pow_pos_nonneg; lia).
      nia. }
    assert (p * 2 ^ (- e) / q < 2 ^ 54) as Hdiv
      by (apply Z.div_lt_upper_bound; lia).
    assert (2 ^ 54 + 1 < 2 ^ 1024) by (vm_compute; reflexivity).
    lia.
Qed.

Lemma format_rate_returns (count onchain_count : nat) :
  Z.of_nat count < 2 ^ 1023 ->
  exists rate, format_rate count onchain_count = Ok rate.
Proof.
  intros Hcount. unfold format_rate, py_truediv.
  destruct (Z.eqb_spec (Z.of_nat (Nat.max onchain_count 1)) 0) as [Hz|_]; [lia|].
  destruct (round_binary64_finite (Z.of_nat count)
              (Z.of_nat (Nat.max onchain_count 1)) ltac:(lia) ltac:(lia))
    as (m & e & ->).
  rewrite bind_Ok. eauto.
Qed.

Lemma format_rate_raises (count onchain_count : nat) e :
  format_rate count onchain_count = Raise e ->
  e = OverflowError /\ 2 ^ 1023 <= Z.of_nat count.
Proof.
  intros Hraise.
  destruct (Z.le_gt_cases (2 ^ 1023) (Z.of_nat count)) as [Hbig|Hsmall].
  - split; [|done]. revert Hraise. unfold format_rate, py_truediv.
    destruct (Z.eqb_spec (Z.of_nat (Nat.max onchain_count 1)) 0) as [Hz|_]; [lia|].
    destruct (round_binary64 _ _); [rewrite bind_Ok; discriminate|].
    rewrite bind_Raise. by intros [= <-].
  - destruct (format_rate_returns count onchain_count Hsmall) as [rate Hrate].
    congruence.
Qed.

Lemma size_union_names_le (l1 l2 : list (list Z)) :
  (size (list_to_set l1 ∪ list_to_set l2 : gset (list Z)) <= length l1 + length l2)%nat.
Proof.
  rewrite size_union_alt.
  pose proof (size_names_le l1). pose proof (size_names_le l2).
  assert (size ((list_to_set l2 : gset (list Z)) ∖ list_to_set l1)
          <= size (list_to_set l2 : gset (list Z)))%nat.
  { apply subseteq_size. intros x. rewrite elem_of_difference. tauto. }
  lia.
Qed.

(** X20.  [generate_report] returns a report for every on-chain data and
    every telemetry data whose two name lists hold fewer than [2^1023]
    names together: no count of active validators, zero included, and no
    set of names makes the two rates fail. *)
Theorem generate_report_returns
    (set_iter : gset (list Z) -> list (list Z)) (now : str)
    (onchain : onchain_data) (telemetry : telemetry_data)
    (rpc_url grafana_url : str) :
  Z.of_nat (length (tm_validators (metrics telemetry))
            + length (tm_validators (logs telemetry))) < 2 ^ 1023 ->
  exists r,
    generate_report set_iter now onchain telemetry rpc_url grafana_url = Ok r.
Proof.
  intros Hbound. unfold generate_report, telemetry_categories. cbv zeta.
  pose proof (size_union_names_le (tm_validators (metrics telemetry))
                (tm_validators (logs telemetry))) as Hunion.
  destruct (format_rate (size (_ ∪ _)) _) as [adoption|e] eqn:Hadoption.
  2: { apply format_rate_raises in Hadoption as [_ Hbig]. lia. }
  rewrite bind_Ok.
  destruct (format_rate (size (_ ∩ _)) _) as [observability|e] eqn:Hobservability.
  2: { apply format_rate_raises in Hobservability as [_ Hbig].
       pose proof (subseteq_size
                     (list_to_set (tm_validators (metrics telemetry))
                      ∩ list_to_set (tm_validators (logs telemetry)) : gset (list Z))
                     (list_to_set (tm_validators (metrics telemetry))
                      ∪ list_to_set (tm_validators (logs telemetry)))) as Hinter.
       assert (forall x : list Z,
                 x ∈ (list_to_set (tm_validators (metrics telemetry))
                      ∩ list_to_set (tm_validators (logs telemetry)) : gset (list Z)) ->
                 x ∈ (list_to_set (tm_validators (metrics telemetry))
                      ∪ list_to_set (tm_validators (logs telemetry)) : gset (list Z)))
         as Hsub by (intros x; rewrite elem_of_intersection, elem_of_union; tauto).
       specialize (Hinter Hsub). lia. }
  rewrite bind_Ok. eauto.
Qed.

Lemma generate_report_returns_witness :
  exists r,
    generate_report elements sample_now empty_onchain sample_telemetry
      sample_rpc_url sample_grafana_url = Ok r.
Proof.
  apply generate_report_returns. vm_compute. reflexivity.
Defined.
